(** * applepassgenerator: the pass model and its assembly pipeline

    A shallow embedding of [utils.py], [validators.py],
    [models/constants.py], [models/barcodes.py],
    [models/relevant_date.py], [models/locations.py],
    [models/pass_base.py], [models/fields.py], [models/pass_types.py],
    [models/personalization.py] and [models/semantic_tags.py], followed
    by the properties of the specification that concern them and by
    further properties of the code.

    Conventions of the embedding.
    - A Python [str] is a [string]; each [ascii] is one code point in
      [0, 255], so the texts covered are the Latin-1 ones.
    - A Python [int] is a [Z]; a Python [float] is a binary64 value of
      [spec_float].
    - A Python [dict] is an association list kept in insertion order:
      writing an existing key replaces its value in place, writing a new
      key appends it ([Dict.set]).
    - A function that may raise returns a [result]; the exception classes
      are the constructors of [exn], carrying the message of the source.
    - The fields of the model classes carry the types their docstrings
      give; values of any type ([pyval]) appear where the source inspects
      the type or the truth value of what it is given.
    - The built-in functions and the standard library ([int], [repr],
      [json], [hashlib], [zipfile], [warnings], [object.__setattr__])
      behave as in CPython 3.11; a call of [warnings.warn] is recorded
      as an event and returns, as it does under the default warning
      filters. *)

From Stdlib Require Import ZArith List String Ascii Bool Lia DecimalString.
From Stdlib Require Import Strings.Byte.
From Stdlib Require Import Floats.SpecFloat.
Import ListNotations.

Local Open Scope list_scope.
Local Open Scope string_scope.

(** ** Exceptions and fallible computations *)

Inductive exn : Type :=
| ValueError (msg : string)
| TypeError (msg : string)
| OverflowError (msg : string)
| AttributeError (msg : string)
| IndexError (msg : string)
| KeyError (msg : string)
| CryptoError (msg : string)
| OSError (msg : string).

Inductive result (A : Type) : Type :=
| Ok (a : A)
| Raise (e : exn).

Arguments Ok {A} a.
Arguments Raise {A} e.

Definition bind {A B : Type} (c : result A) (k : A -> result B) : result B :=
  match c with
  | Ok a => k a
  | Raise e => Raise e
  end.

Declare Scope result_scope.
Delimit Scope result_scope with result.
Notation "x <- c ;; k" := (bind c (fun x => k))
  (at level 61, c at next level, right associativity) : result_scope.
Notation "c ;;; k" := (bind c (fun _ => k))
  (at level 61, right associativity) : result_scope.

Definition is_ok {A : Type} (r : result A) : bool :=
  match r with Ok _ => true | Raise _ => false end.

(** ** Python dictionaries *)

Module Dict.

Definition t (V : Type) : Type := list (string * V).

Definition empty {V : Type} : t V := [].

Fixpoint get {V : Type} (k : string) (d : t V) : option V :=
  match d with
  | [] => None
  | (k', v) :: d' => if String.eqb k k' then Some v else get k d'
  end.

(** [d[k] = v] *)
Fixpoint set {V : Type} (k : string) (v : V) (d : t V) : t V :=
  match d with
  | [] => [(k, v)]
  | (k', v') :: d' =>
      if String.eqb k k' then (k, v) :: d' else (k', v') :: set k v d'
  end.

Definition keys {V : Type} (d : t V) : list string := map fst d.

(** [for k, v in items: d[k] = v] *)
Definition update {V : Type} (items : list (string * V)) (d : t V) : t V :=
  fold_left (fun acc kv => set (fst kv) (snd kv) acc) items d.

(** A dictionary display [{k1: v1, ..., kn: vn}]. *)
Definition of_list {V : Type} (items : list (string * V)) : t V :=
  update items empty.

End Dict.

(** ** Python strings and integers *)

Definition str_of_int (z : Z) : string := NilZero.string_of_int (Z.to_int z).

(** [s.lstrip(c)] for a one-character set. *)
Fixpoint lstrip (c : ascii) (s : string) : string :=
  match s with
  | String a s' => if Ascii.eqb a c then lstrip c s' else s
  | EmptyString => s
  end.

(** [''.join([c*2 for c in s])] *)
Fixpoint double_chars (s : string) : string :=
  match s with
  | EmptyString => EmptyString
  | String a s' => String a (String a (double_chars s'))
  end.

(** [s[i:j]] for [0 <= i <= j]. *)
Definition slice (i j : nat) (s : string) : string := substring i (j - i) s.

(** The white space [int()] skips around a number: the ASCII white space
    and, of the other Latin-1 characters, NEL and the no-break space. *)
Definition int_space (c : ascii) : bool :=
  let n := nat_of_ascii c in
  ((9 <=? n) && (n <=? 13) || (n =? 32) || (n =? 133) || (n =? 160))%nat.

Definition digit_value (c : ascii) : option Z :=
  let n := Z.of_nat (nat_of_ascii c) in
  if ((48 <=? n) && (n <=? 57))%Z then Some (n - 48)%Z
  else if ((97 <=? n) && (n <=? 122))%Z then Some (n - 87)%Z
  else if ((65 <=? n) && (n <=? 90))%Z then Some (n - 55)%Z
  else None.

Definition underscore : ascii := "_"%char.

(** The digits of a literal in [base], single underscores allowed between
    them; [prev_us] tells that the previous character was an underscore,
    [seen] that a digit has been read.  Returns the value and the rest of
    the text, or [None] for a doubled or trailing underscore. *)
Fixpoint scan_digits (base : Z) (prev_us seen : bool) (acc : Z) (s : string)
  : option (Z * bool * string) :=
  match s with
  | EmptyString => if prev_us then None else Some (acc, seen, s)
  | String c s' =>
      if Ascii.eqb c underscore then
        if prev_us then None else scan_digits base true seen acc s'
      else
        match digit_value c with
        | Some v =>
            if (v <? base)%Z
            then scan_digits base false true (acc * base + v)%Z s'
            else if prev_us then None else Some (acc, seen, s)
        | None => if prev_us then None else Some (acc, seen, s)
        end
  end.

Fixpoint skip_spaces (s : string) : string :=
  match s with
  | String c s' => if int_space c then skip_spaces s' else s
  | EmptyString => s
  end.

Definition strip_sign (s : string) : bool * string :=
  match s with
  | String "+"%char s' => (false, s')
  | String "-"%char s' => (true, s')
  | _ => (false, s)
  end.

Definition strip_hex_prefix (s : string) : string :=
  match s with
  | String "0"%char (String x s') =>
      if Ascii.eqb x "x"%char || Ascii.eqb x "X"%char then
        match s' with
        | String u s'' => if Ascii.eqb u underscore then s'' else s'
        | EmptyString => s'
        end
      else s
  | _ => s
  end.

(** [int(s, 16)]: [None] where Python raises [ValueError]. *)
Definition int_base16 (s : string) : option Z :=
  let (neg, s1) := strip_sign (skip_spaces s) in
  let s2 := strip_hex_prefix s1 in
  match s2 with
  | String c _ =>
      if Ascii.eqb c underscore then None
      else
        match scan_digits 16 false false 0 s2 with
        | Some (v, true, rest) =>
            match skip_spaces rest with
            | EmptyString => Some (if neg then (- v)%Z else v)
            | String _ _ => None
            end
        | _ => None
        end
  | EmptyString => None
  end.

(** [repr(s)] for a [str].  The text is quoted with ['], or with the
    double quote when it holds a ['] and no double quote; the quote in
    use and the backslash are escaped with a backslash, tab, line feed
    and carriage return are written [\t], [\n] and [\r], and every other
    character that [str.isprintable] rejects is written [\xNN]. *)
Definition squote : ascii := ascii_of_nat 39.
Definition dquote : ascii := ascii_of_nat 34.
Definition backslash : ascii := ascii_of_nat 92.

Definition isprintable (c : ascii) : bool :=
  let n := nat_of_ascii c in
  ((32 <=? n) && (n <=? 126) || (161 <=? n) && negb (n =? 173))%nat.

Definition repr_hex_digit (n : nat) : ascii :=
  ascii_of_nat (if (n <? 10)%nat then 48 + n else 87 + n).

(** The printable characters of a [bytes] object: those of ASCII. *)
Definition isprintable_byte (c : ascii) : bool :=
  let n := nat_of_ascii c in ((32 <=? n) && (n <=? 126))%nat.

Definition repr_char (printable : ascii -> bool) (quote c : ascii) : string :=
  let n := nat_of_ascii c in
  if Ascii.eqb c quote || Ascii.eqb c backslash then
    String backslash (String c EmptyString)
  else if (n =? 9)%nat then "\t"
  else if (n =? 10)%nat then "\n"
  else if (n =? 13)%nat then "\r"
  else if printable c then String c EmptyString
  else
    String backslash
      (String "x"%char
         (String (repr_hex_digit (n / 16))
            (String (repr_hex_digit (n mod 16)) EmptyString))).

Fixpoint repr_chars (printable : ascii -> bool) (quote : ascii) (s : string)
  : string :=
  match s with
  | EmptyString => EmptyString
  | String c s' => repr_char printable quote c ++ repr_chars printable quote s'
  end.

Fixpoint has_char (c : ascii) (s : string) : bool :=
  match s with
  | EmptyString => false
  | String a s' => Ascii.eqb a c || has_char c s'
  end.

Definition repr_quoted (printable : ascii -> bool) (s : string) : string :=
  let quote :=
    if has_char squote s && negb (has_char dquote s) then dquote else squote in
  String quote (repr_chars printable quote s) ++ String quote EmptyString.

Definition py_repr (s : string) : string := repr_quoted isprintable s.

(** [repr(b)] for a [bytes] object: the same with the prefix [b], the
    bytes above 126 being escaped too. *)
Definition bytes_repr (b : list byte) : string :=
  "b" ++ repr_quoted isprintable_byte (string_of_list_byte b).

(** ** utils.py *)

Definition in_byte_range (v : Z) : bool := ((0 <=? v) && (v <=? 255))%Z.

Definition rgb_color (r g b : Z) : result string :=
  if negb (forallb in_byte_range [r; g; b]) then
    Raise (ValueError "RGB values must be between 0 and 255")
  else
    Ok ("rgb(" ++ str_of_int r ++ ", " ++ str_of_int g ++ ", "
          ++ str_of_int b ++ ")").

(** [int(s, 16)]; the message of the [ValueError] holds the first 200
    characters of [repr(s)]. *)
Definition parse_hex_pair (s : string) : result Z :=
  match int_base16 s with
  | Some v => Ok v
  | None =>
      Raise (ValueError ("invalid literal for int() with base 16: "
                           ++ substring 0 200 (py_repr s)))
  end.

(** [hex_to_rgb(hex_color)] for a [str] argument, the type of the
    annotation; the first guard of the source rejects the other types. *)
Definition hex_to_rgb (hex_color : string) : result string :=
  let hex_color := lstrip "#"%char hex_color in
  if negb ((String.length hex_color =? 3)%nat || (String.length hex_color =? 6)%nat)
  then Raise (ValueError "Hex color must be 3 or 6 characters (excluding '#')")
  else
    match int_base16 hex_color with
    | None =>
        Raise (ValueError ("Invalid hex color: '" ++ hex_color
                             ++ "' contains non-hex characters"))
    | Some _ =>
        let hex_color :=
          if (String.length hex_color =? 3)%nat then double_chars hex_color
          else hex_color in
        (r <- parse_hex_pair (slice 0 2 hex_color) ;;
         g <- parse_hex_pair (slice 2 4 hex_color) ;;
         b <- parse_hex_pair (slice 4 6 hex_color) ;;
         rgb_color r g b)%result
    end.

(** ** models/constants.py *)

Module BarcodeFormat.
Definition PDF417 : string := "PKBarcodeFormatPDF417".
Definition QR : string := "PKBarcodeFormatQR".
Definition AZTEC : string := "PKBarcodeFormatAztec".
Definition CODE128 : string := "PKBarcodeFormatCode128".
End BarcodeFormat.

(** [value in formats] on strings *)
Definition str_in (value : string) (l : list string) : bool :=
  existsb (String.eqb value) l.

Definition str_truthy (s : string) : bool :=
  match s with EmptyString => false | String _ _ => true end.

(** The truth value of an optional string: [None] and [""] are false. *)
Definition opt_truthy (o : option string) : bool :=
  match o with Some s => str_truthy s | None => false end.

(** ** The objects of the model layer

    [Barcode.altText] is [None] when the instance has no such attribute:
    the constructor sets it only for an [alt_text] that is not [None]. *)

Module Barcode.
Record t : Type := mk
  { _format : string;
    _message : string;
    messageEncoding : string;
    altText : option string }.
End Barcode.

Module RelevantDate.
Record t : Type := mk
  { date : option string;
    startDate : option string;
    endDate : option string }.
End RelevantDate.

Module Location.
Record t : Type := mk
  { latitude : spec_float;
    longitude : spec_float;
    altitude : option spec_float;
    maxDistance : option spec_float;
    relevantText : option string }.
End Location.

Module IBeacon.
Record t : Type := mk
  { proximityUUID : string;
    major : option Z;
    minor : option Z;
    relevantText : option string }.
End IBeacon.

(** The five subclasses of [PassInformation] in [models/pass_types.py]
    and the [jsonname] each constructor sets. *)
Inductive pass_type : Type :=
| BoardingPass
| Coupon
| EventTicket
| Generic
| StoreCard.

Definition jsonname (k : pass_type) : string :=
  match k with
  | BoardingPass => "boardingPass"
  | Coupon => "coupon"
  | EventTicket => "eventTicket"
  | Generic => "generic"
  | StoreCard => "storeCard"
  end.

Definition pass_type_name (k : pass_type) : string :=
  match k with
  | BoardingPass => "BoardingPass"
  | Coupon => "Coupon"
  | EventTicket => "EventTicket"
  | Generic => "Generic"
  | StoreCard => "StoreCard"
  end.

(** ** Python values

    [PPassInformation] is an instance of one of the five [PassInformation]
    subclasses, held as its class and the dictionary its [json_dict()]
    returns; [PModel] is an instance of any other class with a
    [json_dict()] method (NFC payload, [SemanticTags], [Personalization],
    upcoming-event entries), held as its class name and that dictionary;
    [PObject] is an instance of any other class, a plain one: it has no
    length, cannot be iterated, and is neither a dictionary nor a
    class. *)

Definition bytes : Type := list byte.

#[local] Set Warnings "-register-all".

Inductive pyval : Type :=
| PNone
| PBool (b : bool)
| PInt (z : Z)
| PFloat (f : spec_float)
| PStr (s : string)
| PBytes (b : bytes)
| PList (l : list pyval)
| PDict (d : list (string * pyval))
| PBarcode (b : Barcode.t)
| PLocation (l : Location.t)
| PIBeacon (b : IBeacon.t)
| PRelevantDate (r : RelevantDate.t)
| PPassInformation (kind : pass_type) (proj : list (string * pyval))
| PModel (cls : string) (proj : list (string * pyval))
| PObject (cls : string).

Definition pydict : Type := Dict.t pyval.

(** [type(v).__name__] *)
Definition type_name (v : pyval) : string :=
  match v with
  | PNone => "NoneType"
  | PBool _ => "bool"
  | PInt _ => "int"
  | PFloat _ => "float"
  | PStr _ => "str"
  | PBytes _ => "bytes"
  | PList _ => "list"
  | PDict _ => "dict"
  | PBarcode _ => "Barcode"
  | PLocation _ => "Location"
  | PIBeacon _ => "IBeacon"
  | PRelevantDate _ => "RelevantDate"
  | PPassInformation kind _ => pass_type_name kind
  | PModel cls _ => cls
  | PObject cls => cls
  end.

Definition float_is_zero (f : spec_float) : bool :=
  match f with S754_zero _ => true | _ => false end.

(** The truth value [if v:] tests.  No class of the model layer defines
    [__bool__] or [__len__], so its instances are true. *)
Definition truthy (v : pyval) : bool :=
  match v with
  | PNone => false
  | PBool b => b
  | PInt z => negb (z =? 0)%Z
  | PFloat f => negb (float_is_zero f)
  | PStr s => str_truthy s
  | PBytes b => match b with [] => false | _ :: _ => true end
  | PList l => match l with [] => false | _ :: _ => true end
  | PDict d => match d with [] => false | _ :: _ => true end
  | _ => true
  end.

Definition is_none (v : pyval) : bool :=
  match v with PNone => true | _ => false end.

Definition opt_str (o : option string) : pyval :=
  match o with Some s => PStr s | None => PNone end.

(** ** models/barcodes.py *)

Module BarcodeOps.
Import Barcode.

Definition valid_formats : list string :=
  [BarcodeFormat.PDF417; BarcodeFormat.QR; BarcodeFormat.AZTEC;
   BarcodeFormat.CODE128].

(** The [format] setter. *)
Definition check_format (value : string) : result string :=
  if negb (str_in value valid_formats) then
    Raise (ValueError
             ("Invalid barcode format: " ++ value ++ ". Must be one of: "
              ++ "BarcodeFormat.PDF417, BarcodeFormat.QR, BarcodeFormat.AZTEC, "
              ++ "or BarcodeFormat.CODE128"))
  else Ok value.

(** The [message] setter. *)
Definition check_message (value : string) : result string :=
  if negb (str_truthy value) then
    Raise (ValueError "Barcode message cannot be empty")
  else Ok value.

(** [Barcode(message, format, encoding, alt_text)], the arguments in the
    order of the signature. *)
Definition init (message format encoding : string) (alt_text : option string)
  : result Barcode.t :=
  (f <- check_format format ;;
   m <- check_message message ;;
   Ok {| _format := f; _message := m; messageEncoding := encoding;
         altText := alt_text |})%result.

Definition default_format : string := BarcodeFormat.PDF417.
Definition default_encoding : string := "iso-8859-1".

Definition json_dict (self : Barcode.t) : pydict :=
  let result :=
    Dict.of_list [("format", PStr (_format self));
                  ("message", PStr (_message self));
                  ("messageEncoding", PStr (messageEncoding self))] in
  match altText self with
  | Some a => Dict.set "altText" (PStr a) result
  | None => result
  end.

End BarcodeOps.

(** ** models/relevant_date.py *)

Module RelevantDateOps.
Import RelevantDate.

Definition mixed_forms_msg : string :=
  "Cannot specify both 'date' and 'start_date/end_date'. "
  ++ "Use 'date' for auto-calculated interval OR 'start_date/end_date' for explicit interval.".
Definition unpaired_msg : string :=
  "Both 'start_date' and 'end_date' must be provided together.".
Definition missing_msg : string :=
  "Must provide either 'date' or both 'start_date' and 'end_date'.".

(** [RelevantDate(date=None, start_date=None, end_date=None)] *)
Definition init (date start_date end_date : option string)
  : result RelevantDate.t :=
  if opt_truthy date && (opt_truthy start_date || opt_truthy end_date) then
    Raise (ValueError mixed_forms_msg)
  else if (opt_truthy start_date && negb (opt_truthy end_date))
          || (opt_truthy end_date && negb (opt_truthy start_date)) then
    Raise (ValueError unpaired_msg)
  else if negb (opt_truthy date) && negb (opt_truthy start_date) then
    Raise (ValueError missing_msg)
  else
    Ok {| RelevantDate.date := date; startDate := start_date;
          endDate := end_date |}.

Definition put_if_truthy (k : string) (o : option string) (d : pydict)
  : pydict :=
  if opt_truthy o then Dict.set k (opt_str o) d else d.

Definition json_dict (self : RelevantDate.t) : pydict :=
  put_if_truthy "endDate" (endDate self)
    (put_if_truthy "startDate" (startDate self)
       (put_if_truthy "date" (RelevantDate.date self) Dict.empty)).

End RelevantDateOps.

(** ** models/locations.py *)

Definition float_of_Z (z : Z) : spec_float := binary_normalize 53 1024 z 0 false.

Definition float_zero : spec_float := S754_zero false.

Module LocationOps.
Import Location.

Section Init.

(** The text-to-float conversion of [float()], [None] where it raises
    [ValueError]. *)
Variable float_of_str : string -> option spec_float.

(** [float(v)] *)
Definition py_float (v : pyval) : result spec_float :=
  match v with
  | PFloat f => Ok f
  | PInt z =>
      match float_of_Z z with
      | S754_infinity _ =>
          Raise (OverflowError "int too large to convert to float")
      | f => Ok f
      end
  | PBool b => Ok (float_of_Z (if b then 1 else 0))
  | PStr s =>
      match float_of_str s with
      | Some f => Ok f
      | None =>
          Raise (ValueError ("could not convert string to float: "
                               ++ py_repr s))
      end
  | PBytes b =>
      match float_of_str (string_of_list_byte b) with
      | Some f => Ok f
      | None =>
          Raise (ValueError ("could not convert string to float: "
                               ++ bytes_repr b))
      end
  | _ =>
      Raise (TypeError
               ("float() argument must be a string or a real number, not '"
                ++ type_name v ++ "'"))
  end.

(** [try: x = float(v)] / [except (ValueError, TypeError): x = fallback] *)
Definition float_or {A : Type} (wrap : spec_float -> A) (fallback : A)
           (v : pyval) : result A :=
  match py_float v with
  | Ok f => Ok (wrap f)
  | Raise (ValueError _) => Ok fallback
  | Raise (TypeError _) => Ok fallback
  | Raise e => Raise e
  end.

(** [Location(latitude, longitude, altitude=None, relevant_text=None,
    max_distance=None)] *)
Definition init (latitude longitude altitude : pyval)
           (relevant_text : option string) (max_distance : pyval)
  : result Location.t :=
  (lat <- float_or (fun f => f) float_zero latitude ;;
   lon <- float_or (fun f => f) float_zero longitude ;;
   alt <- (if negb (is_none altitude)
           then float_or Some (Some float_zero) altitude
           else Ok None) ;;
   dist <- (if negb (is_none max_distance)
            then float_or Some None max_distance
            else Ok None) ;;
   Ok {| latitude := lat; longitude := lon; altitude := alt;
         maxDistance := dist;
         relevantText :=
           if opt_truthy relevant_text then relevant_text else None |})%result.

End Init.

Definition put_float (k : string) (o : option spec_float) (d : pydict)
  : pydict :=
  match o with Some f => Dict.set k (PFloat f) d | None => d end.

Definition json_dict (self : Location.t) : pydict :=
  let d := Dict.of_list [("latitude", PFloat (latitude self));
                         ("longitude", PFloat (longitude self))] in
  let d := put_float "altitude" (altitude self) d in
  let d := put_float "maxDistance" (maxDistance self) d in
  if opt_truthy (relevantText self)
  then Dict.set "relevantText" (opt_str (relevantText self)) d
  else d.

End LocationOps.

Module IBeaconOps.
Import IBeacon.

(** [IBeacon(proximity_uuid, major=None, minor=None, relevant_text=None)] *)
Definition init (proximity_uuid : string) (major minor : option Z)
           (relevant_text : option string) : IBeacon.t :=
  {| proximityUUID := proximity_uuid; IBeacon.major := major;
     IBeacon.minor := minor;
     relevantText :=
       if opt_truthy relevant_text then relevant_text else None |}.

Definition put_int (k : string) (o : option Z) (d : pydict) : pydict :=
  match o with Some z => Dict.set k (PInt z) d | None => d end.

Definition json_dict (self : IBeacon.t) : pydict :=
  let d := Dict.of_list [("proximityUUID", PStr (proximityUUID self))] in
  let d := put_int "major" (IBeacon.major self) d in
  let d := put_int "minor" (IBeacon.minor self) d in
  if opt_truthy (relevantText self)
  then Dict.set "relevantText" (opt_str (relevantText self)) d
  else d.

End IBeaconOps.

(** ** Operations of Python on values of any type

    Where the outcome depends on attributes that [PModel] and [PObject]
    do not record, these instances count as having none. *)

(** [len(v)] *)
Definition py_len (v : pyval) : result nat :=
  match v with
  | PStr s => Ok (String.length s)
  | PBytes b => Ok (List.length b)
  | PList l => Ok (List.length l)
  | PDict d => Ok (List.length d)
  | _ => Raise (TypeError ("object of type '" ++ type_name v ++ "' has no len()"))
  end.

Fixpoint chars (s : string) : list pyval :=
  match s with
  | EmptyString => []
  | String c s' => PStr (String c EmptyString) :: chars s'
  end.

(** The elements [for x in v] visits. *)
Definition py_iter (v : pyval) : result (list pyval) :=
  match v with
  | PList l => Ok l
  | PStr s => Ok (chars s)
  | PBytes b => Ok (map (fun x => PInt (Z.of_N (Byte.to_N x))) b)
  | PDict d => Ok (map (fun kv => PStr (fst kv)) d)
  | _ => Raise (TypeError ("'" ++ type_name v ++ "' object is not iterable"))
  end.

(** [v[0]] *)
Definition py_first (v : pyval) : result pyval :=
  match v with
  | PList (x :: _) => Ok x
  | PList [] => Raise (IndexError "list index out of range")
  | PStr (String c _) => Ok (PStr (String c EmptyString))
  | PStr EmptyString => Raise (IndexError "string index out of range")
  | PBytes (x :: _) => Ok (PInt (Z.of_N (Byte.to_N x)))
  | PBytes [] => Raise (IndexError "index out of range")
  | PDict _ => Raise (KeyError "0")
  | _ => Raise (TypeError ("'" ++ type_name v ++ "' object is not subscriptable"))
  end.

(** [container.append(v)] *)
Definition py_append (container v : pyval) : result pyval :=
  match container with
  | PList l => Ok (PList (l ++ [v]))
  | _ =>
      Raise (AttributeError
               ("'" ++ type_name container ++ "' object has no attribute 'append'"))
  end.

(** [container[k] = v] for a string key *)
Definition py_setitem (container : pyval) (k : string) (v : pyval)
  : result pyval :=
  match container with
  | PDict d => Ok (PDict (Dict.set k v d))
  | PList _ =>
      Raise (TypeError "list indices must be integers or slices, not str")
  | _ =>
      Raise (TypeError
               ("'" ++ type_name container
                ++ "' object does not support item assignment"))
  end.

(** [container.items()] *)
Definition py_items (container : pyval) : result (list (string * pyval)) :=
  match container with
  | PDict d => Ok d
  | _ =>
      Raise (AttributeError
               ("'" ++ type_name container ++ "' object has no attribute 'items'"))
  end.

Definition no_attribute {A : Type} (v : pyval) (name : string) : result A :=
  Raise (AttributeError
           ("'" ++ type_name v ++ "' object has no attribute '" ++ name ++ "'")).

(** [v.json_dict()] *)
Definition call_json_dict (v : pyval) : result pyval :=
  match v with
  | PBarcode b => Ok (PDict (BarcodeOps.json_dict b))
  | PLocation l => Ok (PDict (LocationOps.json_dict l))
  | PIBeacon b => Ok (PDict (IBeaconOps.json_dict b))
  | PRelevantDate r => Ok (PDict (RelevantDateOps.json_dict r))
  | PPassInformation _ proj => Ok (PDict proj)
  | PModel _ proj => Ok (PDict proj)
  | _ => no_attribute v "json_dict"
  end.

(** [[f(x) for x in l]], stopping at the first exception *)
Fixpoint map_result {A B : Type} (f : A -> result B) (l : list A)
  : result (list B) :=
  match l with
  | [] => Ok []
  | x :: l' =>
      (y <- f x ;; ys <- map_result f l' ;; Ok (y :: ys))%result
  end.

(** ** hashlib.sha1 (FIPS 180-4), on 32-bit words held in [Z] *)

Module SHA1.

Local Open Scope Z_scope.

Definition w32 (x : Z) : Z := Z.land x 0xFFFFFFFF.

Definition add32 (x y : Z) : Z := w32 (x + y).

Definition rotl (n x : Z) : Z :=
  w32 (Z.lor (Z.shiftl x n) (Z.shiftr x (32 - n))).

Definition byte_val (b : byte) : Z := Z.of_N (Byte.to_N b).

Definition byte_of_Z (z : Z) : byte :=
  match Byte.of_N (Z.to_N (Z.land z 0xFF)) with
  | Some b => b
  | None => x00
  end.

(** The [n] low-order bytes of [z], most significant first. *)
Fixpoint be_bytes (n : nat) (z : Z) : list byte :=
  match n with
  | O => []
  | S n' => byte_of_Z (Z.shiftr z (8 * Z.of_nat n')) :: be_bytes n' z
  end.

Definition pad (msg : list byte) : list byte :=
  let len := Z.of_nat (List.length msg) in
  let zeros := Z.to_nat ((55 - len) mod 64) in
  (msg ++ [x80] ++ repeat x00 zeros ++ be_bytes 8 (8 * len))%list.

Fixpoint words (fuel : nat) (bs : list byte) : list Z :=
  match fuel, bs with
  | S fuel', a :: b :: c :: d :: bs' =>
      (byte_val a * 0x1000000 + byte_val b * 0x10000 + byte_val c * 0x100
       + byte_val d) :: words fuel' bs'
  | _, _ => []
  end.

Definition wd (l : list Z) (i : nat) : Z := nth i l 0.

(** The message schedule: [sched] holds [W0 .. W(t-1)], newest last. *)
Fixpoint extend (n : nat) (sched : list Z) : list Z :=
  match n with
  | O => sched
  | S n' =>
      let t := List.length sched in
      let x := Z.lxor (Z.lxor (wd sched (t - 3)) (wd sched (t - 8)))
                      (Z.lxor (wd sched (t - 14)) (wd sched (t - 16))) in
      extend n' (sched ++ [rotl 1 x])%list
  end.

Definition f (t : nat) (b c d : Z) : Z :=
  if (t <? 20)%nat then Z.lor (Z.land b c) (Z.land (w32 (Z.lnot b)) d)
  else if (t <? 40)%nat then Z.lxor (Z.lxor b c) d
  else if (t <? 60)%nat then
    Z.lor (Z.lor (Z.land b c) (Z.land b d)) (Z.land c d)
  else Z.lxor (Z.lxor b c) d.

Definition K (t : nat) : Z :=
  if (t <? 20)%nat then 0x5A827999
  else if (t <? 40)%nat then 0x6ED9EBA1
  else if (t <? 60)%nat then 0x8F1BBCDC
  else 0xCA62C1D6.

Definition state : Type := (Z * Z * Z * Z * Z)%type.

Fixpoint rounds (sched : list Z) (t : nat) (st : state) : state :=
  match sched with
  | [] => st
  | wt :: sched' =>
      let '(a, b, c, d, e) := st in
      let temp := add32 (add32 (add32 (add32 (rotl 5 a) (f t b c d)) e) (K t)) wt in
      rounds sched' (S t) (temp, a, rotl 30 b, c, d)
  end.

Definition compress (h : state) (block : list Z) : state :=
  let '(h0, h1, h2, h3, h4) := h in
  let '(a, b, c, d, e) := rounds (extend 64 block) 0 h in
  (add32 h0 a, add32 h1 b, add32 h2 c, add32 h3 d, add32 h4 e).

Fixpoint blocks (fuel : nat) (ws : list Z) (h : state) : state :=
  match fuel, ws with
  | S fuel', _ :: _ => blocks fuel' (skipn 16 ws) (compress h (firstn 16 ws))
  | _, _ => h
  end.

Definition init : state :=
  (0x67452301, 0xEFCDAB89, 0x98BADCFE, 0x10325476, 0xC3D2E1F0).

Definition digest (msg : list byte) : list byte :=
  let padded := pad msg in
  let ws := words (List.length padded) padded in
  let '(h0, h1, h2, h3, h4) := blocks (List.length ws) ws init in
  (be_bytes 4 h0 ++ be_bytes 4 h1 ++ be_bytes 4 h2 ++ be_bytes 4 h3
     ++ be_bytes 4 h4)%list.

Definition hex_digit (n : Z) : ascii :=
  ascii_of_nat (Z.to_nat (if n <? 10 then 48 + n else 87 + n)).

Fixpoint hex (bs : list byte) : string :=
  match bs with
  | [] => EmptyString
  | b :: bs' =>
      String (hex_digit (Z.shiftr (byte_val b) 4))
             (String (hex_digit (Z.land (byte_val b) 0xF)) (hex bs'))
  end.

(** [hashlib.sha1(msg).hexdigest()] *)
Definition hexdigest (msg : list byte) : string := hex (digest msg).

End SHA1.

Arguments SHA1.hexdigest : simpl never.

(** [s.encode("utf-8")] for a text of Latin-1 code points. *)
Fixpoint encode_utf8 (s : string) : bytes :=
  match s with
  | EmptyString => []
  | String c s' =>
      let n := Z.of_nat (nat_of_ascii c) in
      if (n <? 128)%Z then SHA1.byte_of_Z n :: encode_utf8 s'
      else SHA1.byte_of_Z (Z.lor 0xC0 (Z.shiftr n 6))
             :: SHA1.byte_of_Z (Z.lor 0x80 (Z.land n 0x3F)) :: encode_utf8 s'
  end.

(** ** json.dumps *)

Module Json.

Definition hex4 (n : Z) : string :=
  String (SHA1.hex_digit (Z.land (Z.shiftr n 12) 0xF))
    (String (SHA1.hex_digit (Z.land (Z.shiftr n 8) 0xF))
       (String (SHA1.hex_digit (Z.land (Z.shiftr n 4) 0xF))
          (String (SHA1.hex_digit (Z.land n 0xF)) EmptyString))).

(** The escapes of the default [ensure_ascii=True]. *)
Definition escape_char (c : ascii) : string :=
  let n := Z.of_nat (nat_of_ascii c) in
  if (n =? 34)%Z then String backslash (String dquote EmptyString)
  else if (n =? 92)%Z then "\\"
  else if (n =? 10)%Z then "\n"
  else if (n =? 13)%Z then "\r"
  else if (n =? 9)%Z then "\t"
  else if (n =? 12)%Z then "\f"
  else if (n =? 8)%Z then "\b"
  else if ((32 <=? n) && (n <=? 126))%Z then String c EmptyString
  else "\u" ++ hex4 n.

Fixpoint escape (s : string) : string :=
  match s with
  | EmptyString => EmptyString
  | String c s' => escape_char c ++ escape s'
  end.

Definition quote (s : string) : string :=
  String dquote (escape s) ++ String dquote EmptyString.

Fixpoint join (sep : string) (parts : list string) : string :=
  match parts with
  | [] => EmptyString
  | [x] => x
  | x :: parts' => x ++ sep ++ join sep parts'
  end.

Section Encoder.

(** [float.__repr__], which the encoder writes for a finite float. *)
Variable float_repr : spec_float -> string.

(** [floatstr] of the encoder, with the default [allow_nan=True]. *)
Definition floatstr (x : spec_float) : string :=
  match x with
  | S754_nan => "NaN"
  | S754_infinity false => "Infinity"
  | S754_infinity true => "-Infinity"
  | _ => float_repr x
  end.

(** What the encoder does with an object it cannot write itself. *)
Variable on_object : pyval -> result string.

(** Whether instances carrying their projection are written as it. *)
Variable projects : bool.

Fixpoint encode (v : pyval) {struct v} : result string :=
  let entries :=
    fix entries (d : list (string * pyval)) : result (list string) :=
      match d with
      | [] => Ok []
      | (k, x) :: d' =>
          (y <- encode x ;; ys <- entries d' ;;
           Ok ((quote k ++ ": " ++ y) :: ys))%result
      end in
  let object := fun d : list (string * pyval) =>
    (parts <- entries d ;; Ok ("{" ++ join ", " parts ++ "}"))%result in
  match v with
  | PNone => Ok "null"
  | PBool true => Ok "true"
  | PBool false => Ok "false"
  | PInt z => Ok (str_of_int z)
  | PFloat x => Ok (floatstr x)
  | PStr s => Ok (quote s)
  | PList l =>
      (parts <- (fix each (l : list pyval) : result (list string) :=
                   match l with
                   | [] => Ok []
                   | x :: l' =>
                       y <- encode x ;; ys <- each l' ;; Ok (y :: ys)
                   end) l ;;
       Ok ("[" ++ join ", " parts ++ "]"))%result
  | PDict d => object d
  | PPassInformation _ proj => if projects then object proj else on_object v
  | PModel _ proj => if projects then object proj else on_object v
  | _ => on_object v
  end.

End Encoder.

Definition not_serializable (v : pyval) : result string :=
  Raise (TypeError
           ("Object of type " ++ type_name v ++ " is not JSON serializable")).

(** [json.dumps(v)] *)
Definition dumps (float_repr : spec_float -> string) (v : pyval)
  : result string :=
  encode float_repr not_serializable false v.

End Json.

(** ** models/pass_base.py: the pass and its add-operations

    An [ApplePass] is its instance dictionary.  A method is a function of
    the instance that yields what it returns or raises, the instance
    afterwards and the effects it had outside it. *)

Module ApplePass.

Definition t : Type := Dict.t pyval.

Inductive event : Type :=
| Warn (category message : string)
| ReadFile (path : string)
| SignManifest (manifest : string).

Record outcome (A : Type) : Type := mkOutcome
  { res : result A;
    post : t;
    trace : list event }.

Arguments mkOutcome {A} res post trace.
Arguments res {A} o.
Arguments post {A} o.
Arguments trace {A} o.

Definition M (A : Type) : Type := t -> outcome A.

Definition ret {A : Type} (a : A) : M A :=
  fun self => mkOutcome (Ok a) self [].

Definition raise {A : Type} (e : exn) : M A :=
  fun self => mkOutcome (Raise e) self [].

Definition mbind {A B : Type} (m : M A) (k : A -> M B) : M B :=
  fun self =>
    let o := m self in
    match res o with
    | Ok a =>
        let o' := k a (post o) in
        mkOutcome (res o') (post o') (trace o ++ trace o')
    | Raise e => mkOutcome (Raise e) (post o) (trace o)
    end.

Definition lift {A : Type} (r : result A) : M A :=
  fun self => mkOutcome r self [].

Definition emit (e : event) : M unit :=
  fun self => mkOutcome (Ok tt) self [e].

Declare Scope pass_scope.
Delimit Scope pass_scope with pass.
Notation "x <- c ;; k" := (mbind c (fun x => k))
  (at level 61, c at next level, right associativity) : pass_scope.
Notation "c ;;; k" := (mbind c (fun _ => k))
  (at level 61, right associativity) : pass_scope.

(** [self.name] *)
Definition getattr (name : string) (self : t) : result pyval :=
  match Dict.get name self with
  | Some v => Ok v
  | None =>
      Raise (AttributeError
               ("'ApplePass' object has no attribute '" ++ name ++ "'"))
  end.

Definition read (name : string) : M pyval :=
  fun self => mkOutcome (getattr name self) self [].

(** The instance dictionary gets [value] under [name]: the effect of a
    method that changes in place the list or dictionary the attribute
    [name] holds, and of an ordinary attribute assignment. *)
Definition store (name : string) (value : pyval) : M unit :=
  fun self => mkOutcome (Ok tt) (Dict.set name value self) [].

(** The names under which the class and [object] hold a data descriptor:
    an assignment to one of them goes to the descriptor, not to the
    instance dictionary.  [ApplePass] declares no property and no
    [__slots__]. *)
Definition descriptor_names : list string :=
  ["__dict__"; "__class__"; "__weakref__"].

(** [object.__setattr__(self, name, value)].  [__dict__] replaces the
    whole instance dictionary and takes a dictionary only; [__class__]
    takes a class, which no value of [pyval] is; [__weakref__] cannot be
    written. *)
Definition object_setattr (name : string) (value : pyval) : M unit :=
  if String.eqb name "__dict__" then
    match value with
    | PDict d => fun _ => mkOutcome (Ok tt) d []
    | _ =>
        raise (TypeError ("__dict__ must be set to a dictionary, not a '"
                            ++ type_name value ++ "'"))
    end
  else if String.eqb name "__class__" then
    raise (TypeError ("__class__ must be set to a class, not '"
                        ++ type_name value ++ "' object"))
  else if String.eqb name "__weakref__" then
    raise (AttributeError
             "attribute '__weakref__' of 'ApplePass' objects is not writable")
  else store name value.

(** [for x in l: f(x)] *)
Fixpoint for_each {A : Type} (f : A -> M unit) (l : list A) : M unit :=
  match l with
  | [] => ret tt
  | x :: l' => (f x ;;; for_each f l')%pass
  end.

Local Open Scope pass_scope.

Definition add_barcode (barcode : pyval) : M unit :=
  match barcode with
  | PBarcode _ =>
      l <- read "_barcodes" ;;
      l' <- lift (py_append l barcode) ;;
      store "_barcodes" l'
  | _ =>
      raise (TypeError ("barcode must be a Barcode instance, got "
                          ++ type_name barcode))
  end.

Definition add_location (location : pyval) : M unit :=
  match location with
  | PLocation _ =>
      l <- read "_locations" ;;
      n <- lift (py_len l) ;;
      if (10 <=? n)%nat then
        raise (ValueError "Maximum 10 locations allowed per pass")
      else
        l' <- lift (py_append l location) ;;
        store "_locations" l'
  | _ =>
      raise (TypeError ("location must be a Location instance, got "
                          ++ type_name location))
  end.

Definition add_beacon (beacon : pyval) : M unit :=
  match beacon with
  | PIBeacon _ =>
      l <- read "_beacons" ;;
      n <- lift (py_len l) ;;
      if (10 <=? n)%nat then
        raise (ValueError "Maximum 10 beacons allowed per pass")
      else
        l' <- lift (py_append l beacon) ;;
        store "_beacons" l'
  | _ =>
      raise (TypeError ("beacon must be an IBeacon instance, got "
                          ++ type_name beacon))
  end.

(** The first statement of [add_relevant_date]: a string becomes
    [RelevantDate(date=date)], a [RelevantDate] is kept, anything else
    is a type error. *)
Definition as_relevant_date (date : pyval) : result pyval :=
  match date with
  | PStr s =>
      (r <- RelevantDateOps.init (Some s) None None ;;
       Ok (PRelevantDate r))%result
  | PRelevantDate _ => Ok date
  | _ =>
      Raise (TypeError
               ("date must be a RelevantDate instance or string, got "
                ++ type_name date))
  end.

Definition add_relevant_date (date : pyval) : M unit :=
  date <- lift (as_relevant_date date) ;;
  l <- read "_relevant_dates" ;;
  l' <- lift (py_append l date) ;;
  store "_relevant_dates" l'.

(** [add_file(name, fd)], [data] being what [fd.read()] returns. *)
Definition add_file (name : string) (data : pyval) : M unit :=
  files <- read "_files" ;;
  files' <- lift (py_setitem files name data) ;;
  store "_files" files'.

Definition deprecation (attr method : string) : event :=
  Warn "DeprecationWarning"
       ("Setting '" ++ attr ++ "' directly is deprecated. Use " ++ method
        ++ "() instead. This will be removed in version 0.2.0.").

Definition __setattr__ (name : string) (value : pyval) : M unit :=
  if String.eqb name "barcode" && negb (prefix "_" name) then
    emit (deprecation "barcode" "add_barcode") ;;;
    if negb (is_none value) then add_barcode value else ret tt
  else if String.eqb name "locations" && negb (prefix "_" name) then
    emit (deprecation "locations" "add_location") ;;;
    if negb (is_none value) then
      match value with
      | PList l => for_each add_location l
      | _ => add_location value
      end
    else ret tt
  else if String.eqb name "ibeacons" && negb (prefix "_" name) then
    emit (deprecation "ibeacons" "add_beacon") ;;;
    if negb (is_none value) then
      match value with
      | PList l => for_each add_beacon l
      | _ => add_beacon value
      end
    else ret tt
  else if String.eqb name "relevant_date" && negb (prefix "_" name) then
    emit (deprecation "relevant_date" "add_relevant_date") ;;;
    if negb (is_none value) then add_relevant_date value else ret tt
  else object_setattr name value.

(** [ApplePass(pass_information, pass_type_identifier, organization_name,
    team_identifier)]: every assignment of the constructor goes through
    [__setattr__]. *)
Definition __init__ (pass_information pass_type_identifier organization_name
                       team_identifier : pyval) : M unit :=
  __setattr__ "_files" (PDict []) ;;;
  __setattr__ "_hashes" (PDict []) ;;;
  __setattr__ "pass_type_identifier" pass_type_identifier ;;;
  __setattr__ "organization_name" organization_name ;;;
  __setattr__ "team_identifier" team_identifier ;;;
  __setattr__ "serial_number" (PStr "") ;;;
  __setattr__ "description" (PStr "") ;;;
  __setattr__ "format_version" (PInt 1) ;;;
  __setattr__ "background_color" PNone ;;;
  __setattr__ "foreground_color" PNone ;;;
  __setattr__ "label_color" PNone ;;;
  __setattr__ "logo_text" PNone ;;;
  __setattr__ "suppress_strip_shine" (PBool false) ;;;
  __setattr__ "_barcodes" (PList []) ;;;
  __setattr__ "web_service_url" PNone ;;;
  __setattr__ "authentication_token" PNone ;;;
  __setattr__ "_locations" (PList []) ;;;
  __setattr__ "_beacons" (PList []) ;;;
  __setattr__ "_relevant_dates" (PList []) ;;;
  __setattr__ "nfc" PNone ;;;
  __setattr__ "semantics" PNone ;;;
  __setattr__ "personalization" PNone ;;;
  __setattr__ "grouping_identifier" PNone ;;;
  __setattr__ "sharing_prohibited" PNone ;;;
  __setattr__ "upcoming_event_info" PNone ;;;
  __setattr__ "associated_store_identifiers" PNone ;;;
  __setattr__ "app_launch_url" PNone ;;;
  __setattr__ "expiration_date" PNone ;;;
  __setattr__ "voided" PNone ;;;
  __setattr__ "user_info" PNone ;;;
  __setattr__ "pass_information" pass_information.

(** The instance a constructor call returns. *)
Definition new (pass_information pass_type_identifier organization_name
                  team_identifier : pyval) : t :=
  post (__init__ pass_information pass_type_identifier organization_name
          team_identifier Dict.empty).

(** *** [json_dict] *)

Local Open Scope result_scope.

(** [if self.attr: d[key] = self.attr] *)
Definition copy_if_truthy (attr key : string) (self : t) (d : pydict)
  : result pydict :=
  v <- getattr attr self ;;
  Ok (if truthy v then Dict.set key v d else d).

(** [if self.attr: d[key] = self.attr.json_dict()] *)
Definition project_if_truthy (attr key : string) (self : t) (d : pydict)
  : result pydict :=
  v <- getattr attr self ;;
  if truthy v then
    j <- call_json_dict v ;; Ok (Dict.set key j d)
  else Ok d.

(** [if self.attr: d[key] = [x.json_dict() for x in self.attr]] *)
Definition project_all_if_truthy (attr key : string) (self : t) (d : pydict)
  : result pydict :=
  v <- getattr attr self ;;
  if truthy v then
    items <- py_iter v ;;
    arr <- map_result call_json_dict items ;;
    Ok (Dict.set key (PList arr) d)
  else Ok d.

Definition required_fields (self : t) : result pydict :=
  description <- getattr "description" self ;;
  format_version <- getattr "format_version" self ;;
  organization_name <- getattr "organization_name" self ;;
  pass_type_identifier <- getattr "pass_type_identifier" self ;;
  serial_number <- getattr "serial_number" self ;;
  team_identifier <- getattr "team_identifier" self ;;
  suppress_strip_shine <- getattr "suppress_strip_shine" self ;;
  pass_information <- getattr "pass_information" self ;;
  match pass_information with
  | PPassInformation kind proj =>
      Ok (Dict.of_list
            [("description", description);
             ("formatVersion", format_version);
             ("organizationName", organization_name);
             ("passTypeIdentifier", pass_type_identifier);
             ("serialNumber", serial_number);
             ("teamIdentifier", team_identifier);
             ("suppressStripShine", suppress_strip_shine);
             (jsonname kind, PDict proj)])
  | other => no_attribute other "jsonname"
  end.

Definition legacy_formats : list string :=
  [BarcodeFormat.PDF417; BarcodeFormat.QR; BarcodeFormat.AZTEC].

(** [getattr(first_barcode, 'altText', '')] *)
Definition altText_or_empty (b : Barcode.t) : string :=
  match Barcode.altText b with Some a => a | None => "" end.

Definition barcode_fields (self : t) (d : pydict) : result pydict :=
  barcodes <- getattr "_barcodes" self ;;
  if truthy barcodes then
    items <- py_iter barcodes ;;
    arr <- map_result call_json_dict items ;;
    let d := Dict.set "barcodes" (PList arr) d in
    first_barcode <- py_first barcodes ;;
    match first_barcode with
    | PBarcode b =>
        if str_in (Barcode._format b) legacy_formats then
          Ok (Dict.set "barcode" (PDict (BarcodeOps.json_dict b)) d)
        else
          legacy_barcode <-
            BarcodeOps.init (Barcode._message b) BarcodeFormat.PDF417
              (altText_or_empty b) (Some (Barcode.messageEncoding b)) ;;
          Ok (Dict.set "barcode"
                (PDict (BarcodeOps.json_dict legacy_barcode)) d)
    | other => no_attribute other "format"
    end
  else Ok d.

(** The loop that fills [relevant_dates_array]. *)
Fixpoint date_entries (items : list pyval) (relevant_dates_array : list pyval)
  : result (list pyval) :=
  match items with
  | [] => Ok relevant_dates_array
  | PRelevantDate date_obj :: items' =>
      let date_entry :=
        RelevantDateOps.put_if_truthy "endDate" (RelevantDate.endDate date_obj)
          (RelevantDateOps.put_if_truthy "startDate"
             (RelevantDate.startDate date_obj)
             (RelevantDateOps.put_if_truthy "date"
                (RelevantDate.date date_obj) Dict.empty)) in
      date_entries items'
        (if truthy (PDict date_entry)
         then relevant_dates_array ++ [PDict date_entry]
         else relevant_dates_array)
  | other :: _ => no_attribute other "date"
  end.

Definition legacy_date (first_date : RelevantDate.t) : pyval :=
  if opt_truthy (RelevantDate.date first_date) then
    opt_str (RelevantDate.date first_date)
  else if opt_truthy (RelevantDate.startDate first_date) then
    opt_str (RelevantDate.startDate first_date)
  else opt_str (RelevantDate.endDate first_date).

Definition date_fields (self : t) (d : pydict) : result pydict :=
  dates <- getattr "_relevant_dates" self ;;
  if truthy dates then
    items <- py_iter dates ;;
    relevant_dates_array <- date_entries items [] ;;
    let d := if truthy (PList relevant_dates_array)
             then Dict.set "relevantDates" (PList relevant_dates_array) d
             else d in
    first_date <- py_first dates ;;
    match first_date with
    | PRelevantDate r => Ok (Dict.set "relevantDate" (legacy_date r) d)
    | other => no_attribute other "date"
    end
  else Ok d.

Definition web_service_fields (self : t) (d : pydict) : result pydict :=
  url <- getattr "web_service_url" self ;;
  if truthy url then
    token <- getattr "authentication_token" self ;;
    Ok (Dict.set "authenticationToken" token (Dict.set "webServiceURL" url d))
  else Ok d.

Definition voided_field (self : t) (d : pydict) : result pydict :=
  v <- getattr "voided" self ;;
  Ok (if truthy v then Dict.set "voided" (PBool true) d else d).

Definition sharing_field (self : t) (d : pydict) : result pydict :=
  v <- getattr "sharing_prohibited" self ;;
  Ok (if negb (is_none v) then Dict.set "sharingProhibited" v d else d).

Definition json_dict (self : t) : result pydict :=
  d <- required_fields self ;;
  d <- barcode_fields self d ;;
  d <- date_fields self d ;;
  d <- project_all_if_truthy "_locations" "locations" self d ;;
  d <- project_all_if_truthy "_beacons" "beacons" self d ;;
  d <- copy_if_truthy "background_color" "backgroundColor" self d ;;
  d <- copy_if_truthy "foreground_color" "foregroundColor" self d ;;
  d <- copy_if_truthy "label_color" "labelColor" self d ;;
  d <- copy_if_truthy "logo_text" "logoText" self d ;;
  d <- web_service_fields self d ;;
  d <- copy_if_truthy "associated_store_identifiers"
         "associatedStoreIdentifiers" self d ;;
  d <- copy_if_truthy "app_launch_url" "appLaunchURL" self d ;;
  d <- copy_if_truthy "expiration_date" "expirationDate" self d ;;
  d <- voided_field self d ;;
  d <- copy_if_truthy "user_info" "userInfo" self d ;;
  d <- copy_if_truthy "grouping_identifier" "groupingIdentifier" self d ;;
  d <- sharing_field self d ;;
  d <- project_if_truthy "nfc" "nfc" self d ;;
  d <- project_if_truthy "semantics" "semantics" self d ;;
  d <- project_if_truthy "personalization" "personalization" self d ;;
  project_all_if_truthy "upcoming_event_info" "upcomingEventInfo" self d.

(** *** Assembly *)

Definition pass_handler (obj : pyval) : result pyval :=
  match obj with
  | PBarcode _ | PLocation _ | PIBeacon _ | PRelevantDate _
  | PPassInformation _ _ | PModel _ _ => call_json_dict obj
  | _ => Ok obj
  end.

(** [hashlib.sha1(data).hexdigest()] *)
Definition sha1_hexdigest (data : pyval) : result string :=
  match data with
  | PBytes b => Ok (SHA1.hexdigest b)
  | PStr _ => Raise (TypeError "Strings must be encoded before hashing")
  | _ =>
      Raise (TypeError
               ("object supporting the buffer API required"))
  end.

(** [self._hashes[name] = digest] *)
Definition record_hash (name digest : string) : M unit :=
  (hashes <- read "_hashes" ;;
   hashes' <- lift (py_setitem hashes name (PStr digest)) ;;
   store "_hashes" hashes')%pass.

(** The body of the loop over [self._files.items()] in
    [_create_manifest]. *)
Definition hash_file (item : string * pyval) : M unit :=
  (digest <- lift (sha1_hexdigest (snd item)) ;;
   record_hash (fst item) digest)%pass.

(** *** [zipfile.ZipFile]

    An archive open for writing is the list of its entries in the order
    they were written; two entries may bear the same name. *)
Definition archive : Type := list (string * bytes).

(** [ZipInfo(filename=name).filename]: the name up to its first NUL. *)
Fixpoint zip_filename (name : string) : string :=
  match name with
  | EmptyString => EmptyString
  | String c name' =>
      if Ascii.eqb c Ascii.zero then EmptyString
      else String c (zip_filename name')
  end.

Definition duplicate_name (filename : string) : event :=
  Warn "UserWarning" ("Duplicate name: " ++ py_repr filename).

(** [zf.writestr(name, data)] on the archive [zf].  A [str] is encoded
    first; the last character of the file name is looked at, which
    fails for an empty one; [len(data)] is taken; then the entry is
    opened, with a warning when the archive has one of that name; at
    last the data is written, which takes an object with the buffer
    interface. *)
Definition writestr (name : string) (data : pyval) (zf : archive)
  : M archive :=
  let filename := zip_filename name in
  match filename with
  | EmptyString => raise (IndexError "string index out of range")
  | String _ _ =>
      match data with
      | PStr _ | PBytes _ | PList _ | PDict _ =>
          ((if str_in filename (map fst zf)
            then emit (duplicate_name filename) else ret tt) ;;;
           match data with
           | PStr s => ret (zf ++ [(filename, encode_utf8 s)])%list
           | PBytes b => ret (zf ++ [(filename, b)])%list
           | _ =>
               raise (TypeError
                        ("memoryview: a bytes-like object is required, not '"
                         ++ type_name data ++ "'"))
           end)%pass
      | _ =>
          raise (TypeError
                   ("object of type '" ++ type_name data ++ "' has no len()"))
      end
  end.

(** [for filename, filedata in items: zf.writestr(filename, filedata)] *)
Fixpoint write_all (items : list (string * pyval)) (zf : archive)
  : M archive :=
  match items with
  | [] => ret zf
  | (filename, filedata) :: items' =>
      (zf' <- writestr filename filedata zf ;; write_all items' zf')%pass
  end.

Section Assembly.

Variable float_repr : spec_float -> string.

(** The file system and the [cryptography] package. *)
Variables x509_certificate private_key : Type.
Variable read_file : string -> result bytes.
Variable load_pem_x509_certificate : bytes -> result x509_certificate.
Variable load_pem_private_key : bytes -> bytes -> result private_key.
Variable pkcs7_sign :
  bytes -> x509_certificate -> private_key -> x509_certificate ->
  result bytes.

(** The encoder calls [default=pass_handler] on what it cannot write
    and encodes what comes back; getting the same object back, it
    reports a circular reference. *)
Definition encode_default (obj : pyval) : result string :=
  match obj with
  | PBarcode _ | PLocation _ | PIBeacon _ | PRelevantDate _ =>
      j <- pass_handler obj ;; Json.dumps float_repr j
  | _ => Raise (ValueError "Circular reference detected")
  end.

(** [json.dumps(v, default=pass_handler)] *)
Definition dumps_with_handler (v : pyval) : result string :=
  Json.encode float_repr encode_default true v.

Definition _create_pass_json (self : t) : result string :=
  d <- json_dict self ;; dumps_with_handler (PDict d).

Local Open Scope pass_scope.

Definition _create_manifest (pass_json : string) : M string :=
  record_hash "pass.json" (SHA1.hexdigest (encode_utf8 pass_json)) ;;;
  files <- read "_files" ;;
  items <- lift (py_items files) ;;
  for_each hash_file items ;;;
  hashes <- read "_hashes" ;;
  lift (Json.dumps float_repr hashes).

Definition _read_file_bytes (path : string) : M bytes :=
  emit (ReadFile path) ;;; lift (read_file path).

Definition _create_signature_crypto
           (manifest certificate key wwdr_certificate password : string)
  : M bytes :=
  cert_pem <- _read_file_bytes certificate ;;
  cert <- lift (load_pem_x509_certificate cert_pem) ;;
  key_pem <- _read_file_bytes key ;;
  priv_key <- lift (load_pem_private_key key_pem (encode_utf8 password)) ;;
  wwdr_pem <- _read_file_bytes wwdr_certificate ;;
  wwdr_cert <- lift (load_pem_x509_certificate wwdr_pem) ;;
  emit (SignManifest manifest) ;;;
  lift (pkcs7_sign (encode_utf8 manifest) cert priv_key wwdr_cert).

(** [_create_zip(pass_json, manifest, signature)] returns the entries
    of the archive it closes, in the order they were written. *)
Definition _create_zip (pass_json manifest : string) (signature : bytes)
  : M archive :=
  zf <- writestr "signature" (PBytes signature) [] ;;
  zf <- writestr "manifest.json" (PStr manifest) zf ;;
  zf <- writestr "pass.json" (PStr pass_json) zf ;;
  files <- read "_files" ;;
  items <- lift (py_items files) ;;
  write_all items zf.

(** [create(certificate, key, wwdr_certificate, password)]: what it
    returns stands for the archive written to the buffer, as the list of
    its entries. *)
Definition create (certificate key wwdr_certificate password : string)
  : M archive :=
  serial_number <- read "serial_number" ;;
  if negb (truthy serial_number) then
    raise (ValueError "serial_number is required")
  else
    description <- read "description" ;;
    if negb (truthy description) then
      raise (ValueError "description is required")
    else
      pass_json <- (fun self => lift (_create_pass_json self) self) ;;
      manifest <- _create_manifest pass_json ;;
      signature <- _create_signature_crypto manifest certificate key
                     wwdr_certificate password ;;
      _create_zip pass_json manifest signature.

End Assembly.

End ApplePass.

(** ** Passes built through the public interface

    A pass is [reachable] when it comes from the constructor by calls of
    the add-operations, of [add_file], of the manifest step of [create]
    and by assignments to attributes whose name has no leading
    underscore. *)

Definition private_names : list string :=
  ["_files"; "_hashes"; "_barcodes"; "_locations"; "_beacons";
   "_relevant_dates"].

Inductive reachable : ApplePass.t -> Prop :=
| reach_new info a b c : reachable (ApplePass.new info a b c)
| reach_setattr p name v :
    reachable p -> prefix "_" name = false ->
    reachable (ApplePass.post (ApplePass.__setattr__ name v p))
| reach_add_barcode p v :
    reachable p -> reachable (ApplePass.post (ApplePass.add_barcode v p))
| reach_add_location p v :
    reachable p -> reachable (ApplePass.post (ApplePass.add_location v p))
| reach_add_beacon p v :
    reachable p -> reachable (ApplePass.post (ApplePass.add_beacon v p))
| reach_add_relevant_date p v :
    reachable p ->
    reachable (ApplePass.post (ApplePass.add_relevant_date v p))
| reach_add_file p name data :
    reachable p -> reachable (ApplePass.post (ApplePass.add_file name data p))
| reach_create_manifest p float_repr pass_json :
    reachable p ->
    reachable (ApplePass.post
                 (ApplePass._create_manifest float_repr pass_json p)).

(** What the private containers of a reachable pass hold. *)
Record well_formed (p : ApplePass.t) : Prop := mkWf
  { wf_barcodes :
      exists bs, Dict.get "_barcodes" p = Some (PList (map PBarcode bs));
    wf_locations :
      exists ls, Dict.get "_locations" p = Some (PList (map PLocation ls))
                 /\ (List.length ls <= 10)%nat;
    wf_beacons :
      exists bs, Dict.get "_beacons" p = Some (PList (map PIBeacon bs))
                 /\ (List.length bs <= 10)%nat;
    wf_dates :
      exists ds,
        Dict.get "_relevant_dates" p = Some (PList (map PRelevantDate ds));
    wf_files :
      exists files hashes,
        Dict.get "_files" p = Some (PDict files)
        /\ Dict.get "_hashes" p = Some (PDict hashes)
        /\ NoDup (Dict.keys files)
        /\ (forall k, In k (Dict.keys hashes) ->
                      k = "pass.json" \/ In k (Dict.keys files)) }.

(** The digests the loop of [_create_manifest] writes for the assets, up
    to the first one [hashlib.sha1] rejects, and how the loop ends. *)
Fixpoint file_digests (items : list (string * pyval))
  : list (string * pyval) * result unit :=
  match items with
  | [] => ([], Ok tt)
  | (name, data) :: items' =>
      match ApplePass.sha1_hexdigest data with
      | Ok h => let (ws, r) := file_digests items' in ((name, PStr h) :: ws, r)
      | Raise e => ([], Raise e)
      end
  end.

(** All the writes of [_create_manifest] to [self._hashes], in order. *)
Definition manifest_writes (pass_json : string) (files : list (string * pyval))
  : list (string * pyval) :=
  ("pass.json", PStr (SHA1.hexdigest (encode_utf8 pass_json)))
    :: fst (file_digests files).

(** A section of [json_dict] keeps the key [k] when the dictionary it
    returns holds under [k] what the dictionary it was given held. *)
Definition keeps (k : string) (f : pydict -> result pydict) : Prop :=
  forall d d', f d = Ok d' -> Dict.get k d' = Dict.get k d.

(** The names [__setattr__] intercepts. *)
Definition deprecated_names : list string :=
  ["barcode"; "locations"; "ibeacons"; "relevant_date"].

(** Each of them with the method its warning points to. *)
Definition deprecated_aliases : list (string * string) :=
  [("barcode", "add_barcode"); ("locations", "add_location");
   ("ibeacons", "add_beacon"); ("relevant_date", "add_relevant_date")].

(** The outcome [o] of a call made after the warning [w] was issued. *)
Definition with_warning (w : ApplePass.event) (o : ApplePass.outcome unit)
  : ApplePass.outcome unit :=
  ApplePass.mkOutcome (ApplePass.res o) (ApplePass.post o)
    (w :: ApplePass.trace o).

(** In the words of the specification: a relevant-date entry contributes
    a date key when its date, its start or its end is populated, and the
    entry of the modern array is its canonical dictionary. *)
Definition contributes (r : RelevantDate.t) : bool :=
  opt_truthy (RelevantDate.date r) || opt_truthy (RelevantDate.startDate r)
  || opt_truthy (RelevantDate.endDate r).

Definition date_entry (r : RelevantDate.t) : pyval :=
  PDict (RelevantDateOps.json_dict r).

(** ** Sample values *)

Definition ascii_bytes (s : string) : bytes := encode_utf8 s.

(** Stands for [float.__repr__] where the document holds no float. *)
Definition sample_float_repr (f : spec_float) : string := "0.0".

Definition demo_pass : ApplePass.t :=
  ApplePass.new (PPassInformation Coupon []) (PStr "pass.com.example")
    (PStr "Example") (PStr "TEAM").

Definition demo_date : RelevantDate.t :=
  RelevantDate.mk None (Some "2026-03-15T18:00:00-08:00")
    (Some "2026-03-15T22:00:00-08:00").

Definition demo_barcode : Barcode.t :=
  Barcode.mk BarcodeFormat.CODE128 "12345" "iso-8859-1" None.

Definition demo_location : Location.t :=
  Location.mk (float_of_Z 37) (float_of_Z (-122)) None None None.

(** [demo_pass] with the two fields [create] requires. *)
Definition ready_pass : ApplePass.t :=
  ApplePass.post
    (ApplePass.__setattr__ "description" (PStr "20% off coupon")
       (ApplePass.post
          (ApplePass.__setattr__ "serial_number" (PStr "COUP-12345")
             demo_pass))).

(** [ready_pass] with one asset. *)
Definition asset_pass : ApplePass.t :=
  ApplePass.post
    (ApplePass.add_file "icon.png" (PBytes (ascii_bytes "abc")) ready_pass).

Definition asset_document : string :=
  Eval vm_compute in
    match ApplePass._create_pass_json sample_float_repr asset_pass with
    | Ok s => s
    | Raise _ => EmptyString
    end.

Definition asset_manifest : string :=
  Eval vm_compute in
    match ApplePass.res
            (ApplePass._create_manifest sample_float_repr asset_document
               asset_pass) with
    | Ok s => s
    | Raise _ => EmptyString
    end.

(** [ready_pass] with an asset under the name of the document. *)
Definition shadow_pass : ApplePass.t :=
  ApplePass.post
    (ApplePass.add_file "pass.json" (PBytes (ascii_bytes "forged")) ready_pass).

Definition shadow_document : string :=
  Eval vm_compute in
    match ApplePass._create_pass_json sample_float_repr shadow_pass with
    | Ok s => s
    | Raise _ => EmptyString
    end.

(** [demo_pass] after [locations = [demo_location] * 10]. *)
Definition full_pass : ApplePass.t :=
  ApplePass.post
    (ApplePass.__setattr__ "locations"
       (PList (repeat (PLocation demo_location) 10)) demo_pass).

(** [demo_pass] with [demo_barcode] as its only barcode. *)
Definition barcode_pass : ApplePass.t :=
  ApplePass.post (ApplePass.add_barcode (PBarcode demo_barcode) demo_pass).

(** [demo_pass] with [demo_date], then a single date, attached. *)
Definition dated_pass : ApplePass.t :=
  ApplePass.post
    (ApplePass.add_relevant_date (PStr "2026-01-01T00:00:00+00:00")
       (ApplePass.post
          (ApplePass.add_relevant_date (PRelevantDate demo_date) demo_pass))).

Definition dated_dict : pydict :=
  Eval vm_compute in
    match ApplePass.json_dict dated_pass with
    | Ok d => d
    | Raise _ => []
    end.

(** A file system and a [cryptography] package that accept everything. *)
Definition stub_read_file (path : string) : result bytes := Ok [].
Definition stub_load_certificate (pem : bytes) : result unit := Ok tt.
Definition stub_load_key (pem password : bytes) : result unit := Ok tt.
Definition stub_sign (manifest : bytes) (c k w : unit) : result bytes := Ok [].

(** * The rest of the package

    The functions of [utils.py] and [validators.py] and the model classes
    the pass refers to. *)

(** ** Hexadecimal digits *)

Definition is_hex (c : ascii) : bool :=
  match digit_value c with Some v => (v <? 16)%Z | None => false end.

Definition hex_value (c : ascii) : Z :=
  match digit_value c with Some v => v | None => 0%Z end.

Fixpoint all_hex (s : string) : bool :=
  match s with
  | EmptyString => true
  | String c s' => is_hex c && all_hex s'
  end.

(** The number the hexadecimal digits of [s] write after [acc]. *)
Fixpoint hex_number (acc : Z) (s : string) : Z :=
  match s with
  | EmptyString => acc
  | String c s' => hex_number (acc * 16 + hex_value c)%Z s'
  end.

(** [c * n] *)
Fixpoint repeat_char (c : ascii) (n : nat) : string :=
  match n with
  | O => EmptyString
  | S n' => String c (repeat_char c n')
  end.

(** [f"rgb({r}, {g}, {b})"] *)
Definition rgb_text (r g b : Z) : string :=
  "rgb(" ++ str_of_int r ++ ", " ++ str_of_int g ++ ", " ++ str_of_int b ++ ")".

(** ** Regular expressions of the [re] module

    The patterns of [validators.py] use classes of characters,
    concatenation, counted repetition and [*].  A text matches when the
    pattern derives to a pattern that accepts the empty text, one
    character after the other. *)

Module Regex.

Inductive t : Type :=
| Empty
| Eps
| Class (p : ascii -> bool)
| Seq (r1 r2 : t)
| Alt (r1 r2 : t)
| Star (r : t).

(** A literal character. *)
Definition Lit (c : ascii) : t := Class (Ascii.eqb c).

(** [r?] *)
Definition Opt (r : t) : t := Alt Eps r.

(** [r{n}] *)
Fixpoint times (n : nat) (r : t) : t :=
  match n with
  | O => Eps
  | S n' => Seq r (times n' r)
  end.



(** The concatenation of the patterns of a list. *)
Definition concat (rs : list t) : t := fold_right Seq Eps rs.

Fixpoint nullable (r : t) : bool :=
  match r with
  | Empty => false
  | Eps => true
  | Class _ => false
  | Seq r1 r2 => nullable r1 && nullable r2
  | Alt r1 r2 => nullable r1 || nullable r2
  | Star _ => true
  end.

Fixpoint deriv (c : ascii) (r : t) : t :=
  match r with
  | Empty => Empty
  | Eps => Empty
  | Class p => if p c then Eps else Empty
  | Seq r1 r2 =>
      if nullable r1 then Alt (Seq (deriv c r1) r2) (deriv c r2)
      else Seq (deriv c r1) r2
  | Alt r1 r2 => Alt (deriv c r1) (deriv c r2)
  | Star r' => Seq (deriv c r') (Star r')
  end.

(** The whole of [s] matches [r]. *)
Fixpoint matches (r : t) (s : string) : bool :=
  match s with
  | EmptyString => nullable r
  | String c s' => matches (deriv c r) s'
  end.

(** [\d], [\s] and [[A-Z]] on the characters below 256. *)
Definition digit (c : ascii) : bool :=
  let n := nat_of_ascii c in ((48 <=? n) && (n <=? 57))%nat.

Definition space (c : ascii) : bool :=
  let n := nat_of_ascii c in
  ((9 <=? n) && (n <=? 13) || (28 <=? n) && (n <=? 32) || (n =? 133)
   || (n =? 160))%nat.

Definition upper (c : ascii) : bool :=
  let n := nat_of_ascii c in ((65 <=? n) && (n <=? 90))%nat.

Definition newline : ascii := ascii_of_nat 10.

(** [re.match("^" + body + "$", s) is not None].  [re.match] matches at
    the start of the text, and [$] holds at its end and before a
    newline that ends it. *)
Definition match_anchored (body : t) (s : string) : bool :=
  matches (Seq body (Opt (Lit newline))) s.


End Regex.

(** [int(s)] for a text of at most 4300 digits, the limit of the
    conversion: [None] where Python raises [ValueError]. *)
Definition int_base10 (s : string) : option Z :=
  let (neg, s1) := strip_sign (skip_spaces s) in
  match s1 with
  | String c _ =>
      if Ascii.eqb c underscore then None
      else
        match scan_digits 10 false false 0 s1 with
        | Some (v, true, rest) =>
            match skip_spaces rest with
            | EmptyString => Some (if neg then (- v)%Z else v)
            | String _ _ => None
            end
        | _ => None
        end
  | EmptyString => None
  end.

(** ** validators.py *)

Module Validators.
Import Regex.

(** [r'^\d{4}-\d{2}-\d{2}T\d{2}:\d{2}:\d{2}[+-]\d{2}:\d{2}$'] without
    its anchors *)
Definition iso8601_pattern : Regex.t :=
  concat [times 4 (Class digit); Lit "-"; times 2 (Class digit); Lit "-";
          times 2 (Class digit); Lit "T"; times 2 (Class digit); Lit ":";
          times 2 (Class digit); Lit ":"; times 2 (Class digit);
          Class (fun c => Ascii.eqb c "+" || Ascii.eqb c "-");
          times 2 (Class digit); Lit ":"; times 2 (Class digit)].

Definition validate_iso8601_date (date_string : pyval) : result bool :=
  match date_string with
  | PStr s =>
      if negb (match_anchored iso8601_pattern s) then
        Raise (ValueError ("Invalid ISO 8601 date format: " ++ s))
      else Ok true
  | _ =>
      Raise (ValueError ("Date must be a string, got " ++ type_name date_string))
  end.




(** [r'^[A-Z]{3}$'] without its anchors *)
Definition currency_pattern : Regex.t := times 3 (Class upper).

Definition validate_currency_code (code : pyval) : result bool :=
  match code with
  | PStr s =>
      if negb (match_anchored currency_pattern s) then
        Raise (ValueError ("Invalid ISO 4217 currency code: " ++ s))
      else Ok true
  | _ =>
      Raise (ValueError
               ("Currency code must be a string, got " ++ type_name code))
  end.

Definition validate_location_limits (locations_list : pyval) : result bool :=
  match locations_list with
  | PList l =>
      if (10 <? List.length l)%nat then
        Raise (ValueError "Apple Wallet passes support maximum 10 locations")
      else Ok true
  | _ =>
      Raise (ValueError
               ("Locations must be a list, got " ++ type_name locations_list))
  end.

Definition validate_beacon_limits (beacons_list : pyval) : result bool :=
  match beacons_list with
  | PList l =>
      if (10 <? List.length l)%nat then
        Raise (ValueError "Apple Wallet passes support maximum 10 beacons")
      else Ok true
  | _ =>
      Raise (ValueError
               ("Beacons must be a list, got " ++ type_name beacons_list))
  end.

Definition is_str (v : pyval) : bool :=
  match v with PStr _ => true | _ => false end.

Definition validate_serial_number (serial_number : pyval) : result bool :=
  if negb (truthy serial_number) || negb (is_str serial_number) then
    Raise (ValueError
             "serial_number is required and must be a non-empty string")
  else Ok true.

Definition validate_authentication_token (token : pyval) : result bool :=
  match token with
  | PStr s =>
      if (String.length s <? 16)%nat then
        Raise (ValueError "authenticationToken must be at least 16 characters")
      else Ok true
  | _ =>
      Raise (ValueError
               ("Authentication token must be a string, got " ++ type_name token))
  end.

End Validators.

(** ** utils.py: dates *)

(** The fields of a [datetime] that [format_iso8601] prints. *)
Module DateTime.
Record t : Type := mk
  { year : Z; month : Z; day : Z; hour : Z; minute : Z; second : Z }.

(** The ranges the constructor of [datetime] enforces (it also bounds
    the day by the length of the month). *)
Definition in_range (dt : t) : bool :=
  ((1 <=? year dt) && (year dt <=? 9999)
   && (1 <=? month dt) && (month dt <=? 12)
   && (1 <=? day dt) && (day dt <=? 31)
   && (0 <=? hour dt) && (hour dt <=? 23)
   && (0 <=? minute dt) && (minute dt <=? 59)
   && (0 <=? second dt) && (second dt <=? 59))%Z.
End DateTime.

(** [%m], [%d], [%H], [%M] and [%S]: two digits. *)
Definition pad2 (n : Z) : string :=
  if (n <? 10)%Z then "0" ++ str_of_int n else str_of_int n.

(** [dt.strftime("%Y-%m-%dT%H:%M:%S")]; [%Y] is the year as the C library
    of Linux writes it, without padding. *)
Definition strftime_iso (dt : DateTime.t) : string :=
  str_of_int (DateTime.year dt) ++ "-" ++ pad2 (DateTime.month dt) ++ "-"
  ++ pad2 (DateTime.day dt) ++ "T" ++ pad2 (DateTime.hour dt) ++ ":"
  ++ pad2 (DateTime.minute dt) ++ ":" ++ pad2 (DateTime.second dt).

(** [s[i]] as a text, for [i] below the length of [s]. *)
Definition char_at (i : nat) (s : string) : string := slice i (i + 1) s.

Definition _is_valid_timezone_offset (offset : string) : bool :=
  if negb (String.length offset =? 6)%nat then false
  else if negb (str_in (char_at 0 offset) ["+"; "-"]) then false
  else if negb (String.eqb (char_at 3 offset) ":") then false
  else
    match int_base10 (slice 1 3 offset) with
    | None => false
    | Some hours =>
        match int_base10 (slice 4 6 offset) with
        | None => false
        | Some minutes =>
            if negb ((0 <=? hours) && (hours <=? 14))%Z then false
            else if negb ((0 <=? minutes) && (minutes <=? 59))%Z then false
            else if (hours =? 14)%Z && negb (minutes =? 0)%Z then false
            else true
        end
    end.

(** [format_iso8601(dt, timezone_offset)] for a [datetime] and a [str],
    the types of the annotations; the first two guards of the source
    reject the other types. *)
Definition format_iso8601 (dt : DateTime.t) (timezone_offset : string)
  : result string :=
  if negb (_is_valid_timezone_offset timezone_offset) then
    Raise (ValueError
             ("timezone_offset must be in format '+HH:MM' or '-HH:MM' "
              ++ "(e.g., '+00:00', '-08:00'), got: '" ++ timezone_offset
              ++ "'"))
  else
    let base := strftime_iso dt in
    Ok (base ++ timezone_offset).

(** The value of a decimal digit. *)
Definition digit_number (c : ascii) : Z := Z.of_nat (nat_of_ascii c) - 48.

(** [sign hh:mm] *)
Definition offset_text (sign h1 h2 m1 m2 : ascii) : string :=
  String sign (String h1 (String h2 (String ":" (String m1 (String m2 ""))))).

(** In the words of the pattern of [validate_iso8601_date]: the class of
    each of the 25 characters of a date. *)
Definition iso8601_shape : list (ascii -> bool) :=
  let d := Regex.digit in
  let sign := fun c => Ascii.eqb c "+" || Ascii.eqb c "-" in
  [d; d; d; d; Ascii.eqb "-"; d; d; Ascii.eqb "-"; d; d; Ascii.eqb "T";
   d; d; Ascii.eqb ":"; d; d; Ascii.eqb ":"; d; d; sign; d; d;
   Ascii.eqb ":"; d; d].

(** The characters of [s] are of the classes of [shape], one by one. *)
Fixpoint fits (shape : list (ascii -> bool)) (s : string) : bool :=
  match shape, s with
  | [], EmptyString => true
  | p :: shape', String c s' => p c && fits shape' s'
  | _, _ => false
  end.

(** ** Decimal texts *)

(** The characters of [s] are decimal digits. *)
Fixpoint all_digits (s : string) : bool :=
  match s with
  | EmptyString => true
  | String c s' => Regex.digit c && all_digits s'
  end.

(** The number the decimal digits of [s] write after [acc]. *)
Fixpoint dec_number (acc : Z) (s : string) : Z :=
  match s with
  | EmptyString => acc
  | String c s' => dec_number (acc * 10 + digit_number c)%Z s'
  end.


Definition two_digits (s : string) : bool :=
  all_digits s && (String.length s =? 2)%nat.

Definition four_digits (s : string) : bool :=
  all_digits s && (String.length s =? 4)%nat.

(** ** models/barcodes.py: comparison *)

Module BarcodeMethods.
Import Barcode.

(** [a == b] for two values that are a [str] or [None]. *)
Definition opt_str_eqb (a b : option string) : bool :=
  match a, b with
  | Some x, Some y => String.eqb x y
  | None, None => true
  | _, _ => false
  end.

(** [self.__eq__(other)]; the property [alt_text] is [None] for an
    instance without [altText]. *)
Definition __eq__ (self : Barcode.t) (other : pyval) : bool :=
  match other with
  | PBarcode other =>
      String.eqb (_format self) (_format other)
      && String.eqb (_message self) (_message other)
      && String.eqb (messageEncoding self) (messageEncoding other)
      && opt_str_eqb (altText self) (altText other)
  | _ => false
  end.

End BarcodeMethods.

(** [float(v)] raises [OverflowError]: [v] is an [int] beyond the range
    of a float. *)
Definition overflows (v : pyval) : bool :=
  match v with
  | PInt z =>
      match float_of_Z z with S754_infinity _ => true | _ => false end
  | _ => false
  end.

Definition overflow_error : exn :=
  OverflowError "int too large to convert to float".

(** ** models/fields.py

    A field is its instance dictionary: [json_dict] goes through it in
    the order the attributes were set. *)

Module Field.

Definition t : Type := Dict.t pyval.

(** [Field(key, value, label)] *)
Definition __init__ (key value label : pyval) : t :=
  Dict.of_list
    [("key", key); ("value", value); ("label", label);
     ("changeMessage", PNone); ("textAlignment", PNone);
     ("attributedValue", PNone); ("dataDetectorTypes", PNone);
     ("semantics", PNone)].

(** [DateField(key, value, label, date_style, time_style,
    ignores_time_zone, is_relative)] *)
Definition DateField (key value label date_style time_style
                        ignores_time_zone is_relative : pyval) : t :=
  let self := __init__ key value label in
  let self := Dict.set "dateStyle" date_style self in
  let self := Dict.set "timeStyle" time_style self in
  let self := Dict.set "isRelative" is_relative self in
  if truthy ignores_time_zone
  then Dict.set "ignoresTimeZone" ignores_time_zone self
  else self.

(** [NumberField(key, value, label, number_style)] *)
Definition NumberField (key value label number_style : pyval) : t :=
  Dict.set "numberStyle" number_style (__init__ key value label).

(** [CurrencyField(key, value, label, currency_code)] *)
Definition CurrencyField (key value label currency_code : pyval) : t :=
  Dict.set "currencyCode" currency_code (__init__ key value label).

(** [hasattr(v, 'json_dict')] *)
Definition has_json_dict (v : pyval) : bool := is_ok (call_json_dict v).

(** [v == ""] *)
Definition is_empty_str (v : pyval) : bool :=
  match v with PStr EmptyString => true | _ => false end.

(** [isinstance(v, list)] *)
Definition is_list (v : pyval) : bool :=
  match v with PList _ => true | _ => false end.

(** The body of the loop of [json_dict]. *)
Definition json_dict_step (d : pydict) (item : string * pyval)
  : result pydict :=
  let attr_key := fst item in
  let attr_value := snd item in
  if is_none attr_value || is_empty_str attr_value then Ok d
  else if String.eqb attr_key "semantics" && has_json_dict attr_value then
    (j <- call_json_dict attr_value ;; Ok (Dict.set attr_key j d))%result
  else if String.eqb attr_key "dataDetectorTypes" && is_list attr_value then
    if truthy attr_value then Ok (Dict.set attr_key attr_value d) else Ok d
  else Ok (Dict.set attr_key attr_value d).

Fixpoint json_dict_loop (items : list (string * pyval)) (d : pydict)
  : result pydict :=
  match items with
  | [] => Ok d
  | item :: items' =>
      (d' <- json_dict_step d item ;; json_dict_loop items' d')%result
  end.

Definition json_dict (self : t) : result pydict :=
  json_dict_loop self Dict.empty.

End Field.

(** ** models/pass_types.py *)

Module PassInformation.

(** An instance of one of the five subclasses: its class, its six lists
    of fields and, for a [BoardingPass], its transit type. *)
Record t : Type := mk
  { kind : pass_type;
    header_fields : list Field.t;
    primary_fields : list Field.t;
    secondary_fields : list Field.t;
    back_fields : list Field.t;
    auxiliary_fields : list Field.t;
    additional_info_fields : list Field.t;
    _transit_type : pyval }.

(** [BoardingPass(transit_type)], and [Coupon()], [EventTicket()],
    [Generic()], [StoreCard()], which have no transit type. *)
Definition new (kind : pass_type) (transit_type : pyval) : t :=
  mk kind [] [] [] [] [] []
     match kind with BoardingPass => transit_type | _ => PNone end.

(** The first argument of the [add_*_field] methods: a key, of which a
    [Field] is made, or a field. *)
Inductive key_or_field : Type :=
| Key (key : string)
| AField (field : Field.t).

(** [Field(key, value, label) if isinstance(key, str) else key] *)
Definition make_field (key : key_or_field) (value label : pyval) : Field.t :=
  match key with
  | Key k => Field.__init__ (PStr k) value label
  | AField f => f
  end.

Definition add_header_field (self : t) (key : key_or_field)
           (value label : pyval) : t * Field.t :=
  let field := make_field key value label in
  (mk (kind self) (header_fields self ++ [field]) (primary_fields self)
      (secondary_fields self) (back_fields self) (auxiliary_fields self)
      (additional_info_fields self) (_transit_type self), field).

Definition add_primary_field (self : t) (key : key_or_field)
           (value label : pyval) : t * Field.t :=
  let field := make_field key value label in
  (mk (kind self) (header_fields self) (primary_fields self ++ [field])
      (secondary_fields self) (back_fields self) (auxiliary_fields self)
      (additional_info_fields self) (_transit_type self), field).

Definition add_secondary_field (self : t) (key : key_or_field)
           (value label : pyval) : t * Field.t :=
  let field := make_field key value label in
  (mk (kind self) (header_fields self) (primary_fields self)
      (secondary_fields self ++ [field]) (back_fields self)
      (auxiliary_fields self) (additional_info_fields self)
      (_transit_type self), field).

Definition add_back_field (self : t) (key : key_or_field)
           (value label : pyval) : t * Field.t :=
  let field := make_field key value label in
  (mk (kind self) (header_fields self) (primary_fields self)
      (secondary_fields self) (back_fields self ++ [field])
      (auxiliary_fields self) (additional_info_fields self)
      (_transit_type self), field).

Definition add_auxiliary_field (self : t) (key : key_or_field)
           (value label : pyval) : t * Field.t :=
  let field := make_field key value label in
  (mk (kind self) (header_fields self) (primary_fields self)
      (secondary_fields self) (back_fields self)
      (auxiliary_fields self ++ [field]) (additional_info_fields self)
      (_transit_type self), field).

Definition add_additional_info_field (self : t) (key : key_or_field)
           (value label : pyval) : t * Field.t :=
  let field := make_field key value label in
  (mk (kind self) (header_fields self) (primary_fields self)
      (secondary_fields self) (back_fields self) (auxiliary_fields self)
      (additional_info_fields self ++ [field]) (_transit_type self), field).

(** [f.json_dict()] as a value *)
Definition field_dict (f : Field.t) : result pyval :=
  (j <- Field.json_dict f ;; Ok (PDict j))%result.

(** [if fields: d[name] = [f.json_dict() for f in fields]] *)
Definition put_fields (name : string) (fields : list Field.t) (d : pydict)
  : result pydict :=
  match fields with
  | [] => Ok d
  | _ :: _ =>
      (arr <- map_result field_dict fields ;; Ok (Dict.set name (PList arr) d))%result
  end.

(** [PassInformation.json_dict] *)
Definition base_json_dict (self : t) : result pydict :=
  (d <- put_fields "headerFields" (header_fields self) Dict.empty ;;
   d <- put_fields "primaryFields" (primary_fields self) d ;;
   d <- put_fields "secondaryFields" (secondary_fields self) d ;;
   d <- put_fields "backFields" (back_fields self) d ;;
   d <- put_fields "auxiliaryFields" (auxiliary_fields self) d ;;
   put_fields "additionalInfoFields" (additional_info_fields self) d)%result.

(** [json_dict] of the instance: [BoardingPass] overrides it to add
    [transitType]. *)
Definition json_dict (self : t) : result pydict :=
  (d <- base_json_dict self ;;
   match kind self with
   | BoardingPass => Ok (Dict.set "transitType" (_transit_type self) d)
   | _ => Ok d
   end)%result.

(** The instance as [ApplePass] holds it. *)
Definition as_value (self : t) : result pyval :=
  (d <- json_dict self ;; Ok (PPassInformation (kind self) d))%result.

End PassInformation.

(** ** models/personalization.py *)

Module PersonalizationField.
Definition NAME : string := "PKPassPersonalizationFieldName".
Definition POSTAL_CODE : string := "PKPassPersonalizationFieldPostalCode".
Definition EMAIL_ADDRESS : string := "PKPassPersonalizationFieldEmailAddress".
Definition PHONE_NUMBER : string := "PKPassPersonalizationFieldPhoneNumber".
End PersonalizationField.

Module Personalization.

(** [termsAndConditions] is [None] when the instance has no such
    attribute. *)
Record t : Type := mk
  { requiredPersonalizationFields : list string;
    description : string;
    termsAndConditions : option string }.

Definition valid_fields : list string :=
  [PersonalizationField.NAME; PersonalizationField.POSTAL_CODE;
   PersonalizationField.EMAIL_ADDRESS; PersonalizationField.PHONE_NUMBER].

(** [', '.join(sorted(valid_fields))] *)
Definition sorted_valid_fields : string :=
  PersonalizationField.EMAIL_ADDRESS ++ ", " ++ PersonalizationField.NAME
  ++ ", " ++ PersonalizationField.PHONE_NUMBER ++ ", "
  ++ PersonalizationField.POSTAL_CODE.

(** The loop that validates the field names. *)
Fixpoint check_fields (required_fields : list string) : result unit :=
  match required_fields with
  | [] => Ok tt
  | field :: rest =>
      if negb (str_in field valid_fields) then
        Raise (ValueError ("Invalid personalization field: " ++ field
                             ++ ". Valid fields are: " ++ sorted_valid_fields))
      else check_fields rest
  end.

(** [Personalization(required_fields, description, terms_and_conditions)]
    for a list of [str] and two [str], the types of the docstring; the
    first guard of the source rejects what is no list. *)
Definition __init__ (required_fields : list string)
           (description terms_and_conditions : string) : result t :=
  match required_fields with
  | [] => Raise (ValueError "required_fields cannot be empty")
  | _ :: _ =>
      (check_fields required_fields ;;;
       Ok {| requiredPersonalizationFields := required_fields;
             description := description;
             termsAndConditions :=
               if str_truthy terms_and_conditions
               then Some terms_and_conditions else None |})%result
  end.

Definition json_dict (self : t) : pydict :=
  let d :=
    Dict.of_list
      [("requiredPersonalizationFields",
        PList (map PStr (requiredPersonalizationFields self)))] in
  let d := if str_truthy (description self)
           then Dict.set "description" (PStr (description self)) d else d in
  match termsAndConditions self with
  | Some terms => Dict.set "termsAndConditions" (PStr terms) d
  | None => d
  end.

(** The instance as [ApplePass] holds it. *)
Definition as_value (self : t) : pyval :=
  PModel "Personalization" (json_dict self).

End Personalization.

(** ** models/semantic_tags.py *)

Module SemanticTags.

(** A [SemanticTags] object is its instance dictionary. *)
Definition t : Type := Dict.t pyval.

(** The body of the loop of [json_dict]. *)
Definition json_dict_step (d : pydict) (item : string * pyval)
  : result pydict :=
  let key := fst item in
  let value := snd item in
  if negb (is_none value) then
    if Field.has_json_dict value then
      (j <- call_json_dict value ;; Ok (Dict.set key j d))%result
    else
      match value with
      | PList l =>
          if truthy value
             && match l with
                | first :: _ => Field.has_json_dict first
                | [] => false
                end
          then
            (arr <- map_result call_json_dict l ;;
             Ok (Dict.set key (PList arr) d))%result
          else Ok (Dict.set key value d)
      | _ => Ok (Dict.set key value d)
      end
  else Ok d.

Fixpoint json_dict_loop (items : list (string * pyval)) (d : pydict)
  : result pydict :=
  match items with
  | [] => Ok d
  | item :: items' =>
      (d' <- json_dict_step d item ;; json_dict_loop items' d')%result
  end.

Definition json_dict (self : t) : result pydict :=
  json_dict_loop self Dict.empty.


End SemanticTags.



(** ** What the properties of the pass speak of *)

(** The attributes [json_dict] copies under another name when they are
    set, with the key of each. *)
Definition copied_attributes : list (string * string) :=
  [("background_color", "backgroundColor");
   ("foreground_color", "foregroundColor");
   ("label_color", "labelColor");
   ("logo_text", "logoText");
   ("associated_store_identifiers", "associatedStoreIdentifiers");
   ("app_launch_url", "appLaunchURL");
   ("expiration_date", "expirationDate");
   ("user_info", "userInfo");
   ("grouping_identifier", "groupingIdentifier")].

(** The required keys of the document that are attributes of the pass,
    with the attribute each is read from. *)
Definition required_attributes : list (string * string) :=
  [("description", "description");
   ("format_version", "formatVersion");
   ("organization_name", "organizationName");
   ("pass_type_identifier", "passTypeIdentifier");
   ("serial_number", "serialNumber");
   ("team_identifier", "teamIdentifier");
   ("suppress_strip_shine", "suppressStripShine")].

(** A method touches the digests only when it leaves every other
    attribute of the pass as it found it. *)
Definition touches_hashes_only {A : Type} (m : ApplePass.M A) : Prop :=
  forall p k,
    k <> "_hashes" -> Dict.get k (ApplePass.post (m p)) = Dict.get k p.

(** The warnings of [zipfile] when entries named [names] are written,
    in this order, to an archive that holds entries named [written]. *)
Fixpoint duplicate_names (written names : list string)
  : list ApplePass.event :=
  match names with
  | [] => []
  | n :: names' =>
      ((if str_in n written then [ApplePass.duplicate_name n] else [])
         ++ duplicate_names (written ++ [n]) names')%list
  end.

(** ** More sample values *)

(** [asset_pass] assembled with the stubs. *)
Definition asset_archive : ApplePass.archive :=
  Eval vm_compute in
    match ApplePass.res
            (ApplePass.create sample_float_repr unit unit stub_read_file
               stub_load_certificate stub_load_key stub_sign
               "cert.pem" "key.pem" "wwdr.pem" "secret" asset_pass) with
    | Ok archive => archive
    | Raise _ => []
    end.

Definition sample_personalization : Personalization.t :=
  Personalization.mk [PersonalizationField.NAME] "Your name, please" None.

(** [demo_pass] with a personalization and a web service. *)
Definition service_pass : ApplePass.t :=
  ApplePass.post
    (ApplePass.__setattr__ "authentication_token" (PStr "short")
       (ApplePass.post
          (ApplePass.__setattr__ "web_service_url"
             (PStr "https://example.com/passes")
             (ApplePass.post
                (ApplePass.__setattr__ "personalization"
                   (Personalization.as_value sample_personalization)
                   (ApplePass.post
                      (ApplePass.__setattr__ "sharing_prohibited"
                         (PBool false) demo_pass))))))).

Definition service_dict : pydict :=
  Eval vm_compute in
    match ApplePass.json_dict service_pass with
    | Ok d => d
    | Raise _ => []
    end.

Definition full_dict : pydict :=
  Eval vm_compute in
    match ApplePass.json_dict full_pass with
    | Ok d => d
    | Raise _ => []
    end.

Definition demo_datetime : DateTime.t := DateTime.mk 2026 3 15 19 0 0.

(** A text-to-float conversion that accepts nothing. *)
Definition stub_float_of_str (s : string) : option spec_float := None.

(** * Properties *)

(** ** Dictionaries *)

Module DictFacts.
Import Dict.

Section Facts.
Context {V : Type}.
Implicit Types (d : Dict.t V) (k : string) (v : V).

Lemma get_set_eq k v d : get k (set k v d) = Some v.
Proof.
  induction d as [|[k' v'] d IH]; simpl.
  - now rewrite String.eqb_refl.
  - destruct (String.eqb k k') eqn:E; simpl.
    + now rewrite String.eqb_refl.
    + now rewrite E.
Qed.

Lemma get_set_ne k k' v d : k <> k' -> get k (set k' v d) = get k d.
Proof.
  intros Hne. induction d as [|[k0 v0] d IH]; simpl.
  - apply String.eqb_neq in Hne. now rewrite Hne.
  - destruct (String.eqb k' k0) eqn:E; simpl.
    + apply String.eqb_eq in E. subst k0.
      apply String.eqb_neq in Hne. now rewrite Hne.
    + now rewrite IH.
Qed.

Lemma set_unchanged k v d : get k d = Some v -> set k v d = d.
Proof.
  induction d as [|[k' v'] d IH]; simpl; [discriminate|].
  destruct (String.eqb k k') eqn:E.
  - apply String.eqb_eq in E. now intros [= ->]; subst.
  - intros H. now rewrite IH.
Qed.

Lemma set_set k v v' d : set k v (set k v' d) = set k v d.
Proof.
  induction d as [|[k0 v0] d IH]; simpl.
  - now rewrite String.eqb_refl.
  - destruct (String.eqb k k0) eqn:E; simpl.
    + now rewrite String.eqb_refl.
    + now rewrite E, IH.
Qed.

Lemma in_keys_set k k' v d :
  In k (keys (set k' v d)) <-> k = k' \/ In k (keys d).
Proof.
  unfold keys. induction d as [|[k0 v0] d IH]; simpl.
  - intuition.
  - destruct (String.eqb k' k0) eqn:E; simpl.
    + apply String.eqb_eq in E. subst k0. intuition.
    + rewrite IH. intuition.
Qed.

Lemma in_keys_get k d : In k (keys d) <-> get k d <> None.
Proof.
  unfold keys. induction d as [|[k0 v0] d IH]; simpl.
  - intuition.
  - destruct (String.eqb k k0) eqn:E.
    + apply String.eqb_eq in E. subst. intuition discriminate.
    + apply String.eqb_neq in E. rewrite <- IH.
      intuition congruence.
Qed.

(** Two writes to different keys, one of them present, commute. *)
Lemma set_comm k k' v v' d :
  k <> k' -> In k' (keys d) ->
  set k v (set k' v' d) = set k' v' (set k v d).
Proof.
  intros Hne. unfold keys.
  induction d as [|[k0 v0] d IH]; simpl; [contradiction|].
  intros Hin.
  destruct (String.eqb_spec k' k0) as [->|E'];
    destruct (String.eqb_spec k k0) as [->|E]; simpl.
  - congruence.
  - rewrite String.eqb_refl.
    destruct (String.eqb_spec k k0); [congruence|reflexivity].
  - rewrite String.eqb_refl.
    destruct (String.eqb_spec k' k0); [congruence|reflexivity].
  - destruct (String.eqb_spec k k0); [congruence|].
    destruct (String.eqb_spec k' k0); [congruence|].
    f_equal. apply IH. destruct Hin as [H|H]; [congruence|exact H].
Qed.

Lemma update_cons k v items d :
  update ((k, v) :: items) d = update items (set k v d).
Proof. reflexivity. Qed.

Lemma update_app items items' d :
  update (items ++ items') d = update items' (update items d).
Proof. unfold update. apply fold_left_app. Qed.

Lemma keys_update_incl items d k :
  In k (keys d) -> In k (keys (update items d)).
Proof.
  revert d. induction items as [|[k0 v0] items IH]; intros d H; [exact H|].
  rewrite update_cons. apply IH. apply in_keys_set. now right.
Qed.

Lemma in_keys_update items d k :
  In k (keys (update items d)) <-> In k (map fst items) \/ In k (keys d).
Proof.
  revert d. induction items as [|[k0 v0] items IH]; intros d.
  - simpl. intuition.
  - rewrite update_cons, IH, in_keys_set. simpl. intuition.
Qed.

(** A write absorbs an earlier write to its key across writes to
    keys that are present. *)
Lemma set_update_set k v v0 items d :
  (forall k', In k' (map fst items) -> In k' (keys d)) ->
  set k v (update items (set k v0 d)) = set k v (update items d).
Proof.
  revert d. induction items as [|[k1 v1] items IH]; intros d Hin.
  - simpl. apply set_set.
  - rewrite !update_cons.
    destruct (String.eqb k1 k) eqn:E.
    + apply String.eqb_eq in E. subst k1. now rewrite set_set.
    + apply String.eqb_neq in E.
      rewrite <- (set_comm k k1 v0 v1 d)
        by (try congruence; apply Hin; simpl; auto).
      apply IH. intros k' Hk'. apply in_keys_set. right.
      apply Hin. simpl. now right.
Qed.

(** Replaying the writes of a loop leaves the dictionary as the
    first pass left it. *)
Lemma update_idem items d : update items (update items d) = update items d.
Proof.
  revert d. induction items as [|[k v] items IH] using rev_ind; intros d.
  - reflexivity.
  - rewrite !update_app. cbn [update fold_left fst snd].
    change (fold_left (fun acc kv => set (fst kv) (snd kv) acc) items)
      with (update (V := V) items).
    rewrite set_update_set.
    + now rewrite IH.
    + intros k' Hk'. apply in_keys_update. now left.
Qed.

Lemma get_update_notin (items : list (string * V)) : forall d k,
  ~ In k (map fst items) -> get k (update items d) = get k d.
Proof.
  induction items as [|[k0 v0] items IH]; intros d k Hn; [reflexivity|].
  rewrite update_cons, IH by (simpl in Hn; tauto).
  apply get_set_ne. simpl in Hn. intros ->. tauto.
Qed.

Lemma get_update_in (items : list (string * V)) : forall d k v,
  NoDup (map fst items) -> In (k, v) items ->
  get k (update items d) = Some v.
Proof.
  induction items as [|[k0 v0] items IH]; intros d k v Hnd Hin;
    [contradiction|].
  rewrite update_cons. inversion Hnd as [|? ? Hnotin Hnd']; subst.
  destruct Hin as [[= -> ->]|Hin].
  - rewrite get_update_notin by assumption. apply get_set_eq.
  - now apply IH.
Qed.

Lemma get_in d k v : get k d = Some v -> In (k, v) d.
Proof.
  induction d as [|[k0 v0] d IH]; simpl; [discriminate|].
  destruct (String.eqb_spec k k0) as [->|Hne].
  - intros [= ->]. now left.
  - intros H. right. auto.
Qed.

End Facts.
End DictFacts.

(** ** utils.py *)

(** C9: [hex_to_rgb("#FFFFFF")] is ["rgb(255, 255, 255)"],
    [hex_to_rgb("F60")] is ["rgb(255, 102, 0)"], the three digits being
    doubled to ["FF6600"], and [hex_to_rgb("GG0000")] raises a
    [ValueError] because of its non-hex characters. *)
Theorem hex_to_rgb_examples :
  hex_to_rgb "#FFFFFF" = Ok "rgb(255, 255, 255)"
  /\ hex_to_rgb "F60" = Ok "rgb(255, 102, 0)"
  /\ double_chars "F60" = "FF6600"
  /\ hex_to_rgb "GG0000"
     = Raise (ValueError "Invalid hex color: 'GG0000' contains non-hex characters").
Proof. repeat split; reflexivity. Qed.

(** ** models/relevant_date.py *)

(** C5: [RelevantDate(date, start_date, end_date)] succeeds exactly when
    a single date is given and neither bound of an interval, or both
    bounds are given and no single date, an argument counting as given
    when it is neither [None] nor empty.  A date together with a start
    raises the mutual-exclusion error, no argument at all the
    missing-argument error, a start without an end the pairing error. *)
Theorem relevant_date_init_exactly_one_form :
  forall date start_date end_date : option string,
    is_ok (RelevantDateOps.init date start_date end_date)
    = (opt_truthy date && negb (opt_truthy start_date)
         && negb (opt_truthy end_date))
      || (negb (opt_truthy date) && opt_truthy start_date
            && opt_truthy end_date)
    /\ (forall c d c' s,
          RelevantDateOps.init (Some (String c d)) (Some (String c' s)) end_date
          = Raise (ValueError RelevantDateOps.mixed_forms_msg))
    /\ RelevantDateOps.init None None None
       = Raise (ValueError RelevantDateOps.missing_msg)
    /\ (forall c s,
          RelevantDateOps.init None (Some (String c s)) None
          = Raise (ValueError RelevantDateOps.unpaired_msg)).
Proof.
  intros date start_date end_date. repeat split.
  - unfold RelevantDateOps.init.
    destruct date as [[|? ?]|], start_date as [[|? ?]|], end_date as [[|? ?]|];
      reflexivity.
Qed.

(** ** models/locations.py *)

Section LocationFacts.

Variable float_of_str : string -> option spec_float.

(** An input [float()] rejects with [ValueError] or [TypeError] is
    stored as 0.0. *)
Lemma location_init_unparseable (s : string) :
  float_of_str s = None ->
  LocationOps.init float_of_str (PStr s) PNone PNone None PNone
  = Ok (Location.mk float_zero float_zero None None None).
Proof.
  intros H. unfold LocationOps.init, LocationOps.float_or, LocationOps.py_float.
  rewrite H. reflexivity.
Qed.

(** An [int] beyond the range of a float leaves the constructor with
    the [OverflowError] of [float()], which it does not catch. *)
Lemma location_init_overflow :
  LocationOps.init float_of_str (PInt (2 ^ 1024)) (PInt 0) PNone None PNone
  = Raise (OverflowError "int too large to convert to float").
Proof. reflexivity. Qed.

(** C8, at [Location(100.0, 200.0)]: the constructor stores the latitude
    100.0 and the longitude 200.0 as they are, although they lie above
    90 and 180; neither becomes 0.0. *)
Theorem location_init_keeps_out_of_range :
  LocationOps.init float_of_str (PFloat (float_of_Z 100))
    (PFloat (float_of_Z 200)) PNone None PNone
  = Ok (Location.mk (float_of_Z 100) (float_of_Z 200) None None None)
  /\ SFltb (float_of_Z 90) (float_of_Z 100) = true
  /\ SFltb (float_of_Z 180) (float_of_Z 200) = true
  /\ SFeqb (float_of_Z 100) float_zero = false
  /\ SFeqb (float_of_Z 200) float_zero = false.
Proof. repeat split; reflexivity. Qed.

End LocationFacts.

(** ** models/pass_base.py: the add-operations *)

Module PassFacts.
Import ApplePass DictFacts.

Lemma mbind_ok {A B} (m : M A) (k : A -> M B) p a p' tr :
  m p = mkOutcome (Ok a) p' tr ->
  mbind m k p
  = mkOutcome (res (k a p')) (post (k a p')) (tr ++ trace (k a p'))%list.
Proof. intros H. unfold mbind. now rewrite H. Qed.

Lemma mbind_raise {A B} (m : M A) (k : A -> M B) p e p' tr :
  m p = mkOutcome (Raise e) p' tr ->
  mbind m k p = mkOutcome (Raise e) p' tr.
Proof. intros H. unfold mbind. now rewrite H. Qed.

Lemma read_spec name p v :
  Dict.get name p = Some v -> read name p = mkOutcome (Ok v) p [].
Proof. intros H. unfold read, getattr. now rewrite H. Qed.

Lemma for_each_cons {A} (f : A -> M unit) x l p :
  for_each f (x :: l) p
  = match res (f x p) with
    | Ok _ =>
        let o' := for_each f l (post (f x p)) in
        mkOutcome (res o') (post o') (trace (f x p) ++ trace o')%list
    | Raise e => mkOutcome (Raise e) (post (f x p)) (trace (f x p))
    end.
Proof. reflexivity. Qed.

Lemma for_each_post_inv {A} (P : t -> Prop) (f : A -> M unit) l :
  (forall x p, P p -> P (post (f x p))) ->
  forall p, P p -> P (post (for_each f l p)).
Proof.
  intros Hf. induction l as [|x l IH]; intros p Hp; [exact Hp|].
  rewrite for_each_cons. specialize (Hf x p Hp).
  destruct (res (f x p)); cbn [post]; auto.
Qed.

Lemma post_emit_then {A} e (m : M A) p :
  post (mbind (emit e) (fun _ => m) p) = post (m p).
Proof. reflexivity. Qed.

Lemma map_snoc {A B} (f : A -> B) l x :
  (map f l ++ [f x])%list = map f (l ++ [x])%list.
Proof. now rewrite map_app. Qed.

(** *** What each add-operation does to a pass whose container is a list *)

Lemma add_barcode_spec p (l : list pyval) v :
  Dict.get "_barcodes" p = Some (PList l) ->
  add_barcode v p
  = match v with
    | PBarcode _ =>
        mkOutcome (Ok tt) (Dict.set "_barcodes" (PList (l ++ [v])) p) []
    | _ =>
        mkOutcome
          (Raise (TypeError ("barcode must be a Barcode instance, got "
                               ++ type_name v))) p []
    end.
Proof.
  intros H. destruct v; try reflexivity.
  unfold add_barcode, mbind, read, getattr, lift, store.
  rewrite H. reflexivity.
Qed.

Lemma add_location_spec p (l : list pyval) v :
  Dict.get "_locations" p = Some (PList l) ->
  add_location v p
  = match v with
    | PLocation _ =>
        if (10 <=? List.length l)%nat
        then mkOutcome
               (Raise (ValueError "Maximum 10 locations allowed per pass")) p []
        else mkOutcome (Ok tt)
               (Dict.set "_locations" (PList (l ++ [v])) p) []
    | _ =>
        mkOutcome
          (Raise (TypeError ("location must be a Location instance, got "
                               ++ type_name v))) p []
    end.
Proof.
  intros H. destruct v; try reflexivity.
  unfold add_location, mbind, read, getattr, lift, raise, store.
  rewrite H. cbn [res post trace py_len].
  destruct (10 <=? List.length l)%nat; reflexivity.
Qed.

Lemma add_beacon_spec p (l : list pyval) v :
  Dict.get "_beacons" p = Some (PList l) ->
  add_beacon v p
  = match v with
    | PIBeacon _ =>
        if (10 <=? List.length l)%nat
        then mkOutcome
               (Raise (ValueError "Maximum 10 beacons allowed per pass")) p []
        else mkOutcome (Ok tt)
               (Dict.set "_beacons" (PList (l ++ [v])) p) []
    | _ =>
        mkOutcome
          (Raise (TypeError ("beacon must be an IBeacon instance, got "
                               ++ type_name v))) p []
    end.
Proof.
  intros H. destruct v; try reflexivity.
  unfold add_beacon, mbind, read, getattr, lift, raise, store.
  rewrite H. cbn [res post trace py_len].
  destruct (10 <=? List.length l)%nat; reflexivity.
Qed.

Lemma add_relevant_date_spec p (l : list pyval) v :
  Dict.get "_relevant_dates" p = Some (PList l) ->
  add_relevant_date v p
  = match as_relevant_date v with
    | Ok d =>
        mkOutcome (Ok tt)
          (Dict.set "_relevant_dates" (PList (l ++ [d])) p) []
    | Raise e => mkOutcome (Raise e) p []
    end.
Proof.
  intros H. unfold add_relevant_date, mbind, lift, read, getattr,
    store.
  cbn [res post trace]. destruct (as_relevant_date v); [|reflexivity].
  rewrite H. reflexivity.
Qed.

Lemma as_relevant_date_class v d :
  as_relevant_date v = Ok d -> exists r, d = PRelevantDate r.
Proof.
  destruct v; try discriminate; simpl.
  - destruct (RelevantDateOps.init (Some s) None None); [|discriminate].
    intros [= <-]. eauto.
  - intros [= <-]. eauto.
Qed.

(** *** The manifest step *)

Lemma record_hash_spec name digest p hashes :
  Dict.get "_hashes" p = Some (PDict hashes) ->
  record_hash name digest p
  = mkOutcome (Ok tt)
      (Dict.set "_hashes" (PDict (Dict.set name (PStr digest) hashes)) p) [].
Proof.
  intros H. unfold record_hash, mbind, read, getattr, lift, store.
  rewrite H. reflexivity.
Qed.

Lemma hash_file_spec name data p hashes :
  Dict.get "_hashes" p = Some (PDict hashes) ->
  hash_file (name, data) p
  = match sha1_hexdigest data with
    | Ok h =>
        mkOutcome (Ok tt)
          (Dict.set "_hashes" (PDict (Dict.set name (PStr h) hashes)) p) []
    | Raise e => mkOutcome (Raise e) p []
    end.
Proof.
  intros H. unfold hash_file, mbind, lift. cbn [res post trace fst snd].
  destruct (sha1_hexdigest data) as [h|e]; [|reflexivity].
  now rewrite (record_hash_spec _ _ _ _ H).
Qed.

Lemma for_each_hash_file items : forall p hashes,
  Dict.get "_hashes" p = Some (PDict hashes) ->
  for_each hash_file items p
  = mkOutcome (snd (file_digests items))
      (Dict.set "_hashes"
         (PDict (Dict.update (fst (file_digests items)) hashes)) p) [].
Proof.
  induction items as [|[name data] items IH]; intros p hashes H.
  - simpl. unfold ret. now rewrite set_unchanged.
  - rewrite for_each_cons, (hash_file_spec _ _ _ _ H). cbn [file_digests].
    destruct (sha1_hexdigest data) as [h|e]; cbn [res post trace fst snd].
    + rewrite (IH _ (Dict.set name (PStr h) hashes)) by apply get_set_eq.
      cbn [res post trace]. destruct (file_digests items) as [ws r].
      cbn [fst snd app]. rewrite set_set. reflexivity.
    + now rewrite set_unchanged.
Qed.

(** [_create_manifest] on a pass whose [_files] and [_hashes] are
    dictionaries: it replays [manifest_writes] on [_hashes] and returns
    the encoding of the result, unless an asset cannot be hashed. *)
Lemma create_manifest_spec float_repr pass_json p files hashes :
  Dict.get "_files" p = Some (PDict files) ->
  Dict.get "_hashes" p = Some (PDict hashes) ->
  let hashes' := Dict.update (manifest_writes pass_json files) hashes in
  _create_manifest float_repr pass_json p
  = mkOutcome
      (match snd (file_digests files) with
       | Ok _ => Json.dumps float_repr (PDict hashes')
       | Raise e => Raise e
       end)
      (Dict.set "_hashes" (PDict hashes') p) [].
Proof.
  intros HF HH hashes'. unfold _create_manifest.
  erewrite mbind_ok by (apply record_hash_spec; exact HH).
  erewrite mbind_ok
    by (apply read_spec; rewrite get_set_ne by discriminate; exact HF).
  erewrite mbind_ok by reflexivity.
  cbn [app].
  pose proof (for_each_hash_file files _ _
                (get_set_eq "_hashes"
                   (PDict (Dict.set "pass.json"
                             (PStr (SHA1.hexdigest (encode_utf8 pass_json)))
                             hashes)) p)) as E.
  rewrite set_set in E.
  change (Dict.update (fst (file_digests files))
            (Dict.set "pass.json" _ hashes)) with hashes' in E.
  destruct (snd (file_digests files)) as [[]|e].
  - erewrite mbind_ok by exact E.
    erewrite mbind_ok by (apply read_spec, get_set_eq).
    reflexivity.
  - erewrite mbind_raise by exact E. reflexivity.
Qed.

(** *** The invariant of reachable passes *)

Lemma wf_set_public p name v :
  well_formed p -> ~ In name private_names -> well_formed (Dict.set name v p).
Proof.
  intros [Hb Hl Hc Hd Hf] Hn.
  assert (forall k, In k private_names ->
                    Dict.get k (Dict.set name v p) = Dict.get k p) as E.
  { intros k Hk. apply get_set_ne. intros ->. contradiction. }
  constructor; rewrite ?E by (simpl; tauto); assumption.
Qed.

Lemma not_private name : prefix "_" name = false -> ~ In name private_names.
Proof.
  intros H Hin. simpl in Hin.
  repeat (destruct Hin as [<-|Hin]; [discriminate H|]). exact Hin.
Qed.

Ltac wf_other := rewrite ?get_set_ne by discriminate; assumption.

Lemma wf_set_barcodes p bs :
  well_formed p ->
  well_formed (Dict.set "_barcodes" (PList (map PBarcode bs)) p).
Proof.
  intros [Hb Hl Hc Hd Hf]. constructor; try wf_other.
  exists bs. apply get_set_eq.
Qed.

Lemma wf_set_locations p ls :
  (List.length ls <= 10)%nat ->
  well_formed p ->
  well_formed (Dict.set "_locations" (PList (map PLocation ls)) p).
Proof.
  intros Hlen [Hb Hl Hc Hd Hf]. constructor; try wf_other.
  exists ls. split; [apply get_set_eq|exact Hlen].
Qed.

Lemma wf_set_beacons p bs :
  (List.length bs <= 10)%nat ->
  well_formed p ->
  well_formed (Dict.set "_beacons" (PList (map PIBeacon bs)) p).
Proof.
  intros Hlen [Hb Hl Hc Hd Hf]. constructor; try wf_other.
  exists bs. split; [apply get_set_eq|exact Hlen].
Qed.

Lemma wf_set_dates p ds :
  well_formed p ->
  well_formed (Dict.set "_relevant_dates" (PList (map PRelevantDate ds)) p).
Proof.
  intros [Hb Hl Hc Hd Hf]. constructor; try wf_other.
  exists ds. apply get_set_eq.
Qed.

Lemma wf_add_barcode p v :
  well_formed p -> well_formed (post (add_barcode v p)).
Proof.
  intros W. destruct (wf_barcodes _ W) as [bs H].
  rewrite (add_barcode_spec _ _ v H). destruct v; try exact W.
  cbn [post]. rewrite map_snoc. now apply wf_set_barcodes.
Qed.

Lemma wf_add_location p v :
  well_formed p -> well_formed (post (add_location v p)).
Proof.
  intros W. destruct (wf_locations _ W) as [ls [H Hlen]].
  rewrite (add_location_spec _ _ v H). destruct v; try exact W.
  rewrite length_map.
  destruct (Nat.leb_spec 10 (List.length ls)); [exact W|].
  cbn [post]. rewrite map_snoc. apply wf_set_locations; [|exact W].
  rewrite length_app. simpl. lia.
Qed.

Lemma wf_add_beacon p v :
  well_formed p -> well_formed (post (add_beacon v p)).
Proof.
  intros W. destruct (wf_beacons _ W) as [ls [H Hlen]].
  rewrite (add_beacon_spec _ _ v H). destruct v; try exact W.
  rewrite length_map.
  destruct (Nat.leb_spec 10 (List.length ls)); [exact W|].
  cbn [post]. rewrite map_snoc. apply wf_set_beacons; [|exact W].
  rewrite length_app. simpl. lia.
Qed.

Lemma wf_add_relevant_date p v :
  well_formed p -> well_formed (post (add_relevant_date v p)).
Proof.
  intros W. destruct (wf_dates _ W) as [ds H].
  rewrite (add_relevant_date_spec _ _ v H).
  destruct (as_relevant_date v) as [d|e] eqn:E; [|exact W].
  destruct (as_relevant_date_class _ _ E) as [r ->].
  cbn [post]. rewrite map_snoc. now apply wf_set_dates.
Qed.

Lemma object_setattr_other name v :
  ~ In name descriptor_names -> object_setattr name v = store name v.
Proof.
  intros Hn. unfold object_setattr.
  repeat match goal with
         | |- context [String.eqb name ?c] =>
             destruct (String.eqb_spec name c) as [->|_];
             [exfalso; apply Hn; simpl; tauto|]
         end.
  reflexivity.
Qed.

Lemma public_not_descriptor name :
  prefix "_" name = false -> ~ In name descriptor_names.
Proof.
  intros Hn [<-|[<-|[<-|[]]]]; discriminate Hn.
Qed.

Lemma wf_setattr p name v :
  prefix "_" name = false ->
  well_formed p -> well_formed (post (__setattr__ name v p)).
Proof.
  intros Hn W. unfold __setattr__.
  repeat match goal with
         | |- context [if ?c then _ else _] => destruct c
         end;
    rewrite ?post_emit_then; try exact W.
  - now apply wf_add_barcode.
  - destruct v; try now apply wf_add_location.
    apply for_each_post_inv; [|exact W]. intros; now apply wf_add_location.
  - destruct v; try now apply wf_add_beacon.
    apply for_each_post_inv; [|exact W]. intros; now apply wf_add_beacon.
  - now apply wf_add_relevant_date.
  - rewrite object_setattr_other by now apply public_not_descriptor.
    cbn [post store].
    apply wf_set_public; [exact W|now apply not_private].
Qed.

Lemma nodup_keys_set {V} name (data : V) files :
  NoDup (Dict.keys files) -> NoDup (Dict.keys (Dict.set name data files)).
Proof.
  unfold Dict.keys. induction files as [|[k v] files IH]; simpl; intros Hnd.
  - constructor; [intros []|constructor].
  - inversion Hnd as [|? ? Hnotin Hnd']; subst.
    destruct (String.eqb_spec name k) as [->|Hne]; simpl.
    + constructor; assumption.
    + constructor; [|auto].
      intros Hin. apply (in_keys_set k name data files) in Hin.
      destruct Hin as [->|Hin]; [congruence|contradiction].
Qed.

Lemma wf_add_file p name data :
  well_formed p -> well_formed (post (add_file name data p)).
Proof.
  intros W. destruct (wf_files _ W) as (files & hashes & HF & HH & Hnd & Hk).
  unfold add_file.
  erewrite mbind_ok by (apply read_spec; exact HF).
  erewrite mbind_ok by reflexivity.
  cbn [post store].
  destruct W as [Hb Hl Hc Hd _]. constructor; try wf_other.
  exists (Dict.set name data files), hashes. repeat split.
  - apply get_set_eq.
  - wf_other.
  - now apply nodup_keys_set.
  - intros k Hin. destruct (Hk k Hin) as [->|Hin']; [now left|right].
    apply in_keys_set. now right.
Qed.

Lemma file_digests_keys files k :
  In k (map fst (fst (file_digests files))) -> In k (Dict.keys files).
Proof.
  unfold Dict.keys. induction files as [|[n d] files IH]; simpl;
    [contradiction|].
  destruct (sha1_hexdigest d); [|contradiction].
  destruct (file_digests files) as [ws r]. simpl in *.
  intros [<-|Hin]; auto.
Qed.

Lemma wf_create_manifest p float_repr pass_json :
  well_formed p ->
  well_formed (post (_create_manifest float_repr pass_json p)).
Proof.
  intros W. destruct (wf_files _ W) as (files & hashes & HF & HH & Hnd & Hk).
  rewrite (create_manifest_spec float_repr pass_json p files hashes HF HH).
  cbn [post].
  destruct W as [Hb Hl Hc Hd _]. constructor; try wf_other.
  exists files, (Dict.update (manifest_writes pass_json files) hashes).
  repeat split; [wf_other|apply get_set_eq|exact Hnd|].
  intros k Hin. apply in_keys_update in Hin.
  destruct Hin as [Hin|Hin]; [|auto].
  simpl in Hin. destruct Hin as [<-|Hin]; [now left|right].
  now apply file_digests_keys.
Qed.

Lemma wf_new info a b c : well_formed (new info a b c).
Proof.
  constructor.
  - exists []. reflexivity.
  - exists []. split; [reflexivity|simpl; lia].
  - exists []. split; [reflexivity|simpl; lia].
  - exists []. reflexivity.
  - exists [], []. repeat split; try reflexivity; [constructor|intros k []].
Qed.

(** The private containers of a pass built through the public interface
    hold lists of the right classes, at most ten locations and ten
    beacons, and digests for the document and the assets only. *)
Lemma reachable_well_formed p : reachable p -> well_formed p.
Proof.
  induction 1; auto using wf_new, wf_setattr, wf_add_barcode,
    wf_add_location, wf_add_beacon, wf_add_relevant_date, wf_add_file,
    wf_create_manifest.
Qed.

(** *** What an add-operation leaves alone *)

Lemma add_barcode_frame v p k :
  k <> "_barcodes" -> Dict.get k (post (add_barcode v p)) = Dict.get k p.
Proof.
  intros Hk. unfold add_barcode. destruct v; try reflexivity.
  unfold mbind, read, getattr, lift, store.
  destruct (Dict.get "_barcodes" p) as [c|]; cbn [res post]; [|reflexivity].
  destruct (py_append c _); cbn [res post]; [|reflexivity].
  now apply get_set_ne.
Qed.

Lemma add_location_frame v p k :
  k <> "_locations" -> Dict.get k (post (add_location v p)) = Dict.get k p.
Proof.
  intros Hk. unfold add_location. destruct v; try reflexivity.
  unfold mbind, read, getattr, lift, raise, store.
  destruct (Dict.get "_locations" p) as [c|]; cbn [res post]; [|reflexivity].
  destruct (py_len c); cbn [res post]; [|reflexivity].
  destruct (10 <=? a)%nat; cbn [res post]; [reflexivity|].
  destruct (py_append c _); cbn [res post]; [|reflexivity].
  now apply get_set_ne.
Qed.

Lemma add_beacon_frame v p k :
  k <> "_beacons" -> Dict.get k (post (add_beacon v p)) = Dict.get k p.
Proof.
  intros Hk. unfold add_beacon. destruct v; try reflexivity.
  unfold mbind, read, getattr, lift, raise, store.
  destruct (Dict.get "_beacons" p) as [c|]; cbn [res post]; [|reflexivity].
  destruct (py_len c); cbn [res post]; [|reflexivity].
  destruct (10 <=? a)%nat; cbn [res post]; [reflexivity|].
  destruct (py_append c _); cbn [res post]; [|reflexivity].
  now apply get_set_ne.
Qed.

Lemma add_relevant_date_frame v p k :
  k <> "_relevant_dates" ->
  Dict.get k (post (add_relevant_date v p)) = Dict.get k p.
Proof.
  intros Hk. unfold add_relevant_date, mbind, read, getattr, lift, store.
  cbn [res post].
  destruct (as_relevant_date v); cbn [res post]; [|reflexivity].
  destruct (Dict.get "_relevant_dates" p) as [c|]; cbn [res post]; [|reflexivity].
  destruct (py_append c _); cbn [res post]; [|reflexivity].
  now apply get_set_ne.
Qed.

Lemma emit_then w (m : M unit) p :
  mbind (emit w) (fun _ => m) p = with_warning w (m p).
Proof. unfold mbind, emit, with_warning. cbn. now destruct (res (m p)). Qed.

Lemma setattr_not_deprecated name v :
  ~ In name deprecated_names -> __setattr__ name v = object_setattr name v.
Proof.
  intros Hn. unfold __setattr__.
  repeat match goal with
         | |- context [String.eqb name ?c && _] =>
             destruct (String.eqb_spec name c) as [->|_];
             [exfalso; apply Hn; simpl; tauto|]
         end.
  reflexivity.
Qed.

Lemma setattr_other name v p :
  ~ In name deprecated_names -> ~ In name descriptor_names ->
  __setattr__ name v p = mkOutcome (Ok tt) (Dict.set name v p) [].
Proof.
  intros Hn Hd.
  now rewrite setattr_not_deprecated, object_setattr_other.
Qed.

(** *** Adding several locations or beacons in a row *)

Lemma for_each_add_location_spec locs : forall p (l : list pyval),
  Dict.get "_locations" p = Some (PList l) ->
  (List.length l + List.length locs <= 10)%nat ->
  for_each add_location (map PLocation locs) p
  = mkOutcome (Ok tt)
      (Dict.set "_locations" (PList (l ++ map PLocation locs)) p) [].
Proof.
  induction locs as [|loc locs IH]; intros p l H Hlen.
  - simpl. rewrite app_nil_r. unfold ret. now rewrite set_unchanged.
  - cbn [map]. rewrite for_each_cons, (add_location_spec _ _ _ H).
    simpl in Hlen.
    destruct (Nat.leb_spec 10 (List.length l)); [lia|]. cbn [res post trace].
    rewrite (IH _ (l ++ [PLocation loc])%list).
    + cbn [res post trace app]. rewrite set_set, <- app_assoc. reflexivity.
    + apply get_set_eq.
    + rewrite length_app. simpl. lia.
Qed.

Lemma for_each_add_beacon_spec bcns : forall p (l : list pyval),
  Dict.get "_beacons" p = Some (PList l) ->
  (List.length l + List.length bcns <= 10)%nat ->
  for_each add_beacon (map PIBeacon bcns) p
  = mkOutcome (Ok tt)
      (Dict.set "_beacons" (PList (l ++ map PIBeacon bcns)) p) [].
Proof.
  induction bcns as [|b bcns IH]; intros p l H Hlen.
  - simpl. rewrite app_nil_r. unfold ret. now rewrite set_unchanged.
  - cbn [map]. rewrite for_each_cons, (add_beacon_spec _ _ _ H).
    simpl in Hlen.
    destruct (Nat.leb_spec 10 (List.length l)); [lia|]. cbn [res post trace].
    rewrite (IH _ (l ++ [PIBeacon b])%list).
    + cbn [res post trace app]. rewrite set_set, <- app_assoc. reflexivity.
    + apply get_set_eq.
    + rewrite length_app. simpl. lia.
Qed.

Lemma for_each_add_location_over locs : forall p (l : list pyval),
  Dict.get "_locations" p = Some (PList l) ->
  (List.length l <= 10)%nat ->
  (10 < List.length l + List.length locs)%nat ->
  for_each add_location (map PLocation locs) p
  = mkOutcome (Raise (ValueError "Maximum 10 locations allowed per pass"))
      (Dict.set "_locations"
         (PList (l ++ map PLocation (firstn (10 - List.length l) locs))) p) [].
Proof.
  induction locs as [|loc locs IH]; intros p l H Hle Hlt.
  - simpl in Hlt. lia.
  - cbn [map]. rewrite for_each_cons, (add_location_spec _ _ _ H).
    cbn [List.length] in Hlt.
    destruct (Nat.leb_spec 10 (List.length l)) as [Hfull|Hroom];
      cbn [res post trace].
    + replace (10 - List.length l)%nat with 0%nat by lia.
      cbn [firstn map]. rewrite app_nil_r. now rewrite set_unchanged.
    + rewrite (IH _ (l ++ [PLocation loc])%list);
        [|apply get_set_eq|rewrite length_app; simpl; lia
         |rewrite length_app; simpl; lia].
      cbn [res post trace app]. rewrite set_set, length_app. cbn [List.length].
      replace (10 - List.length l)%nat
        with (S (10 - (List.length l + 1)))%nat by lia.
      cbn [firstn map]. now rewrite <- app_assoc.
Qed.

Lemma for_each_add_beacon_over bcns : forall p (l : list pyval),
  Dict.get "_beacons" p = Some (PList l) ->
  (List.length l <= 10)%nat ->
  (10 < List.length l + List.length bcns)%nat ->
  for_each add_beacon (map PIBeacon bcns) p
  = mkOutcome (Raise (ValueError "Maximum 10 beacons allowed per pass"))
      (Dict.set "_beacons"
         (PList (l ++ map PIBeacon (firstn (10 - List.length l) bcns))) p) [].
Proof.
  induction bcns as [|b bcns IH]; intros p l H Hle Hlt.
  - simpl in Hlt. lia.
  - cbn [map]. rewrite for_each_cons, (add_beacon_spec _ _ _ H).
    cbn [List.length] in Hlt.
    destruct (Nat.leb_spec 10 (List.length l)) as [Hfull|Hroom];
      cbn [res post trace].
    + replace (10 - List.length l)%nat with 0%nat by lia.
      cbn [firstn map]. rewrite app_nil_r. now rewrite set_unchanged.
    + rewrite (IH _ (l ++ [PIBeacon b])%list);
        [|apply get_set_eq|rewrite length_app; simpl; lia
         |rewrite length_app; simpl; lia].
      cbn [res post trace app]. rewrite set_set, length_app. cbn [List.length].
      replace (10 - List.length l)%nat
        with (S (10 - (List.length l + 1)))%nat by lia.
      cbn [firstn map]. now rewrite <- app_assoc.
Qed.

Lemma res_mbind_ok {A B} (m : M A) (k : A -> M B) p b :
  res (mbind m k p) = Ok b ->
  exists a, res (m p) = Ok a
            /\ res (k a (post (m p))) = Ok b
            /\ trace (mbind m k p) = (trace (m p) ++ trace (k a (post (m p))))%list.
Proof.
  unfold mbind. destruct (res (m p)) as [a|e]; cbn [res post trace];
    [eauto|discriminate].
Qed.

End PassFacts.

(** ** models/pass_base.py: the manifest *)

Module ManifestFacts.
Import ApplePass DictFacts PassFacts.

(** [json_dict] reads no digest. *)
Lemma json_dict_ext p p' :
  (forall k, k <> "_hashes" -> Dict.get k p' = Dict.get k p) ->
  json_dict p' = json_dict p.
Proof.
  intros H.
  unfold json_dict, required_fields, barcode_fields, date_fields,
    project_all_if_truthy, project_if_truthy, copy_if_truthy,
    web_service_fields, voided_field, sharing_field, getattr.
  rewrite !H by discriminate. reflexivity.
Qed.

Lemma create_pass_json_ext float_repr p v :
  _create_pass_json float_repr (Dict.set "_hashes" v p)
  = _create_pass_json float_repr p.
Proof.
  unfold _create_pass_json. rewrite (json_dict_ext p).
  - reflexivity.
  - intros k Hk. now apply get_set_ne.
Qed.

(** Without a dictionary in [_hashes] the first write fails and the
    pass is left as it was. *)
Lemma create_manifest_no_dict float_repr pass_json (o : option pyval) :
  (forall hashes, o <> Some (PDict hashes)) ->
  exists e, forall p,
    Dict.get "_hashes" p = o ->
    _create_manifest float_repr pass_json p = mkOutcome (Raise e) p [].
Proof.
  intros H. destruct o as [v|].
  - destruct v;
      try (eexists; intros p E; unfold _create_manifest, record_hash;
           erewrite mbind_raise; [reflexivity|];
           erewrite mbind_ok by (apply read_spec; exact E);
           cbn; reflexivity).
    exfalso. eapply H. reflexivity.
  - eexists. intros p E. unfold _create_manifest.
    erewrite mbind_raise; [reflexivity|].
    unfold record_hash. erewrite mbind_raise; [reflexivity|].
    unfold read, getattr. rewrite E. reflexivity.
Qed.

(** Without a dictionary in [_files] the step fails after the digest
    of the document has been written. *)
Lemma create_manifest_no_files float_repr pass_json (o : option pyval) :
  (forall files, o <> Some (PDict files)) ->
  exists e, forall p hashes,
    Dict.get "_files" p = o ->
    Dict.get "_hashes" p = Some (PDict hashes) ->
    _create_manifest float_repr pass_json p
    = mkOutcome (Raise e)
        (Dict.set "_hashes"
           (PDict (Dict.set "pass.json"
                     (PStr (SHA1.hexdigest (encode_utf8 pass_json)))
                     hashes)) p) [].
Proof.
  intros H. destruct o as [v|].
  - destruct v;
      try (eexists; intros p hashes E HH; unfold _create_manifest;
           erewrite mbind_ok by (apply record_hash_spec; exact HH);
           erewrite mbind_ok
             by (apply read_spec; rewrite get_set_ne by discriminate;
                 exact E);
           cbn; reflexivity).
    exfalso. eapply H. reflexivity.
  - eexists. intros p hashes E HH. unfold _create_manifest.
    erewrite mbind_ok by (apply record_hash_spec; exact HH).
    erewrite mbind_raise; [reflexivity|].
    unfold read, getattr. rewrite get_set_ne by discriminate.
    rewrite E. reflexivity.
Qed.

Lemma file_digests_ok files :
  snd (file_digests files) = Ok tt ->
  map fst (fst (file_digests files)) = Dict.keys files
  /\ forall name data, In (name, data) files ->
       exists b, data = PBytes b
                 /\ In (name, PStr (SHA1.hexdigest b))
                      (fst (file_digests files)).
Proof.
  unfold Dict.keys. induction files as [|[n d] files IH]; simpl.
  - intros _. split; [reflexivity|intros ? ? []].
  - destruct (sha1_hexdigest d) as [h|e] eqn:E; [|discriminate].
    destruct (file_digests files) as [ws r]. simpl in *.
    intros Hr. destruct (IH Hr) as [IH1 IH2]. split; [now rewrite IH1|].
    intros name data [[= <- <-]|Hin].
    + destruct d; try discriminate. injection E as <-. eauto.
    + destruct (IH2 _ _ Hin) as (b & -> & Hb). eauto.
Qed.

End ManifestFacts.

(** ** models/pass_base.py: [json_dict] *)

Module JsonFacts.
Import ApplePass DictFacts PassFacts.

Lemma bind_ok {A B} (c : result A) (k : A -> result B) b :
  bind c k = Ok b -> exists a, c = Ok a /\ k a = Ok b.
Proof. destruct c; simpl; [eauto|discriminate]. Qed.

Lemma keeps_copy k attr key self :
  k <> key -> keeps k (copy_if_truthy attr key self).
Proof.
  intros Hk d d'. unfold copy_if_truthy. intros H.
  apply bind_ok in H. destruct H as (v & _ & [= <-]).
  destruct (truthy v); [now apply get_set_ne|reflexivity].
Qed.

Lemma keeps_project k attr key self :
  k <> key -> keeps k (project_if_truthy attr key self).
Proof.
  intros Hk d d'. unfold project_if_truthy. intros H.
  apply bind_ok in H. destruct H as (v & _ & H).
  destruct (truthy v); [|now injection H as <-].
  apply bind_ok in H. destruct H as (j & _ & [= <-]). now apply get_set_ne.
Qed.

Lemma keeps_project_all k attr key self :
  k <> key -> keeps k (project_all_if_truthy attr key self).
Proof.
  intros Hk d d'. unfold project_all_if_truthy. intros H.
  apply bind_ok in H. destruct H as (v & _ & H).
  destruct (truthy v); [|now injection H as <-].
  apply bind_ok in H. destruct H as (items & _ & H).
  apply bind_ok in H. destruct H as (arr & _ & [= <-]). now apply get_set_ne.
Qed.

Lemma keeps_web_service k self :
  k <> "webServiceURL" -> k <> "authenticationToken" ->
  keeps k (web_service_fields self).
Proof.
  intros Hk Hk' d d'. unfold web_service_fields. intros H.
  apply bind_ok in H. destruct H as (v & _ & H).
  destruct (truthy v); [|now injection H as <-].
  apply bind_ok in H. destruct H as (tok & _ & [= <-]).
  rewrite !get_set_ne by assumption. reflexivity.
Qed.

Lemma keeps_voided k self : k <> "voided" -> keeps k (voided_field self).
Proof.
  intros Hk d d'. unfold voided_field. intros H.
  apply bind_ok in H. destruct H as (v & _ & [= <-]).
  destruct (truthy v); [now apply get_set_ne|reflexivity].
Qed.

Lemma keeps_sharing k self :
  k <> "sharingProhibited" -> keeps k (sharing_field self).
Proof.
  intros Hk d d'. unfold sharing_field. intros H.
  apply bind_ok in H. destruct H as (v & _ & [= <-]).
  destruct (negb (is_none v)); [now apply get_set_ne|reflexivity].
Qed.

Lemma keeps_barcodes k self :
  k <> "barcodes" -> k <> "barcode" -> keeps k (barcode_fields self).
Proof.
  intros Hk Hk' d d'. unfold barcode_fields. intros H.
  apply bind_ok in H. destruct H as (v & _ & H).
  destruct (truthy v); [|now injection H as <-].
  apply bind_ok in H. destruct H as (items & _ & H).
  apply bind_ok in H. destruct H as (arr & _ & H).
  apply bind_ok in H. destruct H as (first & _ & H).
  destruct first; try discriminate.
  destruct (str_in _ _).
  - injection H as <-. rewrite !get_set_ne by assumption. reflexivity.
  - apply bind_ok in H. destruct H as (lb & _ & [= <-]).
    rewrite !get_set_ne by assumption. reflexivity.
Qed.

Lemma keeps_dates k self :
  k <> "relevantDates" -> k <> "relevantDate" -> keeps k (date_fields self).
Proof.
  intros Hk Hk' d d'. unfold date_fields. intros H.
  apply bind_ok in H. destruct H as (v & _ & H).
  destruct (truthy v); [|now injection H as <-].
  apply bind_ok in H. destruct H as (items & _ & H).
  apply bind_ok in H. destruct H as (arr & _ & H).
  apply bind_ok in H. destruct H as (first & _ & H).
  destruct first; try discriminate. injection H as <-.
  rewrite get_set_ne by assumption.
  destruct arr; cbn [truthy]; [reflexivity|now apply get_set_ne].
Qed.

(** The sections of [json_dict], unfolded. *)
Lemma json_dict_sections self d :
  json_dict self = Ok d ->
  exists d0 d1 d2 d3,
    required_fields self = Ok d0
    /\ barcode_fields self d0 = Ok d1
    /\ date_fields self d1 = Ok d2
    /\ project_all_if_truthy "_locations" "locations" self d2 = Ok d3
    /\ forall k,
         ~ In k ["beacons"; "backgroundColor"; "foregroundColor"; "labelColor";
                 "logoText"; "webServiceURL"; "authenticationToken";
                 "associatedStoreIdentifiers"; "appLaunchURL"; "expirationDate";
                 "voided"; "userInfo"; "groupingIdentifier"; "sharingProhibited";
                 "nfc"; "semantics"; "personalization"; "upcomingEventInfo"] ->
         Dict.get k d = Dict.get k d3.
Proof.
  unfold json_dict. intros H.
  repeat match type of H with
         | bind _ _ = Ok _ =>
             let a := fresh "d" in
             let E := fresh "E" in
             apply bind_ok in H; destruct H as (a & E & H)
         end.
  do 4 eexists. repeat (split; [eassumption|]).
  intros k Hk.
  assert (forall key, In key ["beacons"; "backgroundColor"; "foregroundColor";
                 "labelColor"; "logoText"; "webServiceURL";
                 "authenticationToken"; "associatedStoreIdentifiers";
                 "appLaunchURL"; "expirationDate"; "voided"; "userInfo";
                 "groupingIdentifier"; "sharingProhibited"; "nfc"; "semantics";
                 "personalization"; "upcomingEventInfo"] -> k <> key) as Hne.
  { intros key Hin ->. contradiction. }
  repeat match goal with
         | E : project_all_if_truthy ?a ?key ?s ?x = Ok ?y
           |- Dict.get k ?y = _ =>
             rewrite (keeps_project_all k a key s
                        (Hne key ltac:(simpl; tauto)) x y E); clear E
         | E : project_if_truthy ?a ?key ?s ?x = Ok ?y
           |- Dict.get k ?y = _ =>
             rewrite (keeps_project k a key s
                        (Hne key ltac:(simpl; tauto)) x y E); clear E
         | E : copy_if_truthy ?a ?key ?s ?x = Ok ?y
           |- Dict.get k ?y = _ =>
             rewrite (keeps_copy k a key s
                        (Hne key ltac:(simpl; tauto)) x y E); clear E
         | E : sharing_field ?s ?x = Ok ?y |- Dict.get k ?y = _ =>
             rewrite (keeps_sharing k s
                        (Hne "sharingProhibited" ltac:(simpl; tauto)) x y E);
             clear E
         | E : voided_field ?s ?x = Ok ?y |- Dict.get k ?y = _ =>
             rewrite (keeps_voided k s
                        (Hne "voided" ltac:(simpl; tauto)) x y E); clear E
         | E : web_service_fields ?s ?x = Ok ?y |- Dict.get k ?y = _ =>
             rewrite (keeps_web_service k s
                        (Hne "webServiceURL" ltac:(simpl; tauto))
                        (Hne "authenticationToken" ltac:(simpl; tauto))
                        x y E); clear E
         end.
  reflexivity.
Qed.

Lemma date_entry_truthy r : truthy (date_entry r) = contributes r.
Proof.
  unfold date_entry, contributes, RelevantDateOps.json_dict,
    RelevantDateOps.put_if_truthy.
  destruct (opt_truthy (RelevantDate.date r)),
    (opt_truthy (RelevantDate.startDate r)),
    (opt_truthy (RelevantDate.endDate r)); reflexivity.
Qed.

Lemma date_entries_spec ds : forall acc,
  date_entries (map PRelevantDate ds) acc
  = Ok (acc ++ map date_entry (filter contributes ds))%list.
Proof.
  induction ds as [|r ds IH]; intros acc.
  - simpl. now rewrite app_nil_r.
  - cbn [map date_entries filter].
    change (PDict _) with (date_entry r). rewrite date_entry_truthy, IH.
    destruct (contributes r); [|reflexivity].
    now rewrite <- app_assoc.
Qed.

Lemma date_fields_spec self d first rest :
  Dict.get "_relevant_dates" self
  = Some (PList (map PRelevantDate (first :: rest))) ->
  date_fields self d
  = Ok (Dict.set "relevantDate" (legacy_date first)
          match filter contributes (first :: rest) with
          | [] => d
          | kept => Dict.set "relevantDates" (PList (map date_entry kept)) d
          end).
Proof.
  intros H. unfold date_fields, getattr. rewrite H.
  cbn [bind truthy map py_iter py_first].
  change (PRelevantDate first :: map PRelevantDate rest)
    with (map PRelevantDate (first :: rest)).
  rewrite date_entries_spec. cbn [bind app].
  destruct (filter contributes (first :: rest)); reflexivity.
Qed.

Lemma required_fields_keys self d k :
  required_fields self = Ok d ->
  ~ In k ["description"; "formatVersion"; "organizationName";
          "passTypeIdentifier"; "serialNumber"; "teamIdentifier";
          "suppressStripShine"; "boardingPass"; "coupon"; "eventTicket";
          "generic"; "storeCard"] ->
  Dict.get k d = None.
Proof.
  unfold required_fields. intros H Hk.
  repeat match type of H with
         | bind _ _ = Ok _ =>
             let a := fresh "v" in
             apply bind_ok in H; destruct H as (a & _ & H)
         end.
  destruct v6; try discriminate. injection H as <-.
  destruct kind; cbn;
    repeat match goal with
           | |- context [String.eqb k ?c] =>
               destruct (String.eqb_spec k c) as [->|_];
               [exfalso; apply Hk; simpl; tauto|]
           end; reflexivity.
Qed.

End JsonFacts.

Import ApplePass DictFacts PassFacts ManifestFacts JsonFacts.

(** C2: running the manifest step a second time on the pass the first
    run left, with no change in between, returns the same manifest (or
    raises the same exception) and leaves the same digests in [_hashes];
    the canonical document of the pass the first run left is the document
    of the pass it started from.  Both are functions of the state of the
    pass alone, the digests kept from the first run included. *)
Theorem assembly_twice_identical :
  forall float_repr p pass_json,
    let first := ApplePass._create_manifest float_repr pass_json p in
    let second :=
      ApplePass._create_manifest float_repr pass_json (ApplePass.post first) in
    ApplePass._create_pass_json float_repr (ApplePass.post first)
    = ApplePass._create_pass_json float_repr p
    /\ ApplePass.res second = ApplePass.res first
    /\ ApplePass.post second = ApplePass.post first.
Proof.
  intros float_repr p pass_json.
  destruct (Dict.get "_hashes" p) as [vh|] eqn:HH.
  2:{ destruct (create_manifest_no_dict float_repr pass_json None) as [e E];
        [congruence|].
      cbn zeta. rewrite (E p HH). cbn [post res]. now rewrite (E p HH). }
  assert ((exists hashes, vh = PDict hashes)
          \/ forall hashes, Some vh <> Some (PDict hashes)) as [[hashes ->]|Hno].
  { destruct vh; try (right; congruence). left; eauto. }
  2:{ destruct (create_manifest_no_dict float_repr pass_json _ Hno) as [e E].
      cbn zeta. rewrite (E p HH). cbn [post res]. now rewrite (E p HH). }
  set (h := PStr (SHA1.hexdigest (encode_utf8 pass_json))).
  destruct (Dict.get "_files" p) as [vf|] eqn:HF.
  2:{ destruct (create_manifest_no_files float_repr pass_json None) as [e E];
        [congruence|].
      cbn zeta. rewrite (E p hashes HF HH). cbn [post res].
      split; [apply create_pass_json_ext|].
      rewrite (E _ (Dict.set "pass.json" h hashes))
        by (rewrite ?get_set_eq, ?get_set_ne by discriminate; auto).
      cbn [post res]. now rewrite !set_set. }
  assert ((exists files, vf = PDict files)
          \/ forall files, Some vf <> Some (PDict files)) as [[files ->]|Hno].
  { destruct vf; try (right; congruence). left; eauto. }
  2:{ destruct (create_manifest_no_files float_repr pass_json _ Hno) as [e E].
      cbn zeta. rewrite (E p hashes HF HH). cbn [post res].
      split; [apply create_pass_json_ext|].
      rewrite (E _ (Dict.set "pass.json" h hashes))
        by (rewrite ?get_set_eq, ?get_set_ne by discriminate; auto).
      cbn [post res]. now rewrite !set_set. }
  cbn zeta.
  rewrite (create_manifest_spec float_repr pass_json p files hashes HF HH).
  cbn [post res]. split; [apply create_pass_json_ext|].
  rewrite (create_manifest_spec float_repr pass_json _ files
             (Dict.update (manifest_writes pass_json files) hashes))
    by (rewrite ?get_set_eq, ?get_set_ne by discriminate; auto).
  cbn [post res]. now rewrite update_idem, set_set.
Qed.

(** C7, as amended: for a pass built through the public interface, the
    manifest that [_create_manifest] returns is the encoding of a mapping
    whose keys are exactly ["pass.json"] and the names of the attached
    assets; the entry of every asset is the hex SHA-1 digest of the bytes
    of that asset alone; and, provided no asset is named ["pass.json"],
    the entry ["pass.json"] is the hex SHA-1 digest of the UTF-8 encoding
    of the document. *)
Theorem manifest_digests :
  forall float_repr pass_json p files manifest,
    reachable p ->
    Dict.get "_files" p = Some (PDict files) ->
    res (_create_manifest float_repr pass_json p) = Ok manifest ->
    exists hashes,
      Dict.get "_hashes" (post (_create_manifest float_repr pass_json p))
      = Some (PDict hashes)
      /\ Json.dumps float_repr (PDict hashes) = Ok manifest
      /\ (forall k, In k (Dict.keys hashes)
                    <-> k = "pass.json" \/ In k (Dict.keys files))
      /\ (forall name data,
             Dict.get name files = Some data ->
             exists b, data = PBytes b
                       /\ Dict.get name hashes
                          = Some (PStr (SHA1.hexdigest b)))
      /\ (~ In "pass.json" (Dict.keys files) ->
          Dict.get "pass.json" hashes
          = Some (PStr (SHA1.hexdigest (encode_utf8 pass_json)))).
Proof.
  intros float_repr pass_json p files manifest R HF Hres.
  destruct (wf_files _ (reachable_well_formed _ R))
    as (files' & hashes0 & HF' & HH & Hnd & Hk).
  rewrite HF in HF'. injection HF' as <-.
  rewrite (create_manifest_spec float_repr pass_json p files hashes0 HF HH) in *.
  cbn [res post] in *.
  destruct (snd (file_digests files)) as [[]|e] eqn:Eok; [|discriminate].
  destruct (file_digests_ok files Eok) as [Hkeys Hall].
  exists (Dict.update (manifest_writes pass_json files) hashes0).
  split; [apply get_set_eq|]. split; [exact Hres|].
  unfold manifest_writes. rewrite update_cons. repeat split.
  - intros Hin. apply in_keys_update in Hin. rewrite Hkeys in Hin.
    destruct Hin as [Hin|Hin]; [now right|].
    apply in_keys_set in Hin. destruct Hin as [->|Hin]; auto.
  - intros [->|Hin]; apply in_keys_update.
    + right. apply in_keys_set. now left.
    + left. now rewrite Hkeys.
  - intros name data Hget.
    destruct (Hall _ _ (get_in _ _ _ Hget)) as (b & -> & Hb).
    exists b. split; [reflexivity|].
    apply get_update_in; [now rewrite Hkeys|exact Hb].
  - intros Hnot. rewrite get_update_notin by now rewrite Hkeys.
    apply get_set_eq.
Qed.

Lemma asset_pass_reachable : reachable asset_pass.
Proof.
  apply reach_add_file.
  apply reach_setattr; [|reflexivity].
  apply reach_setattr; [|reflexivity].
  apply reach_new.
Qed.

Lemma manifest_digests_witness :
  reachable asset_pass
  /\ Dict.get "_files" asset_pass
     = Some (PDict [("icon.png", PBytes (ascii_bytes "abc"))])
  /\ res (_create_manifest sample_float_repr asset_document asset_pass)
     = Ok asset_manifest
  /\ exists hashes,
       Dict.get "_hashes"
         (post (_create_manifest sample_float_repr asset_document asset_pass))
       = Some (PDict hashes)
       /\ Json.dumps sample_float_repr (PDict hashes) = Ok asset_manifest
       /\ (forall k, In k (Dict.keys hashes)
                     <-> k = "pass.json"
                         \/ In k (Dict.keys
                                    [("icon.png", PBytes (ascii_bytes "abc"))]))
       /\ (forall name data,
              Dict.get name [("icon.png", PBytes (ascii_bytes "abc"))]
              = Some data ->
              exists b, data = PBytes b
                        /\ Dict.get name hashes
                           = Some (PStr (SHA1.hexdigest b)))
       /\ (~ In "pass.json"
               (Dict.keys [("icon.png", PBytes (ascii_bytes "abc"))]) ->
           Dict.get "pass.json" hashes
           = Some (PStr (SHA1.hexdigest (encode_utf8 asset_document)))).
Proof.
  split; [exact asset_pass_reachable|].
  split; [reflexivity|].
  split; [vm_compute; reflexivity|].
  apply (manifest_digests sample_float_repr asset_document asset_pass
           [("icon.png", PBytes (ascii_bytes "abc"))] asset_manifest).
  - exact asset_pass_reachable.
  - reflexivity.
  - vm_compute; reflexivity.
Defined.

(** C7 as stated fails when an asset is named ["pass.json"]: the entry
    ["pass.json"] of the manifest is then the digest of that asset, not
    the digest of the document. *)
Lemma manifest_document_entry_shadowed :
  _create_pass_json sample_float_repr shadow_pass = Ok shadow_document
  /\ is_ok (res (_create_manifest sample_float_repr shadow_document
                   shadow_pass)) = true
  /\ Dict.get "_hashes"
       (post (_create_manifest sample_float_repr shadow_document shadow_pass))
     = Some (PDict [("pass.json",
                     PStr (SHA1.hexdigest (ascii_bytes "forged")))])
  /\ SHA1.hexdigest (ascii_bytes "forged")
     <> SHA1.hexdigest (encode_utf8 shadow_document).
Proof.
  repeat split; try (vm_compute; reflexivity).
  vm_compute. discriminate.
Qed.

(** C6: on a pass built through the public interface, [add_location]
    succeeds and appends exactly when fewer than ten locations are
    attached, and otherwise raises the cardinality error and leaves the
    pass as it was; [add_beacon] does the same for beacons; such a pass
    never holds more than ten of either. *)
Theorem add_location_add_beacon_cardinality :
  forall p,
    reachable p ->
    exists ls bs,
      Dict.get "_locations" p = Some (PList (map PLocation ls))
      /\ Dict.get "_beacons" p = Some (PList (map PIBeacon bs))
      /\ (List.length ls <= 10)%nat
      /\ (List.length bs <= 10)%nat
      /\ (forall loc,
            add_location (PLocation loc) p
            = if (List.length ls <? 10)%nat
              then mkOutcome (Ok tt)
                     (Dict.set "_locations"
                        (PList (map PLocation (ls ++ [loc]))) p) []
              else mkOutcome
                     (Raise (ValueError "Maximum 10 locations allowed per pass"))
                     p [])
      /\ (forall b,
            add_beacon (PIBeacon b) p
            = if (List.length bs <? 10)%nat
              then mkOutcome (Ok tt)
                     (Dict.set "_beacons"
                        (PList (map PIBeacon (bs ++ [b]))) p) []
              else mkOutcome
                     (Raise (ValueError "Maximum 10 beacons allowed per pass"))
                     p []).
Proof.
  intros p R. pose proof (reachable_well_formed _ R) as W.
  destruct (wf_locations _ W) as (ls & Hl & Hlen).
  destruct (wf_beacons _ W) as (bs & Hb & Hblen).
  exists ls, bs. repeat split; try assumption.
  - intros loc. rewrite (add_location_spec _ _ _ Hl), length_map, Nat.ltb_antisym.
    destruct (10 <=? List.length ls)%nat; cbn [negb]; [reflexivity|].
    now rewrite map_snoc.
  - intros b. rewrite (add_beacon_spec _ _ _ Hb), length_map, Nat.ltb_antisym.
    destruct (10 <=? List.length bs)%nat; cbn [negb]; [reflexivity|].
    now rewrite map_snoc.
Qed.

Lemma full_pass_reachable : reachable full_pass.
Proof. apply reach_setattr; [apply reach_new|reflexivity]. Qed.

Lemma add_location_add_beacon_cardinality_witness :
  reachable full_pass
  /\ exists ls bs,
      Dict.get "_locations" full_pass = Some (PList (map PLocation ls))
      /\ Dict.get "_beacons" full_pass = Some (PList (map PIBeacon bs))
      /\ (List.length ls <= 10)%nat
      /\ (List.length bs <= 10)%nat
      /\ (forall loc,
            add_location (PLocation loc) full_pass
            = if (List.length ls <? 10)%nat
              then mkOutcome (Ok tt)
                     (Dict.set "_locations"
                        (PList (map PLocation (ls ++ [loc]))) full_pass) []
              else mkOutcome
                     (Raise (ValueError "Maximum 10 locations allowed per pass"))
                     full_pass [])
      /\ (forall b,
            add_beacon (PIBeacon b) full_pass
            = if (List.length bs <? 10)%nat
              then mkOutcome (Ok tt)
                     (Dict.set "_beacons"
                        (PList (map PIBeacon (bs ++ [b]))) full_pass) []
              else mkOutcome
                     (Raise (ValueError "Maximum 10 beacons allowed per pass"))
                     full_pass []).
Proof.
  split; [exact full_pass_reachable|].
  apply (add_location_add_beacon_cardinality full_pass full_pass_reachable).
Defined.

(** C10, as amended.  An assignment to [barcode], [locations],
    [ibeacons] or [relevant_date] issues the deprecation warning first
    and never stores that attribute; [None] leaves the pass as it was.
    On a pass whose containers are lists:
    - [barcode]: a [Barcode] is appended to [_barcodes]; any other value
      is a type error and the pass is left as it was;
    - [locations]: a [Location] is appended to [_locations] while fewer
      than ten are held, and is refused with the pass unchanged
      otherwise; of a list of [Location]s the elements are appended one
      by one, all of them when they fit, and otherwise those that fit
      before the limit error is raised; a value that is neither a list
      nor a [Location] is a type error;
    - [ibeacons]: the same with [IBeacon], [_beacons] and [add_beacon];
    - [relevant_date]: the value goes whole to [add_relevant_date]: a
      [RelevantDate] is appended, a non-empty string is appended as
      [RelevantDate(date=s)], the empty string is refused by that
      constructor, and any other value, a list included, is a type
      error with nothing attached.
    Any other name goes to [object.__setattr__]: the value is stored
    under the name with no warning, unless the name is [__dict__] (a
    dictionary replaces the whole instance dictionary, another value is
    a type error), [__class__] (a type error, no value here being a
    class) or [__weakref__] (not writable). *)
Theorem setattr_deprecated_aliases :
  forall p : t,
    (forall name method v,
        In (name, method) deprecated_aliases ->
        Dict.get name (post (__setattr__ name v p)) = Dict.get name p
        /\ exists rest,
             trace (__setattr__ name v p) = deprecation name method :: rest)
    /\ (forall name method,
          In (name, method) deprecated_aliases ->
          __setattr__ name PNone p
          = mkOutcome (Ok tt) p [deprecation name method])
    /\ (forall l b,
          Dict.get "_barcodes" p = Some (PList l) ->
          __setattr__ "barcode" (PBarcode b) p
          = mkOutcome (Ok tt)
              (Dict.set "_barcodes" (PList (l ++ [PBarcode b])) p)
              [deprecation "barcode" "add_barcode"])
    /\ (forall v,
          v <> PNone -> (forall b, v <> PBarcode b) ->
          __setattr__ "barcode" v p
          = mkOutcome
              (Raise (TypeError ("barcode must be a Barcode instance, got "
                                   ++ type_name v)))
              p [deprecation "barcode" "add_barcode"])
    /\ (forall l,
          Dict.get "_locations" p = Some (PList l) ->
          (forall loc,
              (List.length l < 10)%nat ->
              __setattr__ "locations" (PLocation loc) p
              = mkOutcome (Ok tt)
                  (Dict.set "_locations" (PList (l ++ [PLocation loc])) p)
                  [deprecation "locations" "add_location"])
          /\ (forall loc,
                (10 <= List.length l)%nat ->
                __setattr__ "locations" (PLocation loc) p
                = mkOutcome
                    (Raise (ValueError "Maximum 10 locations allowed per pass"))
                    p [deprecation "locations" "add_location"])
          /\ (forall locs,
                (List.length l + List.length locs <= 10)%nat ->
                __setattr__ "locations" (PList (map PLocation locs)) p
                = mkOutcome (Ok tt)
                    (Dict.set "_locations"
                       (PList (l ++ map PLocation locs)) p)
                    [deprecation "locations" "add_location"])
          /\ (forall locs,
                (List.length l <= 10 < List.length l + List.length locs)%nat ->
                __setattr__ "locations" (PList (map PLocation locs)) p
                = mkOutcome
                    (Raise (ValueError "Maximum 10 locations allowed per pass"))
                    (Dict.set "_locations"
                       (PList (l ++ map PLocation
                                      (firstn (10 - List.length l) locs))) p)
                    [deprecation "locations" "add_location"]))
    /\ (forall v,
          v <> PNone -> (forall l, v <> PList l) ->
          (forall loc, v <> PLocation loc) ->
          __setattr__ "locations" v p
          = mkOutcome
              (Raise (TypeError ("location must be a Location instance, got "
                                   ++ type_name v)))
              p [deprecation "locations" "add_location"])
    /\ (forall l,
          Dict.get "_beacons" p = Some (PList l) ->
          (forall b,
              (List.length l < 10)%nat ->
              __setattr__ "ibeacons" (PIBeacon b) p
              = mkOutcome (Ok tt)
                  (Dict.set "_beacons" (PList (l ++ [PIBeacon b])) p)
                  [deprecation "ibeacons" "add_beacon"])
          /\ (forall b,
                (10 <= List.length l)%nat ->
                __setattr__ "ibeacons" (PIBeacon b) p
                = mkOutcome
                    (Raise (ValueError "Maximum 10 beacons allowed per pass"))
                    p [deprecation "ibeacons" "add_beacon"])
          /\ (forall bcns,
                (List.length l + List.length bcns <= 10)%nat ->
                __setattr__ "ibeacons" (PList (map PIBeacon bcns)) p
                = mkOutcome (Ok tt)
                    (Dict.set "_beacons" (PList (l ++ map PIBeacon bcns)) p)
                    [deprecation "ibeacons" "add_beacon"])
          /\ (forall bcns,
                (List.length l <= 10 < List.length l + List.length bcns)%nat ->
                __setattr__ "ibeacons" (PList (map PIBeacon bcns)) p
                = mkOutcome
                    (Raise (ValueError "Maximum 10 beacons allowed per pass"))
                    (Dict.set "_beacons"
                       (PList (l ++ map PIBeacon
                                      (firstn (10 - List.length l) bcns))) p)
                    [deprecation "ibeacons" "add_beacon"]))
    /\ (forall v,
          v <> PNone -> (forall l, v <> PList l) ->
          (forall b, v <> PIBeacon b) ->
          __setattr__ "ibeacons" v p
          = mkOutcome
              (Raise (TypeError ("beacon must be an IBeacon instance, got "
                                   ++ type_name v)))
              p [deprecation "ibeacons" "add_beacon"])
    /\ (forall l,
          Dict.get "_relevant_dates" p = Some (PList l) ->
          (forall r,
              __setattr__ "relevant_date" (PRelevantDate r) p
              = mkOutcome (Ok tt)
                  (Dict.set "_relevant_dates"
                     (PList (l ++ [PRelevantDate r])) p)
                  [deprecation "relevant_date" "add_relevant_date"])
          /\ (forall s,
                s <> "" ->
                __setattr__ "relevant_date" (PStr s) p
                = mkOutcome (Ok tt)
                    (Dict.set "_relevant_dates"
                       (PList (l ++ [PRelevantDate
                                       (RelevantDate.mk (Some s) None None)]))
                       p)
                    [deprecation "relevant_date" "add_relevant_date"]))
    /\ __setattr__ "relevant_date" (PStr "") p
       = mkOutcome (Raise (ValueError RelevantDateOps.missing_msg)) p
           [deprecation "relevant_date" "add_relevant_date"]
    /\ (forall v,
          v <> PNone -> (forall s, v <> PStr s) ->
          (forall r, v <> PRelevantDate r) ->
          __setattr__ "relevant_date" v p
          = mkOutcome
              (Raise (TypeError
                        ("date must be a RelevantDate instance or string, got "
                         ++ type_name v)))
              p [deprecation "relevant_date" "add_relevant_date"])
    /\ (forall name v,
          ~ In name deprecated_names -> ~ In name descriptor_names ->
          __setattr__ name v p = mkOutcome (Ok tt) (Dict.set name v p) [])
    /\ (forall d, __setattr__ "__dict__" (PDict d) p = mkOutcome (Ok tt) d [])
    /\ (forall v,
          (forall d, v <> PDict d) ->
          __setattr__ "__dict__" v p
          = mkOutcome
              (Raise (TypeError
                        ("__dict__ must be set to a dictionary, not a '"
                         ++ type_name v ++ "'")))
              p [])
    /\ (forall v,
          __setattr__ "__class__" v p
          = mkOutcome
              (Raise (TypeError ("__class__ must be set to a class, not '"
                                   ++ type_name v ++ "' object")))
              p [])
    /\ (forall v,
          __setattr__ "__weakref__" v p
          = mkOutcome
              (Raise (AttributeError
                        "attribute '__weakref__' of 'ApplePass' objects is not writable"))
              p []).
Proof.
  intros p.
  assert (Eb : forall v, __setattr__ "barcode" v p
               = if is_none v
                 then mkOutcome (Ok tt) p [deprecation "barcode" "add_barcode"]
                 else with_warning (deprecation "barcode" "add_barcode")
                        (add_barcode v p))
    by (intros v; destruct v; reflexivity).
  assert (El : forall v, __setattr__ "locations" v p
       = (if is_none v
          then mkOutcome (Ok tt) p [deprecation "locations" "add_location"]
          else with_warning (deprecation "locations" "add_location")
                 (match v with
                  | PList l => for_each add_location l p
                  | _ => add_location v p
                  end)))
    by (intros v; destruct v; reflexivity).
  assert (Ei : forall v, __setattr__ "ibeacons" v p
       = (if is_none v
          then mkOutcome (Ok tt) p [deprecation "ibeacons" "add_beacon"]
          else with_warning (deprecation "ibeacons" "add_beacon")
                 (match v with
                  | PList l => for_each add_beacon l p
                  | _ => add_beacon v p
                  end)))
    by (intros v; destruct v; reflexivity).
  assert (Er : forall v, __setattr__ "relevant_date" v p
       = (if is_none v
          then mkOutcome (Ok tt) p
                 [deprecation "relevant_date" "add_relevant_date"]
          else with_warning (deprecation "relevant_date" "add_relevant_date")
                 (add_relevant_date v p)))
    by (intros v; destruct v; reflexivity).
  split; [|split; [|split; [|split; [|split; [|split; [|split; [|split;
    [|split; [|split; [|split; [|split; [|split; [|split; [|split]]]]]]]]]]]]]].
  - intros name method v Hin. simpl in Hin.
    destruct Hin as [[= <- <-]|[[= <- <-]|[[= <- <-]|[[= <- <-]|[]]]]].
    + rewrite Eb. destruct (is_none v); [split; [reflexivity|now exists []]|].
      cbn [post trace with_warning]. split; [|eauto].
      now apply add_barcode_frame.
    + rewrite El. destruct (is_none v); [split; [reflexivity|now exists []]|].
      cbn [post trace with_warning]. split; [|eauto].
      destruct v; try (now apply add_location_frame).
      apply (for_each_post_inv
               (fun q => Dict.get "locations" q = Dict.get "locations" p));
        [|reflexivity].
      intros x q Hq. rewrite <- Hq. now apply add_location_frame.
    + rewrite Ei. destruct (is_none v); [split; [reflexivity|now exists []]|].
      cbn [post trace with_warning]. split; [|eauto].
      destruct v; try (now apply add_beacon_frame).
      apply (for_each_post_inv
               (fun q => Dict.get "ibeacons" q = Dict.get "ibeacons" p));
        [|reflexivity].
      intros x q Hq. rewrite <- Hq. now apply add_beacon_frame.
    + rewrite Er. destruct (is_none v); [split; [reflexivity|now exists []]|].
      cbn [post trace with_warning]. split; [|eauto].
      now apply add_relevant_date_frame.
  - intros name method Hin. simpl in Hin.
    destruct Hin as [[= <- <-]|[[= <- <-]|[[= <- <-]|[[= <- <-]|[]]]]];
      reflexivity.
  - intros l b H. rewrite Eb, (add_barcode_spec _ _ _ H). reflexivity.
  - intros v Hnone Hv. rewrite Eb.
    destruct v; try reflexivity; [now destruct Hnone|now destruct (Hv b)].
  - intros l H. split; [|split; [|split]].
    + intros loc Hlen. rewrite El, (add_location_spec _ _ _ H).
      cbn [is_none]. destruct (Nat.leb_spec 10 (List.length l)); [lia|].
      reflexivity.
    + intros loc Hlen. rewrite El, (add_location_spec _ _ _ H).
      cbn [is_none]. destruct (Nat.leb_spec 10 (List.length l)); [|lia].
      reflexivity.
    + intros locs Hlen. rewrite El. cbn [is_none].
      now rewrite (for_each_add_location_spec locs p l H Hlen).
    + intros locs [Hle Hlt]. rewrite El. cbn [is_none].
      now rewrite (for_each_add_location_over locs p l H Hle Hlt).
  - intros v Hnone Hlist Hv. rewrite El.
    destruct v; try reflexivity;
      [now destruct Hnone|now destruct (Hlist l)|now destruct (Hv l)].
  - intros l H. split; [|split; [|split]].
    + intros b Hlen. rewrite Ei, (add_beacon_spec _ _ _ H).
      cbn [is_none]. destruct (Nat.leb_spec 10 (List.length l)); [lia|].
      reflexivity.
    + intros b Hlen. rewrite Ei, (add_beacon_spec _ _ _ H).
      cbn [is_none]. destruct (Nat.leb_spec 10 (List.length l)); [|lia].
      reflexivity.
    + intros bcns Hlen. rewrite Ei. cbn [is_none].
      now rewrite (for_each_add_beacon_spec bcns p l H Hlen).
    + intros bcns [Hle Hlt]. rewrite Ei. cbn [is_none].
      now rewrite (for_each_add_beacon_over bcns p l H Hle Hlt).
  - intros v Hnone Hlist Hv. rewrite Ei.
    destruct v; try reflexivity;
      [now destruct Hnone|now destruct (Hlist l)|now destruct (Hv b)].
  - intros l H. split.
    + intros r. rewrite Er, (add_relevant_date_spec _ _ _ H). reflexivity.
    + intros s Hs. rewrite Er, (add_relevant_date_spec _ _ _ H).
      destruct s; [now destruct Hs|reflexivity].
  - rewrite Er. reflexivity.
  - intros v Hnone Hstr Hv. rewrite Er.
    destruct v; try reflexivity;
      [now destruct Hnone|now destruct (Hstr s)|now destruct (Hv r)].
  - intros name v Hn Hd. now apply setattr_other.
  - reflexivity.
  - intros v Hv. destruct v; try reflexivity. now destruct (Hv d).
  - reflexivity.
  - reflexivity.
Qed.

(** C4: on a pass with at least one relevant date attached, the dates
    section of [json_dict] always returns, and in the document
    [json_dict] returns the array [relevantDates] holds, in
    the order of attachment, the entry of every date that contributes a
    key, each entry holding exactly the populated ones of [date],
    [startDate] and [endDate] (the key is absent when none contributes),
    and [relevantDate] is the date of the first attached entry if
    populated, otherwise its start, otherwise its end. *)
Theorem relevant_dates_emission :
  forall p d first rest,
    Dict.get "_relevant_dates" p
    = Some (PList (map PRelevantDate (first :: rest))) ->
    json_dict p = Ok d ->
    (forall d0, is_ok (date_fields p d0) = true)
    /\ Dict.get "relevantDates" d
       = match filter contributes (first :: rest) with
         | [] => None
         | kept => Some (PList (map date_entry kept))
         end
    /\ Dict.get "relevantDate" d
       = Some (if opt_truthy (RelevantDate.date first)
               then opt_str (RelevantDate.date first)
               else if opt_truthy (RelevantDate.startDate first)
                    then opt_str (RelevantDate.startDate first)
                    else opt_str (RelevantDate.endDate first))
    /\ (forall r,
          date_entry r = PDict (RelevantDateOps.json_dict r)
          /\ Dict.get "date" (RelevantDateOps.json_dict r)
             = (if opt_truthy (RelevantDate.date r)
                then Some (opt_str (RelevantDate.date r)) else None)
          /\ Dict.get "startDate" (RelevantDateOps.json_dict r)
             = (if opt_truthy (RelevantDate.startDate r)
                then Some (opt_str (RelevantDate.startDate r)) else None)
          /\ Dict.get "endDate" (RelevantDateOps.json_dict r)
             = (if opt_truthy (RelevantDate.endDate r)
                then Some (opt_str (RelevantDate.endDate r)) else None)
          /\ (forall k, In k (Dict.keys (RelevantDateOps.json_dict r)) ->
                        In k ["date"; "startDate"; "endDate"])).
Proof.
  intros p d first rest Hdates Hjson.
  destruct (json_dict_sections _ _ Hjson)
    as (d0 & d1 & d2 & d3 & E0 & E1 & E2 & E3 & Hrest).
  pose proof (date_fields_spec p d1 first rest Hdates) as E2'.
  remember (filter contributes (first :: rest)) as kept eqn:Hkept.
  rewrite E2' in E2. clear E2'. injection E2 as E2. subst d2.
  assert (Hd1 : Dict.get "relevantDates" d1 = None).
  { rewrite (keeps_barcodes "relevantDates" p ltac:(discriminate)
               ltac:(discriminate) _ _ E1).
    apply (required_fields_keys p); [exact E0|].
    simpl. intuition discriminate. }
  repeat split.
  - intros d'. now rewrite (date_fields_spec p d' first rest Hdates).
  - rewrite Hrest by (simpl; intuition discriminate).
    rewrite (keeps_project_all "relevantDates" "_locations" "locations" p
               ltac:(discriminate) _ _ E3).
    rewrite get_set_ne by discriminate.
    destruct kept; [exact Hd1|]. apply get_set_eq.
  - rewrite Hrest by (simpl; intuition discriminate).
    rewrite (keeps_project_all "relevantDate" "_locations" "locations" p
               ltac:(discriminate) _ _ E3).
    apply get_set_eq.
  - unfold RelevantDateOps.json_dict, RelevantDateOps.put_if_truthy.
    destruct (opt_truthy (RelevantDate.date r)),
      (opt_truthy (RelevantDate.startDate r)),
      (opt_truthy (RelevantDate.endDate r)); reflexivity.
  - unfold RelevantDateOps.json_dict, RelevantDateOps.put_if_truthy.
    destruct (opt_truthy (RelevantDate.date r)),
      (opt_truthy (RelevantDate.startDate r)),
      (opt_truthy (RelevantDate.endDate r)); reflexivity.
  - unfold RelevantDateOps.json_dict, RelevantDateOps.put_if_truthy.
    destruct (opt_truthy (RelevantDate.date r)),
      (opt_truthy (RelevantDate.startDate r)),
      (opt_truthy (RelevantDate.endDate r)); reflexivity.
  - unfold RelevantDateOps.json_dict, RelevantDateOps.put_if_truthy.
    destruct (opt_truthy (RelevantDate.date r)),
      (opt_truthy (RelevantDate.startDate r)),
      (opt_truthy (RelevantDate.endDate r)); simpl; tauto.
Qed.

Lemma relevant_dates_emission_witness :
  Dict.get "_relevant_dates" dated_pass
  = Some (PList (map PRelevantDate
                   [demo_date;
                    RelevantDate.mk (Some "2026-01-01T00:00:00+00:00") None
                      None]))
  /\ json_dict dated_pass = Ok dated_dict
  /\ Dict.get "relevantDates" dated_dict
     = Some (PList
               [date_entry demo_date;
                date_entry
                  (RelevantDate.mk (Some "2026-01-01T00:00:00+00:00") None
                     None)])
  /\ Dict.get "relevantDate" dated_dict
     = Some (PStr "2026-03-15T18:00:00-08:00").
Proof.
  split; [reflexivity|]. split; [reflexivity|].
  destruct (relevant_dates_emission dated_pass dated_dict demo_date
              [RelevantDate.mk (Some "2026-01-01T00:00:00+00:00") None None]
              eq_refl eq_refl) as (_ & Harray & Hlegacy & _).
  split; [exact Harray|exact Hlegacy].
Defined.

Lemma setattr_deprecated_aliases_witness :
  Dict.get "_barcodes" demo_pass = Some (PList [])
  /\ __setattr__ "barcode" (PBarcode demo_barcode) demo_pass
     = mkOutcome (Ok tt)
         (Dict.set "_barcodes" (PList [PBarcode demo_barcode]) demo_pass)
         [deprecation "barcode" "add_barcode"]
  /\ Dict.get "_locations" demo_pass = Some (PList [])
  /\ __setattr__ "locations"
       (PList [PLocation demo_location; PLocation demo_location]) demo_pass
     = mkOutcome (Ok tt)
         (Dict.set "_locations"
            (PList [PLocation demo_location; PLocation demo_location])
            demo_pass)
         [deprecation "locations" "add_location"]
  /\ Dict.get "_relevant_dates" demo_pass = Some (PList [])
  /\ __setattr__ "relevant_date" (PStr "2026-01-01T00:00:00+00:00") demo_pass
     = mkOutcome (Ok tt)
         (Dict.set "_relevant_dates"
            (PList [PRelevantDate
                      (RelevantDate.mk (Some "2026-01-01T00:00:00+00:00")
                         None None)])
            demo_pass)
         [deprecation "relevant_date" "add_relevant_date"]
  /\ Dict.get "barcode"
       (post (__setattr__ "barcode" (PBarcode demo_barcode) demo_pass))
     = Dict.get "barcode" demo_pass
  /\ __setattr__ "logo_text" (PStr "Example") demo_pass
     = mkOutcome (Ok tt) (Dict.set "logo_text" (PStr "Example") demo_pass) [].
Proof.
  destruct (setattr_deprecated_aliases demo_pass)
    as (Hkept & _ & Hbarcode & _ & Hlocations & _ & _ & _ & Hdates & _ & _
        & Hother & _).
  assert (Hin : In ("barcode", "add_barcode") deprecated_aliases)
    by (simpl; tauto).
  assert (Hout : ~ In "logo_text" deprecated_names)
    by (simpl; intuition discriminate).
  assert (Hplain : ~ In "logo_text" descriptor_names)
    by (simpl; intuition discriminate).
  split; [reflexivity|].
  split; [exact (Hbarcode [] demo_barcode eq_refl)|].
  split; [reflexivity|].
  split; [apply (proj1 (proj2 (proj2 (Hlocations [] eq_refl)))
                   [demo_location; demo_location]); simpl; lia|].
  split; [reflexivity|].
  split; [apply (proj2 (Hdates [] eq_refl)); discriminate|].
  split; [exact (proj1 (Hkept "barcode" "add_barcode" (PBarcode demo_barcode)
                          Hin))|].
  exact (Hother "logo_text" (PStr "Example") Hout Hplain).
Defined.

(** C10 as stated fails for [relevant_date]: assigning a list raises a
    type error and attaches nothing, where appending the elements one by
    one would have attached the date. *)
Lemma setattr_relevant_date_rejects_list :
  __setattr__ "relevant_date" (PList [PRelevantDate demo_date]) demo_pass
  = mkOutcome
      (Raise (TypeError
                "date must be a RelevantDate instance or string, got list"))
      demo_pass [deprecation "relevant_date" "add_relevant_date"]
  /\ Dict.get "_relevant_dates" demo_pass = Some (PList [])
  /\ Dict.get "_relevant_dates"
       (post (for_each add_relevant_date [PRelevantDate demo_date] demo_pass))
     = Some (PList [PRelevantDate demo_date]).
Proof. repeat split; reflexivity. Qed.

(** ** models/pass_base.py: the legacy barcode *)

Lemma init_pdf417 message encoding alt_text b :
  BarcodeOps.init message BarcodeFormat.PDF417 encoding alt_text = Ok b ->
  b = Barcode.mk BarcodeFormat.PDF417 message encoding alt_text.
Proof.
  unfold BarcodeOps.init.
  change (BarcodeOps.check_format BarcodeFormat.PDF417)
    with (Ok (A := string) BarcodeFormat.PDF417).
  cbn [bind]. unfold BarcodeOps.check_message.
  destruct message; cbn; [discriminate|]. now intros [= <-].
Qed.

(** What [json_dict] emits for the barcodes of a pass whose first barcode
    is [b]: the array of all canonical dictionaries; under [barcode] the
    dictionary of [b] itself when its format is a legacy one, and
    otherwise that of a PDF417 barcode whose [messageEncoding] is the
    [altText] of [b] (empty when it has none) and whose [altText] is the
    [messageEncoding] of [b]. *)
Lemma legacy_barcode_of_first p d b bs :
  Dict.get "_barcodes" p = Some (PList (map PBarcode (b :: bs))) ->
  json_dict p = Ok d ->
  Dict.get "barcodes" d
  = Some (PList (map (fun x => PDict (BarcodeOps.json_dict x)) (b :: bs)))
  /\ Dict.get "barcode" d
     = Some (PDict
               (BarcodeOps.json_dict
                  (if str_in (Barcode._format b) legacy_formats then b
                   else Barcode.mk BarcodeFormat.PDF417 (Barcode._message b)
                          (altText_or_empty b)
                          (Some (Barcode.messageEncoding b))))).
Proof.
  intros Hb Hjson.
  destruct (json_dict_sections _ _ Hjson)
    as (d0 & d1 & d2 & d3 & E0 & E1 & E2 & E3 & Hrest).
  assert (forall k, k = "barcodes" \/ k = "barcode" ->
                    Dict.get k d = Dict.get k d1) as Hd.
  { intros k Hk. rewrite Hrest by (destruct Hk as [->| ->]; simpl;
                                   intuition discriminate).
    rewrite (keeps_project_all k "_locations" "locations" p
               ltac:(destruct Hk as [->| ->]; discriminate) _ _ E3).
    apply (keeps_dates k p); [| |exact E2];
      destruct Hk as [->| ->]; discriminate. }
  rewrite !Hd by tauto. clear Hd Hrest E2 E3 Hjson.
  unfold barcode_fields, getattr in E1. rewrite Hb in E1.
  cbn [bind truthy map py_iter py_first] in E1.
  apply bind_ok in E1. destruct E1 as (arr & Harr & E1).
  assert (arr = map (fun x => PDict (BarcodeOps.json_dict x)) (b :: bs)) as ->.
  { clear -Harr. change (PBarcode b :: map PBarcode bs)
      with (map PBarcode (b :: bs)) in Harr.
    revert arr Harr. induction (b :: bs) as [|x l IH]; intros arr Harr.
    - now injection Harr as <-.
    - cbn [map map_result call_json_dict bind] in Harr.
      apply bind_ok in Harr. destruct Harr as (ys & Hys & [= <-]).
      cbn [map]. f_equal. now apply IH. }
  destruct (str_in (Barcode._format b) legacy_formats).
  - injection E1 as <-. split.
    + rewrite get_set_ne by discriminate. apply get_set_eq.
    + apply get_set_eq.
  - apply bind_ok in E1. destruct E1 as (lb & Hlb & [= <-]). split.
    + rewrite get_set_ne by discriminate. apply get_set_eq.
    + rewrite get_set_eq. now rewrite (init_pdf417 _ _ _ _ Hlb).
Qed.

(** C1, at a pass whose only barcode is
    [Barcode("12345", BarcodeFormat.CODE128)]: the array [barcodes] holds
    the CODE128 entry, and the legacy [barcode] is a PDF417 entry with
    the same message whose [messageEncoding] is empty and whose [altText]
    is ["iso-8859-1"], the encoding of the attached barcode. *)
Theorem legacy_barcode_swaps_encoding_and_alt_text :
  exists d,
    json_dict barcode_pass = Ok d
    /\ Dict.get "barcodes" d
       = Some (PList [PDict [("format", PStr "PKBarcodeFormatCode128");
                             ("message", PStr "12345");
                             ("messageEncoding", PStr "iso-8859-1")]])
    /\ Dict.get "barcode" d
       = Some (PDict [("format", PStr "PKBarcodeFormatPDF417");
                      ("message", PStr "12345");
                      ("messageEncoding", PStr "");
                      ("altText", PStr "iso-8859-1")]).
Proof.
  destruct (json_dict barcode_pass) as [d|e] eqn:E; [|discriminate E].
  exists d. split; [reflexivity|].
  vm_compute in E. injection E as <-. split; reflexivity.
Qed.

(** ** models/pass_base.py: [create] *)

Section AssemblyFacts.

Variable float_repr : SpecFloat.spec_float -> string.
Variables x509_certificate private_key : Type.
Variable read_file : string -> result bytes.
Variable load_pem_x509_certificate : bytes -> result x509_certificate.
Variable load_pem_private_key : bytes -> bytes -> result private_key.
Variable pkcs7_sign :
  bytes -> x509_certificate -> private_key -> x509_certificate -> result bytes.

Lemma read_file_bytes_post path p :
  post (_read_file_bytes read_file path p) = p.
Proof. reflexivity. Qed.

Lemma read_file_bytes_trace path p :
  trace (_read_file_bytes read_file path p) = [ReadFile path].
Proof.
  unfold _read_file_bytes, mbind, emit, lift. cbn [res post trace].
  reflexivity.
Qed.

Lemma create_signature_trace manifest certificate key wwdr password p sig :
  res (_create_signature_crypto x509_certificate private_key read_file
         load_pem_x509_certificate load_pem_private_key pkcs7_sign
         manifest certificate key wwdr password p) = Ok sig ->
  trace (_create_signature_crypto x509_certificate private_key read_file
           load_pem_x509_certificate load_pem_private_key pkcs7_sign
           manifest certificate key wwdr password p)
  = [ReadFile certificate; ReadFile key; ReadFile wwdr; SignManifest manifest].
Proof.
  unfold _create_signature_crypto. intros H.
  apply res_mbind_ok in H. destruct H as (c & _ & H & ->).
  rewrite read_file_bytes_post in *. rewrite read_file_bytes_trace.
  apply res_mbind_ok in H. destruct H as (cert & _ & H & ->).
  change (post (lift (load_pem_x509_certificate c) p)) with p in *.
  change (trace (lift (load_pem_x509_certificate c) p)) with (@nil event).
  apply res_mbind_ok in H. destruct H as (k & _ & H & ->).
  rewrite read_file_bytes_post in *. rewrite read_file_bytes_trace.
  apply res_mbind_ok in H. destruct H as (pk & _ & H & ->).
  change (post (lift (load_pem_private_key k (encode_utf8 password)) p))
    with p in *.
  change (trace (lift (load_pem_private_key k (encode_utf8 password)) p))
    with (@nil event).
  apply res_mbind_ok in H. destruct H as (w & _ & H & ->).
  rewrite read_file_bytes_post in *. rewrite read_file_bytes_trace.
  apply res_mbind_ok in H. destruct H as (wcert & _ & H & ->).
  change (post (lift (load_pem_x509_certificate w) p)) with p in *.
  change (trace (lift (load_pem_x509_certificate w) p)) with (@nil event).
  apply res_mbind_ok in H. destruct H as (u & _ & H & ->).
  reflexivity.
Qed.

(** C3: when [serial_number] is empty (or otherwise false), [create]
    raises the required-field error with the pass untouched and no
    outside effect: no digest is stored, no file is read and the signer
    is not called.  The same holds when [serial_number] is set and
    [description] is empty.  When both are set the validation passes
    and [create] is the sequence of the document, manifest, signature
    and archive steps; whenever that sequence returns an archive the
    signer was called on the manifest. *)
Theorem create_validates_before_assembly :
  forall p certificate key wwdr_certificate password,
    let run :=
      create float_repr x509_certificate private_key read_file
        load_pem_x509_certificate load_pem_private_key pkcs7_sign
        certificate key wwdr_certificate password p in
    (forall serial_number,
        Dict.get "serial_number" p = Some serial_number ->
        truthy serial_number = false ->
        run = mkOutcome (Raise (ValueError "serial_number is required")) p [])
    /\ (forall serial_number description,
          Dict.get "serial_number" p = Some serial_number ->
          truthy serial_number = true ->
          Dict.get "description" p = Some description ->
          truthy description = false ->
          run = mkOutcome (Raise (ValueError "description is required")) p [])
    /\ (forall serial_number description,
          Dict.get "serial_number" p = Some serial_number ->
          truthy serial_number = true ->
          Dict.get "description" p = Some description ->
          truthy description = true ->
          run
          = mbind (fun self => lift (_create_pass_json float_repr self) self)
              (fun pass_json =>
                 mbind (_create_manifest float_repr pass_json)
                   (fun manifest =>
                      mbind (_create_signature_crypto x509_certificate
                               private_key read_file load_pem_x509_certificate
                               load_pem_private_key pkcs7_sign manifest
                               certificate key wwdr_certificate password)
                        (fun signature =>
                           _create_zip pass_json manifest signature))) p
          /\ forall archive,
               res run = Ok archive ->
               exists manifest, In (SignManifest manifest) (trace run)).
Proof.
  intros p certificate key wwdr password run. subst run.
  split; [|split].
  - intros serial Hs Hf. unfold create.
    erewrite mbind_ok by (apply read_spec; exact Hs). rewrite Hf. reflexivity.
  - intros serial description Hs Ht Hd Hf. unfold create.
    erewrite mbind_ok by (apply read_spec; exact Hs). rewrite Ht.
    cbn [negb app].
    erewrite mbind_ok by (apply read_spec; exact Hd). rewrite Hf. reflexivity.
  - intros serial description Hs Ht Hd Hdt.
    match goal with
    | |- ?lhs = ?rhs /\ _ => assert (lhs = rhs) as E
    end.
    { unfold create.
      erewrite mbind_ok by (apply read_spec; exact Hs). rewrite Ht.
      cbn [negb app].
      erewrite mbind_ok by (apply read_spec; exact Hd). rewrite Hdt.
      cbn [negb app res post trace].
      match goal with |- mkOutcome (res ?o) _ _ = _ => now destruct o end. }
    split; [exact E|].
    intros archive. rewrite E. intros Hok.
    apply res_mbind_ok in Hok. destruct Hok as (pj & _ & Hok & ->).
    apply res_mbind_ok in Hok. destruct Hok as (man & _ & Hok & ->).
    apply res_mbind_ok in Hok. destruct Hok as (sig & Hsig & _ & ->).
    exists man. rewrite (create_signature_trace _ _ _ _ _ _ _ Hsig).
    rewrite !in_app_iff. right. right. left. simpl. tauto.
Qed.

End AssemblyFacts.

Lemma create_validates_before_assembly_witness :
  Dict.get "serial_number" demo_pass = Some (PStr "")
  /\ truthy (PStr "") = false
  /\ create sample_float_repr unit unit stub_read_file stub_load_certificate
       stub_load_key stub_sign "cert.pem" "key.pem" "wwdr.pem" "secret" demo_pass
     = mkOutcome (Raise (ValueError "serial_number is required")) demo_pass [].
Proof.
  split; [reflexivity|]. split; [reflexivity|].
  apply (proj1 (create_validates_before_assembly sample_float_repr unit unit
                  stub_read_file stub_load_certificate stub_load_key stub_sign
                  demo_pass "cert.pem" "key.pem" "wwdr.pem" "secret")
           (PStr "")); reflexivity.
Defined.

(** * Further properties *)

(** ** models/pass_base.py: what [create] does *)

Module FrameFacts.

Lemma frame_ret {A} (a : A) : touches_hashes_only (ret a).
Proof. now intros p k _. Qed.

Lemma frame_raise {A} e : touches_hashes_only (raise (A := A) e).
Proof. now intros p k _. Qed.

Lemma frame_lift {A} (r : result A) : touches_hashes_only (lift r).
Proof. now intros p k _. Qed.

Lemma frame_read name : touches_hashes_only (read name).
Proof. now intros p k _. Qed.

Lemma frame_emit e : touches_hashes_only (emit e).
Proof. now intros p k _. Qed.

Lemma frame_self {A} (f : t -> result A) :
  touches_hashes_only (fun self => lift (f self) self).
Proof. now intros p k _. Qed.

Lemma frame_set_hashes v : touches_hashes_only (store "_hashes" v).
Proof. intros p k Hk. cbn [post store]. now apply get_set_ne. Qed.

Lemma frame_mbind {A B} (m : M A) (f : A -> M B) :
  touches_hashes_only m -> (forall a, touches_hashes_only (f a)) ->
  touches_hashes_only (mbind m f).
Proof.
  intros Hm Hf p k Hk. unfold mbind.
  destruct (res (m p)) as [a|e]; cbn [post].
  - rewrite (Hf a _ k Hk). now apply Hm.
  - now apply Hm.
Qed.

Lemma frame_for_each {A} (f : A -> M unit) l :
  (forall x, touches_hashes_only (f x)) -> touches_hashes_only (for_each f l).
Proof.
  intros Hf. induction l as [|x l IH]; [apply frame_ret|].
  cbn [for_each]. apply frame_mbind; [apply Hf|intros _; exact IH].
Qed.

Lemma frame_if {A} (c : bool) (m m' : M A) :
  touches_hashes_only m -> touches_hashes_only m' ->
  touches_hashes_only (if c then m else m').
Proof. now destruct c. Qed.

Lemma frame_record_hash name digest :
  touches_hashes_only (record_hash name digest).
Proof.
  unfold record_hash.
  repeat (apply frame_mbind; [|intros ?]);
    auto using frame_read, frame_lift, frame_set_hashes.
Qed.

Lemma frame_hash_file item : touches_hashes_only (hash_file item).
Proof.
  unfold hash_file. apply frame_mbind; [apply frame_lift|intros ?].
  apply frame_record_hash.
Qed.

Lemma frame_create_manifest float_repr pass_json :
  touches_hashes_only (_create_manifest float_repr pass_json).
Proof.
  unfold _create_manifest.
  repeat (apply frame_mbind; [|intros ?]);
    auto using frame_read, frame_lift, frame_record_hash, frame_for_each,
      frame_hash_file, frame_set_hashes.
Qed.

End FrameFacts.

Import FrameFacts.

Section AssemblyContents.

Variable float_repr : SpecFloat.spec_float -> string.
Variables x509_certificate private_key : Type.
Variable read_file : string -> result bytes.
Variable load_pem_x509_certificate : bytes -> result x509_certificate.
Variable load_pem_private_key : bytes -> bytes -> result private_key.
Variable pkcs7_sign :
  bytes -> x509_certificate -> private_key -> x509_certificate -> result bytes.

Lemma frame_read_file_bytes path :
  touches_hashes_only (_read_file_bytes read_file path).
Proof.
  unfold _read_file_bytes. apply frame_mbind; [apply frame_emit|intros _].
  apply frame_lift.
Qed.

Lemma frame_create_signature manifest certificate key wwdr password :
  touches_hashes_only
    (_create_signature_crypto x509_certificate private_key read_file
       load_pem_x509_certificate load_pem_private_key pkcs7_sign
       manifest certificate key wwdr password).
Proof.
  unfold _create_signature_crypto.
  repeat (apply frame_mbind; [|intros ?]);
    auto using frame_read_file_bytes, frame_lift, frame_emit.
Qed.

Lemma frame_writestr name data zf : touches_hashes_only (writestr name data zf).
Proof.
  unfold writestr. destruct (zip_filename name); [apply frame_raise|].
  destruct data; try apply frame_raise;
    (apply frame_mbind;
     [apply frame_if; [apply frame_emit|apply frame_ret]|intros _]);
    auto using frame_ret, frame_raise.
Qed.

Lemma frame_write_all items : forall zf, touches_hashes_only (write_all items zf).
Proof.
  induction items as [|[name data] items IH]; intros zf; [apply frame_ret|].
  cbn [write_all]. apply frame_mbind; [apply frame_writestr|exact IH].
Qed.

Lemma frame_create_zip pass_json manifest signature :
  touches_hashes_only (_create_zip pass_json manifest signature).
Proof.
  unfold _create_zip.
  do 3 (apply frame_mbind; [apply frame_writestr|intros ?]).
  apply frame_mbind; [apply frame_read|intros ?].
  apply frame_mbind; [apply frame_lift|intros ?].
  apply frame_write_all.
Qed.

(** X1: [create] changes no attribute of the pass but [_hashes]. *)
Theorem create_touches_hashes_only :
  forall certificate key wwdr_certificate password p k,
    k <> "_hashes" ->
    Dict.get k
      (post (create float_repr x509_certificate private_key read_file
               load_pem_x509_certificate load_pem_private_key pkcs7_sign
               certificate key wwdr_certificate password p))
    = Dict.get k p.
Proof.
  intros certificate key wwdr password.
  change (touches_hashes_only
            (create float_repr x509_certificate private_key read_file
               load_pem_x509_certificate load_pem_private_key pkcs7_sign
               certificate key wwdr password)).
  unfold create.
  apply frame_mbind; [apply frame_read|intros serial_number].
  apply frame_if; [apply frame_raise|].
  apply frame_mbind; [apply frame_read|intros description].
  apply frame_if; [apply frame_raise|].
  apply frame_mbind; [apply frame_self|intros pass_json].
  apply frame_mbind; [apply frame_create_manifest|intros manifest].
  apply frame_mbind; [apply frame_create_signature|intros signature].
  apply frame_create_zip.
Qed.

Lemma create_manifest_ok_inv pass_json p manifest :
  res (_create_manifest float_repr pass_json p) = Ok manifest ->
  exists files hashes,
    Dict.get "_files" p = Some (PDict files)
    /\ Dict.get "_hashes" p = Some (PDict hashes)
    /\ snd (file_digests files) = Ok tt.
Proof.
  intros H.
  destruct (Dict.get "_hashes" p) as [vh|] eqn:HH.
  2:{ destruct (create_manifest_no_dict float_repr pass_json None) as [e E];
        [congruence|].
      rewrite (E p HH) in H. discriminate H. }
  assert ((exists hashes, vh = PDict hashes)
          \/ forall hashes, Some vh <> Some (PDict hashes)) as [[hashes ->]|Hno].
  { destruct vh; try (right; congruence). left; eauto. }
  2:{ destruct (create_manifest_no_dict float_repr pass_json _ Hno) as [e E].
      rewrite (E p HH) in H. discriminate H. }
  destruct (Dict.get "_files" p) as [vf|] eqn:HF.
  2:{ destruct (create_manifest_no_files float_repr pass_json None) as [e E];
        [congruence|].
      rewrite (E p hashes HF HH) in H. discriminate H. }
  assert ((exists files, vf = PDict files)
          \/ forall files, Some vf <> Some (PDict files)) as [[files ->]|Hno].
  { destruct vf; try (right; congruence). left; eauto. }
  2:{ destruct (create_manifest_no_files float_repr pass_json _ Hno) as [e E].
      rewrite (E p hashes HF HH) in H. discriminate H. }
  exists files, hashes. repeat split.
  rewrite (create_manifest_spec float_repr pass_json p files hashes HF HH) in H.
  cbn [res] in H.
  destruct (snd (file_digests files)) as [[]|e]; [reflexivity|discriminate H].
Qed.

Lemma writestr_empty name data zf p :
  zip_filename name = "" ->
  writestr name data zf p
  = mkOutcome (Raise (IndexError "string index out of range")) p [].
Proof. intros E. unfold writestr. now rewrite E. Qed.

Lemma writestr_bytes name b zf p :
  zip_filename name <> "" ->
  writestr name (PBytes b) zf p
  = mkOutcome (Ok (zf ++ [(zip_filename name, b)])%list) p
      (if str_in (zip_filename name) (map fst zf)
       then [duplicate_name (zip_filename name)] else []).
Proof.
  intros Hn. unfold writestr.
  destruct (zip_filename name) as [|c n]; [now destruct Hn|].
  now destruct (str_in (String c n) (map fst zf)).
Qed.

Lemma write_all_bytes files : forall zf p archive,
  snd (file_digests files) = Ok tt ->
  res (write_all files zf p) = Ok archive ->
  exists assets,
    files = map (fun e => (fst e, PBytes (snd e))) assets
    /\ Forall (fun e => zip_filename (fst e) <> "") assets
    /\ archive
       = (zf ++ map (fun e => (zip_filename (fst e), snd e)) assets)%list
    /\ trace (write_all files zf p)
       = duplicate_names (map fst zf)
           (map (fun e => zip_filename (fst e)) assets).
Proof.
  induction files as [|[name data] files IH]; intros zf p archive Hd Hz.
  - exists []. cbn in Hz. injection Hz as <-.
    cbn [map]. rewrite app_nil_r. repeat split. constructor.
  - cbn [file_digests] in Hd.
    destruct (sha1_hexdigest data) as [h|e] eqn:Eh; [|discriminate Hd].
    destruct data; try discriminate Eh.
    destruct (file_digests files) as [ws r] eqn:Ef. cbn [snd] in Hd, IH.
    cbn [write_all] in *.
    assert (Hn : zip_filename name <> "").
    { intros E. rewrite (mbind_raise _ _ _ _ _ _ (writestr_empty _ _ _ _ E)) in Hz.
      discriminate Hz. }
    rewrite (mbind_ok _ _ _ _ _ _ (writestr_bytes _ _ _ _ Hn)) in Hz |- *.
    cbn [res trace] in Hz |- *.
    destruct (IH _ _ _ Hd Hz) as (assets & -> & Hall & -> & ->).
    exists ((name, b) :: assets). cbn [map fst snd duplicate_names].
    rewrite map_app, <- app_assoc. cbn [map fst app].
    repeat split. now constructor.
Qed.

Lemma create_of_valid p certificate key wwdr password serial description :
  Dict.get "serial_number" p = Some serial -> truthy serial = true ->
  Dict.get "description" p = Some description -> truthy description = true ->
  create float_repr x509_certificate private_key read_file
    load_pem_x509_certificate load_pem_private_key pkcs7_sign
    certificate key wwdr password p
  = mbind (fun self => lift (_create_pass_json float_repr self) self)
      (fun pass_json =>
         mbind (_create_manifest float_repr pass_json)
           (fun manifest =>
              mbind (_create_signature_crypto x509_certificate
                       private_key read_file load_pem_x509_certificate
                       load_pem_private_key pkcs7_sign manifest
                       certificate key wwdr password)
                (fun signature =>
                   _create_zip pass_json manifest signature))) p.
Proof.
  intros Hs Ht Hd Hdt. unfold create.
  erewrite mbind_ok by (apply read_spec; exact Hs). rewrite Ht.
  cbn [negb app].
  erewrite mbind_ok by (apply read_spec; exact Hd). rewrite Hdt.
  cbn [negb app res post trace].
  match goal with |- mkOutcome (res ?o) _ _ = _ => now destruct o end.
Qed.

Lemma create_ok_valid p certificate key wwdr password archive :
  res (create float_repr x509_certificate private_key read_file
         load_pem_x509_certificate load_pem_private_key pkcs7_sign
         certificate key wwdr password p) = Ok archive ->
  exists serial description,
    Dict.get "serial_number" p = Some serial /\ truthy serial = true
    /\ Dict.get "description" p = Some description
    /\ truthy description = true.
Proof.
  intros H. unfold create in H.
  apply res_mbind_ok in H. destruct H as (serial & Hs & H & _).
  change (post (read "serial_number" p)) with p in H.
  destruct (truthy serial) eqn:Ts; [|discriminate H]. cbn [negb] in H.
  apply res_mbind_ok in H. destruct H as (description & Hd & H & _).
  destruct (truthy description) eqn:Td; [|discriminate H].
  exists serial, description.
  unfold read, getattr in Hs, Hd. cbn [res] in Hs, Hd.
  destruct (Dict.get "serial_number" p); [|discriminate Hs].
  destruct (Dict.get "description" p); [|discriminate Hd].
  injection Hs as ->. injection Hd as ->. auto.
Qed.

Lemma create_zip_spec pass_json manifest signature p files :
  Dict.get "_files" p = Some (PDict files) ->
  _create_zip pass_json manifest signature p
  = write_all files
      [("signature", signature);
       ("manifest.json", encode_utf8 manifest);
       ("pass.json", encode_utf8 pass_json)] p.
Proof.
  intros HF. unfold _create_zip.
  rewrite (mbind_ok _ _ p [("signature", signature)] p [] eq_refl).
  rewrite (mbind_ok _ _ p
             [("signature", signature); ("manifest.json", encode_utf8 manifest)]
             p [] eq_refl).
  rewrite (mbind_ok _ _ p
             [("signature", signature); ("manifest.json", encode_utf8 manifest);
              ("pass.json", encode_utf8 pass_json)] p [] eq_refl).
  erewrite mbind_ok by (apply read_spec; exact HF).
  rewrite (mbind_ok _ _ p files p [] eq_refl).
  cbn [app res post trace].
  now destruct (write_all files _ p).
Qed.

(** X2: when [create] returns an archive, every attached asset is a
    [bytes] object under a name that is not empty and does not start
    with NUL; the
    archive holds the signature, the manifest and the document, in this
    order, followed by the assets in the order of attachment, each with
    its bytes under its name cut at the first NUL; and what [create]
    did outside the pass is to read the three key files, to sign the
    manifest and to issue one warning for each asset whose entry name
    was in the archive already. *)
Theorem create_archive_contents :
  forall certificate key wwdr_certificate password p archive,
    let run :=
      create float_repr x509_certificate private_key read_file
        load_pem_x509_certificate load_pem_private_key pkcs7_sign
        certificate key wwdr_certificate password p in
    res run = Ok archive ->
    exists pass_json manifest signature assets,
      _create_pass_json float_repr p = Ok pass_json
      /\ res (_create_manifest float_repr pass_json p) = Ok manifest
      /\ res (_create_signature_crypto x509_certificate private_key read_file
                load_pem_x509_certificate load_pem_private_key pkcs7_sign
                manifest certificate key wwdr_certificate password
                (post (_create_manifest float_repr pass_json p)))
         = Ok signature
      /\ Dict.get "_files" p
         = Some (PDict (map (fun e => (fst e, PBytes (snd e))) assets))
      /\ Forall (fun e => zip_filename (fst e) <> "") assets
      /\ archive
         = ([("signature", signature);
             ("manifest.json", encode_utf8 manifest);
             ("pass.json", encode_utf8 pass_json)]
              ++ map (fun e => (zip_filename (fst e), snd e)) assets)%list
      /\ trace run
         = ([ReadFile certificate; ReadFile key; ReadFile wwdr_certificate;
             SignManifest manifest]
              ++ duplicate_names ["signature"; "manifest.json"; "pass.json"]
                   (map (fun e => zip_filename (fst e)) assets))%list.
Proof.
  intros certificate key wwdr password p archive run H. subst run.
  destruct (create_ok_valid _ _ _ _ _ _ H)
    as (serial & description & Hs & Ht & Hd & Hdt).
  rewrite (create_of_valid _ certificate key wwdr password _ _ Hs Ht Hd Hdt)
    in H |- *.
  apply res_mbind_ok in H. destruct H as (pass_json & Hj & H & ->).
  change (post (lift (_create_pass_json float_repr p) p)) with p in *.
  change (res (lift (_create_pass_json float_repr p) p))
    with (_create_pass_json float_repr p) in Hj.
  change (trace (lift (_create_pass_json float_repr p) p)) with (@nil event).
  apply res_mbind_ok in H. destruct H as (manifest & Hm & H & ->).
  apply res_mbind_ok in H. destruct H as (signature & Hsig & H & ->).
  exists pass_json, manifest, signature.
  destruct (create_manifest_ok_inv _ _ _ Hm) as (files & hashes & HF & HH & Hdig).
  rewrite (create_signature_trace _ _ _ _ _ _ _ _ _ _ _ _ _ Hsig).
  assert (Hmt : trace (_create_manifest float_repr pass_json p) = []).
  { now rewrite (create_manifest_spec float_repr pass_json p files hashes HF HH). }
  rewrite Hmt.
  set (p1 := post (_create_manifest float_repr pass_json p)) in *.
  set (p2 := post (_create_signature_crypto x509_certificate private_key
                     read_file load_pem_x509_certificate load_pem_private_key
                     pkcs7_sign manifest certificate key wwdr password p1)) in *.
  assert (HF2 : Dict.get "_files" p2 = Some (PDict files)).
  { unfold p2. rewrite frame_create_signature by discriminate.
    unfold p1. rewrite frame_create_manifest by discriminate. exact HF. }
  rewrite (create_zip_spec _ _ _ _ _ HF2) in H |- *.
  destruct (write_all_bytes _ _ _ _ Hdig H) as (assets & -> & Hall & -> & ->).
  exists assets. cbn [app map fst]. repeat split; assumption.
Qed.

End AssemblyContents.

(** ** [add_file] *)

Lemma keys_set {V} k (v : V) d :
  Dict.keys (Dict.set k v d)
  = if str_in k (Dict.keys d) then Dict.keys d else (Dict.keys d ++ [k])%list.
Proof.
  unfold Dict.keys, str_in. induction d as [|[k' v'] d IH]; [reflexivity|].
  cbn [Dict.set map fst existsb].
  destruct (String.eqb_spec k k') as [->|Hne]; [reflexivity|].
  cbn [map fst orb]. rewrite IH. now destruct (existsb (String.eqb k) (map fst d)).
Qed.

(** X3: on a pass built through the public interface [add_file] always
    succeeds, whatever the name and the data; the asset takes the place
    of an earlier one of the same name and otherwise comes last; and
    attaching twice under one name leaves the pass that the second call
    alone would have left. *)
Theorem add_file_replaces :
  forall p name data,
    reachable p ->
    exists files,
      Dict.get "_files" p = Some (PDict files)
      /\ add_file name data p
         = mkOutcome (Ok tt)
             (Dict.set "_files" (PDict (Dict.set name data files)) p) []
      /\ Dict.get name (Dict.set name data files) = Some data
      /\ (forall other, other <> name ->
            Dict.get other (Dict.set name data files) = Dict.get other files)
      /\ Dict.keys (Dict.set name data files)
         = (if str_in name (Dict.keys files) then Dict.keys files
            else (Dict.keys files ++ [name])%list)
      /\ (forall data',
            post (add_file name data' (post (add_file name data p)))
            = post (add_file name data' p)).
Proof.
  intros p name data R.
  destruct (wf_files _ (reachable_well_formed _ R))
    as (files & hashes & HF & _).
  assert (E : forall x q fs,
             Dict.get "_files" q = Some (PDict fs) ->
             add_file name x q
             = mkOutcome (Ok tt)
                 (Dict.set "_files" (PDict (Dict.set name x fs)) q) []).
  { intros x q fs Hq. unfold add_file.
    erewrite mbind_ok by (apply read_spec; exact Hq).
    erewrite mbind_ok by reflexivity. reflexivity. }
  exists files. split; [exact HF|]. split; [now apply E|].
  split; [apply get_set_eq|]. split; [intros; now apply get_set_ne|].
  split; [apply keys_set|].
  intros data'. rewrite (E data p files HF). cbn [post].
  rewrite (E data' _ (Dict.set name data files)) by apply get_set_eq.
  rewrite (E data' p files HF). cbn [post]. now rewrite !set_set.
Qed.

(** ** The optional sections of [json_dict] *)

Module SectionFacts.

(** Splits [H : json_dict self = Ok d] into the equations of its
    sections. *)
Ltac sections H :=
  unfold json_dict in H;
  repeat match type of H with
         | bind _ _ = Ok _ =>
             let a := fresh "d" in
             let E := fresh "E" in
             apply bind_ok in H; destruct H as (a & E & H)
         end.

(** Moves [Dict.get k] from the dictionary a section returns to the one
    it was given, for as long as the section writes other keys. *)
Ltac back k :=
  repeat match goal with
         | E : project_all_if_truthy ?a ?key ?s ?x = Ok ?y
           |- context [Dict.get k ?y] =>
             rewrite (keeps_project_all k a key s ltac:(discriminate) x y E)
         | E : project_if_truthy ?a ?key ?s ?x = Ok ?y
           |- context [Dict.get k ?y] =>
             rewrite (keeps_project k a key s ltac:(discriminate) x y E)
         | E : copy_if_truthy ?a ?key ?s ?x = Ok ?y
           |- context [Dict.get k ?y] =>
             rewrite (keeps_copy k a key s ltac:(discriminate) x y E)
         | E : sharing_field ?s ?x = Ok ?y |- context [Dict.get k ?y] =>
             rewrite (keeps_sharing k s ltac:(discriminate) x y E)
         | E : voided_field ?s ?x = Ok ?y |- context [Dict.get k ?y] =>
             rewrite (keeps_voided k s ltac:(discriminate) x y E)
         | E : web_service_fields ?s ?x = Ok ?y |- context [Dict.get k ?y] =>
             rewrite (keeps_web_service k s ltac:(discriminate)
                        ltac:(discriminate) x y E)
         | E : date_fields ?s ?x = Ok ?y |- context [Dict.get k ?y] =>
             rewrite (keeps_dates k s ltac:(discriminate)
                        ltac:(discriminate) x y E)
         | E : barcode_fields ?s ?x = Ok ?y |- context [Dict.get k ?y] =>
             rewrite (keeps_barcodes k s ltac:(discriminate)
                        ltac:(discriminate) x y E)
         end.

(** Closes [Dict.get k d0 = None] for the dictionary of the required
    fields. *)
Ltac not_required :=
  match goal with
  | E : required_fields ?s = Ok ?x |- Dict.get ?k ?x = None =>
      apply (required_fields_keys s x k E); simpl; intuition discriminate
  end.

End SectionFacts.

Import SectionFacts.

(** X4: the document holds [webServiceURL] exactly when
    [web_service_url] is set (true), and then it holds
    [authenticationToken] as well, with whatever [authentication_token]
    is, [None] or a short text included; a token without a URL is left
    out. *)
Theorem json_dict_web_service :
  forall p d,
    json_dict p = Ok d ->
    exists url,
      Dict.get "web_service_url" p = Some url
      /\ Dict.get "webServiceURL" d = (if truthy url then Some url else None)
      /\ Dict.get "authenticationToken" d
         = (if truthy url then Dict.get "authentication_token" p else None).
Proof.
  intros p d H. sections H.
  match goal with
  | E : web_service_fields _ _ = Ok _ |- _ =>
      pose proof E as Ews; unfold web_service_fields, getattr in Ews
  end.
  destruct (Dict.get "web_service_url" p) as [url|]; [|discriminate Ews].
  exists url. split; [reflexivity|]. cbn [bind] in Ews.
  destruct (truthy url).
  - destruct (Dict.get "authentication_token" p) as [token|];
      [|discriminate Ews].
    injection Ews as Ews. split.
    + back "webServiceURL". rewrite <- Ews.
      rewrite get_set_ne by discriminate. apply get_set_eq.
    + back "authenticationToken". rewrite <- Ews. apply get_set_eq.
  - injection Ews as Ews. split.
    + back "webServiceURL". rewrite <- Ews. back "webServiceURL". not_required.
    + back "authenticationToken". rewrite <- Ews. back "authenticationToken".
      not_required.
Qed.

(** X5: [voided] is in the document only as [true], when the attribute
    is set (true), never as [false]; [sharingProhibited] is there
    whenever [sharing_prohibited] is not [None], as it is, [False]
    included. *)
Theorem json_dict_voided_and_sharing :
  forall p d,
    json_dict p = Ok d ->
    exists voided sharing,
      Dict.get "voided" p = Some voided
      /\ Dict.get "sharing_prohibited" p = Some sharing
      /\ Dict.get "voided" d
         = (if truthy voided then Some (PBool true) else None)
      /\ Dict.get "sharingProhibited" d
         = (if is_none sharing then None else Some sharing).
Proof.
  intros p d H. sections H.
  match goal with
  | E : voided_field _ _ = Ok _ |- _ =>
      pose proof E as Ev; unfold voided_field, getattr in Ev
  end.
  match goal with
  | E : sharing_field _ _ = Ok _ |- _ =>
      pose proof E as Es; unfold sharing_field, getattr in Es
  end.
  destruct (Dict.get "voided" p) as [voided|]; [|discriminate Ev].
  destruct (Dict.get "sharing_prohibited" p) as [sharing|]; [|discriminate Es].
  exists voided, sharing. split; [reflexivity|]. split; [reflexivity|].
  cbn [bind] in Ev, Es. injection Ev as Ev. injection Es as Es. split.
  - back "voided". rewrite <- Ev. destruct (truthy voided).
    + apply get_set_eq.
    + back "voided". not_required.
  - back "sharingProhibited". rewrite <- Es. destruct (is_none sharing); cbn [negb].
    + back "sharingProhibited". not_required.
    + apply get_set_eq.
Qed.

Lemma copy_if_truthy_spec attr key self d d' :
  copy_if_truthy attr key self d = Ok d' ->
  exists v, Dict.get attr self = Some v
            /\ Dict.get key d'
               = if truthy v then Some v else Dict.get key d.
Proof.
  unfold copy_if_truthy, getattr. destruct (Dict.get attr self) as [v|];
    [|discriminate].
  cbn [bind]. intros [= <-]. exists v. split; [reflexivity|].
  destruct (truthy v); [apply get_set_eq|reflexivity].
Qed.

(** X6: each of the nine optional attributes of [copied_attributes] is
    in the document, under its key, exactly when it is set (true), and
    then as the very value of the attribute. *)
Theorem json_dict_copied_attributes :
  forall p d attr key,
    json_dict p = Ok d ->
    In (attr, key) copied_attributes ->
    exists v,
      Dict.get attr p = Some v
      /\ Dict.get key d = (if truthy v then Some v else None).
Proof.
  intros p d attr key H Hin. sections H. simpl in Hin.
  repeat match type of Hin with
         | _ \/ _ => destruct Hin as [[= <- <-]|Hin]
         end; try contradiction.
  all: match goal with
       | |- exists _, Dict.get ?a _ = _ /\ Dict.get ?k _ = _ =>
           back k;
           match goal with
           | E : copy_if_truthy a k _ _ = Ok _ |- _ =>
               destruct (copy_if_truthy_spec _ _ _ _ _ E) as (v & Hv & Hk)
           end;
           exists v; split; [exact Hv|]; rewrite Hk;
           destruct (truthy v); [reflexivity|]; back k; not_required
       end.
Qed.

Lemma project_locations ls :
  map_result call_json_dict (map PLocation ls)
  = Ok (map (fun l => PDict (LocationOps.json_dict l)) ls).
Proof.
  induction ls as [|l ls IH]; [reflexivity|].
  cbn [map map_result call_json_dict bind]. now rewrite IH.
Qed.

Lemma project_beacons bs :
  map_result call_json_dict (map PIBeacon bs)
  = Ok (map (fun b => PDict (IBeaconOps.json_dict b)) bs).
Proof.
  induction bs as [|b bs IH]; [reflexivity|].
  cbn [map map_result call_json_dict bind]. now rewrite IH.
Qed.

(** X7: in the document of a pass built through the public interface,
    [locations] is the list of the dictionaries of the attached
    locations, in the order of attachment, and is absent when there is
    none; likewise [beacons]. *)
Theorem json_dict_locations_and_beacons :
  forall p d,
    reachable p ->
    json_dict p = Ok d ->
    exists ls bs,
      Dict.get "_locations" p = Some (PList (map PLocation ls))
      /\ Dict.get "_beacons" p = Some (PList (map PIBeacon bs))
      /\ Dict.get "locations" d
         = match ls with
           | [] => None
           | _ :: _ =>
               Some (PList (map (fun l => PDict (LocationOps.json_dict l)) ls))
           end
      /\ Dict.get "beacons" d
         = match bs with
           | [] => None
           | _ :: _ =>
               Some (PList (map (fun b => PDict (IBeaconOps.json_dict b)) bs))
           end.
Proof.
  intros p d R H. pose proof (reachable_well_formed _ R) as W.
  destruct (wf_locations _ W) as (ls & Hl & _).
  destruct (wf_beacons _ W) as (bs & Hb & _).
  exists ls, bs. split; [exact Hl|]. split; [exact Hb|].
  sections H. split.
  - back "locations".
    match goal with
    | E : project_all_if_truthy "_locations" _ _ _ = Ok _ |- _ =>
        rename E into El
    end.
    unfold project_all_if_truthy, getattr in El. rewrite Hl in El.
    cbn [bind py_iter] in El. rewrite project_locations in El.
    cbn [bind] in El. destruct ls as [|l ls]; cbn [map truthy] in El;
      injection El as <-.
    + back "locations". not_required.
    + apply get_set_eq.
  - back "beacons".
    match goal with
    | E : project_all_if_truthy "_beacons" _ _ _ = Ok _ |- _ =>
        rename E into Eb
    end.
    unfold project_all_if_truthy, getattr in Eb. rewrite Hb in Eb.
    cbn [bind py_iter] in Eb. rewrite project_beacons in Eb.
    cbn [bind] in Eb. destruct bs as [|b bs]; cbn [map truthy] in Eb;
      injection Eb as <-.
    + back "beacons". not_required.
    + apply get_set_eq.
Qed.

(** X8: the required keys of the document hold the attributes of the
    pass as they are, empty or of any type, and the key of the pass
    type holds the fields of its [PassInformation]. *)
Theorem json_dict_required_fields :
  forall p d,
    json_dict p = Ok d ->
    (forall attr key,
        In (attr, key) required_attributes ->
        exists v, Dict.get attr p = Some v /\ Dict.get key d = Some v)
    /\ exists kind proj,
         Dict.get "pass_information" p = Some (PPassInformation kind proj)
         /\ Dict.get (jsonname kind) d = Some (PDict proj).
Proof.
  intros p d H. sections H.
  match goal with
  | E : required_fields _ = Ok _ |- _ =>
      pose proof E as Er; unfold required_fields, getattr in Er
  end.
  repeat match type of Er with
         | bind (match ?o with Some _ => _ | None => _ end) _ = Ok _ =>
             let v := fresh "v" in
             destruct o as [v|] eqn:?; [cbn [bind] in Er|discriminate Er]
         end.
  match type of Er with
  | match ?v with PNone => _ | _ => _ end = _ =>
      destruct v; try discriminate Er
  end.
  injection Er as Er.
  split.
  - intros attr key Hin. simpl in Hin.
    repeat match type of Hin with
           | _ \/ _ => destruct Hin as [[= <- <-]|Hin]
           end; try contradiction.
    all: eexists; split; [eassumption|].
    all: match goal with
         | |- Dict.get ?k _ = _ => back k; rewrite <- Er; destruct kind; reflexivity
         end.
  - exists kind, proj. split; [reflexivity|].
    destruct kind; cbn [jsonname].
    all: match goal with
         | |- Dict.get ?k _ = _ => back k; rewrite <- Er; reflexivity
         end.
Qed.

Lemma project_if_truthy_spec attr key self d d' :
  project_if_truthy attr key self d = Ok d' ->
  exists v,
    Dict.get attr self = Some v
    /\ if truthy v
       then exists j, call_json_dict v = Ok j /\ Dict.get key d' = Some j
       else Dict.get key d' = Dict.get key d.
Proof.
  unfold project_if_truthy, getattr.
  destruct (Dict.get attr self) as [v|]; [|discriminate].
  cbn [bind]. intros H. exists v. split; [reflexivity|].
  destruct (truthy v).
  - destruct (call_json_dict v) as [j|]; [|discriminate H].
    cbn [bind] in H. injection H as <-. exists j.
    split; [reflexivity|apply get_set_eq].
  - now injection H as <-.
Qed.

(** X9: [nfc], [semantics] and [personalization] are in the document
    exactly when the attribute is set (true), as the dictionary the
    [json_dict()] of its value returns; the document cannot be built
    when such a value has no [json_dict()]. *)
Theorem json_dict_projected_attributes :
  forall p d attr,
    json_dict p = Ok d ->
    In attr ["nfc"; "semantics"; "personalization"] ->
    exists v,
      Dict.get attr p = Some v
      /\ if truthy v
         then exists j, call_json_dict v = Ok j /\ Dict.get attr d = Some j
         else Dict.get attr d = None.
Proof.
  intros p d attr H Hin. sections H. simpl in Hin.
  repeat match type of Hin with
         | _ \/ _ => destruct Hin as [<-|Hin]
         end; try contradiction.
  all: match goal with
       | |- exists _, Dict.get ?a _ = _ /\ _ =>
           match goal with
           | E : project_if_truthy a a _ _ = Ok _ |- _ =>
               destruct (project_if_truthy_spec _ _ _ _ _ E) as (v & Hv & Hk)
           end;
           exists v; split; [exact Hv|]; destruct (truthy v);
           [destruct Hk as (j & Hj & Hk); exists j; split; [exact Hj|];
            back a; exact Hk
           |back a; rewrite Hk; back a; not_required]
       end.
Qed.

(** ** The model classes *)

(** X10: [Barcode(message, format, encoding, alt_text)] checks the format
    before the message: an unknown format is refused whatever the message,
    with another error than that of the message; an empty message is
    refused when the format is known; otherwise the barcode is made and
    its [json_dict()] holds, in this order, the format, the message and
    the encoding as given and, when an [alt_text] was given, [altText]. *)
Theorem barcode_init_then_json_dict :
  forall message format encoding alt_text,
    (str_in format BarcodeOps.valid_formats = false ->
     exists msg,
       BarcodeOps.init message format encoding alt_text
       = Raise (ValueError msg)
       /\ msg <> "Barcode message cannot be empty")
    /\ (str_in format BarcodeOps.valid_formats = true ->
        message = "" ->
        BarcodeOps.init message format encoding alt_text
        = Raise (ValueError "Barcode message cannot be empty"))
    /\ (str_in format BarcodeOps.valid_formats = true ->
        message <> "" ->
        exists b,
          BarcodeOps.init message format encoding alt_text = Ok b
          /\ BarcodeOps.json_dict b
             = ([("format", PStr format); ("message", PStr message);
                 ("messageEncoding", PStr encoding)]
                ++ match alt_text with
                   | Some a => [("altText", PStr a)]
                   | None => []
                   end)%list).
Proof.
  intros message format encoding alt_text.
  unfold BarcodeOps.init, BarcodeOps.check_format, BarcodeOps.check_message.
  split; [|split].
  - intros ->. cbn [negb bind]. eexists. split; [reflexivity|].
    discriminate.
  - intros -> ->. reflexivity.
  - intros -> Hm. destruct message as [|c m]; [contradiction|].
    cbn [negb bind str_truthy]. eexists. split; [reflexivity|].
    destruct alt_text; reflexivity.
Qed.

Lemma barcode_json_dict_inj b b' :
  BarcodeOps.json_dict b = BarcodeOps.json_dict b' -> b = b'.
Proof.
  destruct b as [f m e a], b' as [f' m' e' a'].
  unfold BarcodeOps.json_dict. cbn [Barcode.altText Barcode._format
    Barcode._message Barcode.messageEncoding].
  destruct a, a'; cbn; intros H; inversion H; reflexivity.
Qed.

Lemma opt_str_eqb_eq a b : BarcodeMethods.opt_str_eqb a b = true <-> a = b.
Proof.
  destruct a as [x|], b as [y|]; cbn; try (split; congruence).
  rewrite String.eqb_eq. split; congruence.
Qed.

(** X11: [b == other] holds exactly when [other] is a [Barcode] whose
    [json_dict()] is that of [b]; a value of another class is never equal
    to a barcode. *)
Theorem barcode_eq_iff_same_json_dict :
  forall (b : Barcode.t) (other : pyval),
    BarcodeMethods.__eq__ b other = true
    <-> exists b', other = PBarcode b'
                   /\ BarcodeOps.json_dict b' = BarcodeOps.json_dict b.
Proof.
  intros b other. split.
  - destruct other; try discriminate. cbn [BarcodeMethods.__eq__].
    rewrite !andb_true_iff, !String.eqb_eq, opt_str_eqb_eq.
    intros [[[Hf Hm] He] Ha]. exists b0. split; [reflexivity|].
    destruct b, b0; cbn in *. now subst.
  - intros (b' & -> & H). apply barcode_json_dict_inj in H. subst b'.
    cbn [BarcodeMethods.__eq__].
    rewrite !andb_true_iff, !String.eqb_eq, opt_str_eqb_eq. tauto.
Qed.

(** X12: a [RelevantDate] the constructor accepts has one of two shapes: a
    non-empty [date], and then its [json_dict()] holds [date] only; or a
    non-empty [start_date] and a non-empty [end_date], and then it holds
    [startDate] and [endDate], in this order. *)
Theorem relevant_date_json_dict_shapes :
  forall date start_date end_date r,
    RelevantDateOps.init date start_date end_date = Ok r ->
    (exists d, date = Some d /\ d <> ""
               /\ RelevantDateOps.json_dict r = [("date", PStr d)])
    \/ (exists s e, start_date = Some s /\ end_date = Some e
                    /\ s <> "" /\ e <> ""
                    /\ RelevantDateOps.json_dict r
                       = [("startDate", PStr s); ("endDate", PStr e)]).
Proof.
  intros date start_date end_date r. unfold RelevantDateOps.init.
  destruct date as [[|c d]|], start_date as [[|c' s]|], end_date as [[|c'' e]|];
    cbn; try discriminate; intros [= <-];
    first [ left; eexists; split; [reflexivity|];
            split; [discriminate|reflexivity]
          | right; do 2 eexists; split; [reflexivity|];
            split; [reflexivity|]; split; [discriminate|];
            split; [discriminate|reflexivity] ].
Qed.

Section LocationInit.

Variable float_of_str : string -> option spec_float.

Lemma float_or_spec {A} (wrap : spec_float -> A) (fallback : A) v :
  LocationOps.float_or float_of_str wrap fallback v
  = if overflows v then Raise overflow_error
    else Ok match LocationOps.py_float float_of_str v with
            | Ok f => wrap f
            | Raise _ => fallback
            end.
Proof.
  unfold LocationOps.float_or.
  destruct v; cbn [LocationOps.py_float overflows]; try reflexivity.
  - destruct (float_of_Z z); reflexivity.
  - destruct (float_of_str s); reflexivity.
  - destruct (float_of_str (string_of_list_byte b)); reflexivity.
Qed.

Lemma none_never_overflows v : is_none v = true -> overflows v = false.
Proof. now destruct v. Qed.

(** X13: [Location(...)] returns for arguments of every type, a text that
    is no number included, unless one of the four numbers is an [int] too
    large for a float: then, and only then, it raises, and what it raises
    is the [OverflowError] of [float()]. *)
Theorem location_init_raises_only_on_overflow :
  forall latitude longitude altitude relevant_text max_distance,
    let made :=
      LocationOps.init float_of_str latitude longitude altitude relevant_text
        max_distance in
    is_ok made
    = negb (overflows latitude || overflows longitude || overflows altitude
            || overflows max_distance)
    /\ forall e, made = Raise e -> e = overflow_error.
Proof.
  intros latitude longitude altitude relevant_text max_distance made.
  subst made. unfold LocationOps.init. rewrite !float_or_spec.
  destruct (overflows latitude); [split; [reflexivity|now intros e [= <-]]|].
  destruct (overflows longitude); [split; [reflexivity|now intros e [= <-]]|].
  cbn [bind orb].
  destruct (is_none altitude) eqn:Ea;
    [rewrite (none_never_overflows _ Ea)|];
    cbn [negb bind orb].
  - destruct (is_none max_distance) eqn:Ed;
      [rewrite (none_never_overflows _ Ed)|]; cbn [negb bind].
    + split; [reflexivity|discriminate].
    + destruct (overflows max_distance); cbn [bind].
      * split; [reflexivity|now intros e [= <-]].
      * split; [reflexivity|discriminate].
  - destruct (overflows altitude); cbn [bind orb];
      [split; [reflexivity|now intros e [= <-]]|].
    destruct (is_none max_distance) eqn:Ed;
      [rewrite (none_never_overflows _ Ed)|]; cbn [negb bind].
    + split; [reflexivity|discriminate].
    + destruct (overflows max_distance); cbn [bind].
      * split; [reflexivity|now intros e [= <-]].
      * split; [reflexivity|discriminate].
Qed.

Lemma location_json_dict_mk lat lon alt dist text :
  LocationOps.json_dict
    (Location.mk lat lon alt dist (if opt_truthy text then text else None))
  = ([("latitude", PFloat lat); ("longitude", PFloat lon)]
     ++ match alt with Some f => [("altitude", PFloat f)] | None => [] end
     ++ match dist with Some f => [("maxDistance", PFloat f)] | None => [] end
     ++ (if opt_truthy text then [("relevantText", opt_str text)] else []))%list.
Proof.
  unfold LocationOps.json_dict.
  cbn [Location.latitude Location.longitude Location.altitude
         Location.maxDistance Location.relevantText].
  destruct alt, dist, (opt_truthy text) eqn:Et; cbn; rewrite ?Et; reflexivity.
Qed.

(** X14: the [json_dict()] of a [Location] the constructor returned holds,
    in this order: [latitude] and [longitude], each the float of the
    argument, or 0.0 when the argument has none; [altitude] unless the
    argument was [None], again 0.0 for a value that has no float;
    [maxDistance] only when the argument has a float; and [relevantText]
    when it is a non-empty text. *)
Theorem location_init_then_json_dict :
  forall latitude longitude altitude relevant_text max_distance l,
    LocationOps.init float_of_str latitude longitude altitude relevant_text
      max_distance = Ok l ->
    let parsed v :=
      match LocationOps.py_float float_of_str v with
      | Ok f => f
      | Raise _ => float_zero
      end in
    LocationOps.json_dict l
    = ([("latitude", PFloat (parsed latitude));
        ("longitude", PFloat (parsed longitude))]
       ++ (if is_none altitude then []
           else [("altitude", PFloat (parsed altitude))])
       ++ match LocationOps.py_float float_of_str max_distance with
          | Ok f => [("maxDistance", PFloat f)]
          | Raise _ => []
          end
       ++ (if opt_truthy relevant_text
           then [("relevantText", opt_str relevant_text)] else []))%list.
Proof.
  intros latitude longitude altitude relevant_text max_distance l.
  unfold LocationOps.init. rewrite !float_or_spec.
  destruct (overflows latitude); [discriminate|].
  destruct (overflows longitude); [discriminate|]. cbn [bind].
  assert (Hnone : is_none max_distance = true ->
                  exists e, LocationOps.py_float float_of_str max_distance
                            = Raise e).
  { destruct max_distance; try discriminate. eexists. reflexivity. }
  destruct (is_none altitude); cbn [negb bind].
  - destruct (is_none max_distance); cbn [negb bind].
    + destruct (Hnone eq_refl) as [e ->]. intros [= <-].
      now rewrite location_json_dict_mk.
    + destruct (overflows max_distance); [discriminate|]. cbn [bind].
      intros [= <-]. rewrite location_json_dict_mk.
      now destruct (LocationOps.py_float float_of_str max_distance).
  - destruct (overflows altitude); [discriminate|]. cbn [bind].
    destruct (is_none max_distance); cbn [negb bind].
    + destruct (Hnone eq_refl) as [e ->]. intros [= <-].
      rewrite location_json_dict_mk.
      now destruct (LocationOps.py_float float_of_str altitude).
    + destruct (overflows max_distance); [discriminate|]. cbn [bind].
      intros [= <-]. rewrite location_json_dict_mk.
      now destruct (LocationOps.py_float float_of_str altitude),
        (LocationOps.py_float float_of_str max_distance).
Qed.

End LocationInit.

(** ** utils.py: colours *)

Module HexFacts.

Lemma hex_char c :
  is_hex c = true ->
  int_space c = false
  /\ (forall s, strip_sign (String c s) = (false, String c s))
  /\ Ascii.eqb c underscore = false
  /\ Ascii.eqb c "x" = false
  /\ Ascii.eqb c "X" = false
  /\ Ascii.eqb c "#" = false
  /\ digit_value c = Some (hex_value c)
  /\ (0 <= hex_value c < 16)%Z.
Proof.
  destruct c as [[] [] [] [] [] [] [] []]; intros H;
    try (vm_compute in H; discriminate H);
    repeat split; try reflexivity; vm_compute; congruence.
Qed.

Lemma strip_hex_prefix_hex c1 c2 s :
  is_hex c2 = true ->
  strip_hex_prefix (String c1 (String c2 s)) = String c1 (String c2 s).
Proof.
  intros H. destruct (hex_char c2 H) as (_ & _ & _ & Hx & HX & _).
  destruct c1 as [[] [] [] [] [] [] [] []]; try reflexivity.
  cbn [strip_hex_prefix]. now rewrite Hx, HX.
Qed.

Lemma strip_hex_prefix_one c : strip_hex_prefix (String c "") = String c "".
Proof. destruct c as [[] [] [] [] [] [] [] []]; reflexivity. Qed.

Lemma scan_hex s : forall acc seen,
  all_hex s = true ->
  scan_digits 16 false seen acc s
  = Some (hex_number acc s,
          match s with EmptyString => seen | String _ _ => true end,
          EmptyString).
Proof.
  induction s as [|c s IH]; intros acc seen H; [reflexivity|].
  cbn [all_hex] in H. apply andb_true_iff in H. destruct H as [Hc Hs].
  destruct (hex_char c Hc) as (_ & _ & Hu & _ & _ & _ & Hd & Hr).
  cbn [scan_digits hex_number]. rewrite Hu, Hd.
  destruct (Z.ltb_spec (hex_value c) 16) as [_|]; [|lia].
  rewrite (IH _ true Hs). now destruct s.
Qed.

(** [int(s, 16)] on a text of hexadecimal digits. *)
Lemma int_base16_hex c s :
  all_hex (String c s) = true ->
  int_base16 (String c s) = Some (hex_number 0 (String c s)).
Proof.
  intros H. pose proof H as H'. cbn [all_hex] in H'.
  apply andb_true_iff in H'. destruct H' as [Hc Hs].
  destruct (hex_char c Hc) as (Hsp & Hsg & Hu & _).
  unfold int_base16. cbn [skip_spaces]. rewrite Hsp, Hsg.
  assert (strip_hex_prefix (String c s) = String c s) as ->.
  { destruct s as [|c2 s]; [apply strip_hex_prefix_one|].
    apply strip_hex_prefix_hex. cbn [all_hex] in Hs.
    now apply andb_true_iff in Hs. }
  rewrite Hu, (scan_hex _ 0%Z false H). reflexivity.
Qed.

Lemma lstrip_hashes n c s :
  Ascii.eqb c "#" = false ->
  lstrip "#" (repeat_char "#" n ++ String c s) = String c s.
Proof.
  intros H. induction n as [|n IH]; cbn [repeat_char append lstrip].
  - now rewrite H.
  - exact IH.
Qed.

Lemma rgb_color_ok r g b :
  (0 <= r <= 255)%Z -> (0 <= g <= 255)%Z -> (0 <= b <= 255)%Z ->
  rgb_color r g b = Ok (rgb_text r g b).
Proof.
  intros Hr Hg Hb. unfold rgb_color, in_byte_range. cbn [forallb].
  repeat match goal with
         | |- context [(?a <=? ?b)%Z] =>
             destruct (Z.leb_spec a b); [|lia]
         end.
  reflexivity.
Qed.

End HexFacts.

Import HexFacts.

Ltac hex_bounds :=
  repeat match goal with
         | H : is_hex ?c = true |- _ =>
             let Hd := fresh "Hd" in
             let Hr := fresh "Hr" in
             destruct (hex_char c H) as (_ & _ & _ & _ & _ & _ & Hd & Hr);
             clear H
         end.

(** X15: for six hexadecimal digits, after any number of [#], [hex_to_rgb]
    returns [rgb(r, g, b)] with the values of the three pairs of digits. *)
Theorem hex_to_rgb_six_digits :
  forall n c1 c2 c3 c4 c5 c6,
    all_hex (String c1 (String c2 (String c3 (String c4 (String c5
               (String c6 "")))))) = true ->
    hex_to_rgb (repeat_char "#" n
                  ++ String c1 (String c2 (String c3 (String c4 (String c5
                       (String c6 ""))))))
    = Ok (rgb_text (16 * hex_value c1 + hex_value c2)
            (16 * hex_value c3 + hex_value c4)
            (16 * hex_value c5 + hex_value c6)).
Proof.
  intros n c1 c2 c3 c4 c5 c6 H. unfold hex_to_rgb.
  pose proof H as H'. cbn [all_hex] in H'.
  repeat (apply andb_true_iff in H'; destruct H' as [? H']).
  rewrite lstrip_hashes by now apply hex_char.
  cbn [String.length Nat.eqb orb negb]. rewrite (int_base16_hex _ _ H).
  unfold slice, parse_hex_pair. cbn [substring Nat.sub].
  rewrite !int_base16_hex by (cbn [all_hex]; now rewrite ?andb_true_iff).
  cbn [bind hex_number]. hex_bounds.
  rewrite rgb_color_ok by lia. do 2 f_equal; lia.
Qed.

(** X16: for three hexadecimal digits, after any number of [#],
    [hex_to_rgb] returns [rgb(r, g, b)] with each digit read twice: 17
    times its value. *)
Theorem hex_to_rgb_three_digits :
  forall n c1 c2 c3,
    all_hex (String c1 (String c2 (String c3 ""))) = true ->
    hex_to_rgb (repeat_char "#" n ++ String c1 (String c2 (String c3 "")))
    = Ok (rgb_text (17 * hex_value c1) (17 * hex_value c2)
            (17 * hex_value c3)).
Proof.
  intros n c1 c2 c3 H. unfold hex_to_rgb.
  pose proof H as H'. cbn [all_hex] in H'.
  repeat (apply andb_true_iff in H'; destruct H' as [? H']).
  rewrite lstrip_hashes by now apply hex_char.
  cbn [String.length Nat.eqb orb negb]. rewrite (int_base16_hex _ _ H).
  unfold slice, parse_hex_pair. cbn [double_chars substring Nat.sub].
  rewrite !int_base16_hex by (cbn [all_hex]; now rewrite ?andb_true_iff).
  cbn [bind hex_number]. hex_bounds.
  rewrite rgb_color_ok by lia. do 2 f_equal; lia.
Qed.

Lemma int_base16_plus c s :
  all_hex (String c s) = true ->
  int_base16 (String "+" (String c s)) = Some (hex_number 0 (String c s)).
Proof.
  intros H. pose proof H as H'. cbn [all_hex] in H'.
  apply andb_true_iff in H'. destruct H' as [Hc Hs].
  destruct (hex_char c Hc) as (Hsp & Hsg & Hu & _).
  unfold int_base16.
  change (skip_spaces (String "+" (String c s))) with (String "+" (String c s)).
  change (strip_sign (String "+" (String c s))) with (false, String c s).
  cbv beta iota zeta.
  assert (strip_hex_prefix (String c s) = String c s) as ->.
  { destruct s as [|c2 s]; [apply strip_hex_prefix_one|].
    apply strip_hex_prefix_hex. cbn [all_hex] in Hs.
    now apply andb_true_iff in Hs. }
  rewrite Hu, (scan_hex _ 0%Z false H). reflexivity.
Qed.

(** X17: [hex_to_rgb] takes more than hexadecimal digits.  A plus sign
    before five digits makes six characters that [int(s, 16)] reads; the
    text is then cut into [+d], [dd] and [dd], and [int] reads the first
    as a signed digit. *)
Theorem hex_to_rgb_accepts_plus_sign :
  forall c1 c2 c3 c4 c5,
    all_hex (String c1 (String c2 (String c3 (String c4 (String c5 "")))))
    = true ->
    hex_to_rgb (String "+" (String c1 (String c2 (String c3 (String c4
                  (String c5 ""))))))
    = Ok (rgb_text (hex_value c1) (16 * hex_value c2 + hex_value c3)
            (16 * hex_value c4 + hex_value c5)).
Proof.
  intros c1 c2 c3 c4 c5 H. unfold hex_to_rgb.
  pose proof H as H'. cbn [all_hex] in H'.
  repeat (apply andb_true_iff in H'; destruct H' as [? H']).
  change (lstrip "#" (String "+" ?s)) with (String "+" s).
  cbn [String.length Nat.eqb orb negb]. rewrite (int_base16_plus _ _ H).
  unfold slice, parse_hex_pair. cbn [substring Nat.sub].
  rewrite int_base16_plus by (cbn [all_hex]; now rewrite ?andb_true_iff).
  rewrite !int_base16_hex by (cbn [all_hex]; now rewrite ?andb_true_iff).
  cbn [bind hex_number]. hex_bounds.
  rewrite rgb_color_ok by lia. do 2 f_equal; lia.
Qed.

(** ** models/fields.py, pass_types.py, personalization.py and
    semantic_tags.py *)

Module FieldFacts.
Import Field.







End FieldFacts.


(** X19: for a non-empty key and a value that is neither [None] nor the
    empty text, [Field(key, value, label).json_dict()] holds [key],
    [value] and, when not empty, [label], in this order; that of a
    [DateField] adds [dateStyle] and [timeStyle] when not empty,
    [isRelative] always, [False] included, and [ignoresTimeZone] only when
    true. *)
Theorem field_constructors_json_dict :
  forall key value label date_style time_style ignores_time_zone is_relative,
    key <> "" ->
    is_none value = false ->
    Field.is_empty_str value = false ->
    let base :=
      ([("key", PStr key); ("value", value)]
       ++ (if str_truthy label then [("label", PStr label)] else []))%list in
    Field.json_dict (Field.__init__ (PStr key) value (PStr label)) = Ok base
    /\ Field.json_dict
         (Field.DateField (PStr key) value (PStr label) (PStr date_style)
            (PStr time_style) (PBool ignores_time_zone) (PBool is_relative))
       = Ok (base
             ++ (if str_truthy date_style
                 then [("dateStyle", PStr date_style)] else [])
             ++ (if str_truthy time_style
                 then [("timeStyle", PStr time_style)] else [])
             ++ [("isRelative", PBool is_relative)]
             ++ (if ignores_time_zone
                 then [("ignoresTimeZone", PBool true)] else []))%list.
Proof.
  intros key value label date_style time_style ignores relative Hk Hn He base.
  subst base.
  destruct key as [|c key]; [contradiction|].
  assert (S : forall d, Field.json_dict_step d ("value", value)
                        = Ok (Dict.set "value" value d)).
  { intros d. unfold Field.json_dict_step. cbn [fst snd].
    rewrite Hn, He. reflexivity. }
  split.
  - unfold Field.json_dict, Field.__init__.
    change (Field.json_dict_loop
              (Dict.of_list
                 [("key", PStr (String c key)); ("value", value);
                  ("label", PStr label); ("changeMessage", PNone);
                  ("textAlignment", PNone); ("attributedValue", PNone);
                  ("dataDetectorTypes", PNone); ("semantics", PNone)])
              Dict.empty)
      with (bind (Field.json_dict_step [("key", PStr (String c key))]
                    ("value", value))
              (Field.json_dict_loop
                 [("label", PStr label); ("changeMessage", PNone);
                  ("textAlignment", PNone); ("attributedValue", PNone);
                  ("dataDetectorTypes", PNone); ("semantics", PNone)])).
    rewrite S. destruct label; reflexivity.
  - unfold Field.json_dict, Field.DateField, Field.__init__.
    set (rest := fun extra : list (string * pyval) =>
           ([("label", PStr label); ("changeMessage", PNone);
             ("textAlignment", PNone); ("attributedValue", PNone);
             ("dataDetectorTypes", PNone); ("semantics", PNone);
             ("dateStyle", PStr date_style); ("timeStyle", PStr time_style);
             ("isRelative", PBool relative)] ++ extra)%list).
    destruct ignores; cbn [truthy].
    + change (Field.json_dict_loop _ Dict.empty)
        with (bind (Field.json_dict_step [("key", PStr (String c key))]
                      ("value", value))
                (Field.json_dict_loop
                   (rest [("ignoresTimeZone", PBool true)]))).
      rewrite S. subst rest.
      destruct label, date_style, time_style, relative; reflexivity.
    + change (Field.json_dict_loop _ Dict.empty)
        with (bind (Field.json_dict_step [("key", PStr (String c key))]
                      ("value", value))
                (Field.json_dict_loop (rest []))).
      rewrite S. subst rest.
      destruct label, date_style, time_style, relative; reflexivity.
Qed.

Module PassInformationFacts.
Import PassInformation.





End PassInformationFacts.


Lemma check_fields_ok fields :
  Personalization.check_fields fields = Ok tt
  <-> forall f, In f fields -> In f Personalization.valid_fields.
Proof.
  induction fields as [|f fields IH]; cbn [Personalization.check_fields].
  - split; [intros _ f []|reflexivity].
  - destruct (str_in f Personalization.valid_fields) eqn:E; cbn [negb].
    + rewrite IH. split.
      * intros H g [<-|Hg]; [|now apply H].
        unfold str_in in E. apply existsb_exists in E.
        destruct E as (x & Hx & Heq). apply String.eqb_eq in Heq. now subst.
      * intros H g Hg. apply H. now right.
    + split; [discriminate|]. intros H. exfalso.
      assert (Hin : In f Personalization.valid_fields) by (apply H; now left).
      unfold str_in in E.
      assert (existsb (String.eqb f) Personalization.valid_fields = true).
      { apply existsb_exists. exists f. split; [exact Hin|apply String.eqb_refl]. }
      congruence.
Qed.

(** X21: [Personalization(required_fields, description,
    terms_and_conditions)] is accepted exactly when the list is not empty
    and holds valid field names only; what it raises otherwise is a
    [ValueError]; and the [json_dict()] of what it returns holds the field
    names as given, [description] when not empty and [termsAndConditions]
    when not empty, in this order. *)
Theorem personalization_init_then_json_dict :
  forall required_fields description terms_and_conditions,
    (is_ok (Personalization.__init__ required_fields description
              terms_and_conditions) = true
     <-> required_fields <> []
         /\ forall f, In f required_fields ->
                      In f Personalization.valid_fields)
    /\ (forall e,
          Personalization.__init__ required_fields description
            terms_and_conditions = Raise e ->
          exists msg, e = ValueError msg)
    /\ (forall p,
          Personalization.__init__ required_fields description
            terms_and_conditions = Ok p ->
          Personalization.json_dict p
          = ([("requiredPersonalizationFields",
               PList (map PStr required_fields))]
             ++ (if str_truthy description
                 then [("description", PStr description)] else [])
             ++ (if str_truthy terms_and_conditions
                 then [("termsAndConditions", PStr terms_and_conditions)]
                 else []))%list).
Proof.
  intros fields description terms. unfold Personalization.__init__.
  destruct fields as [|f0 fields].
  - split; [|split].
    + split; [discriminate|]. now intros [H _].
    + intros e [= <-]. eauto.
    + discriminate.
  - set (all := f0 :: fields).
    destruct (Personalization.check_fields all) as [[]|e] eqn:E; cbn [bind].
    + split; [|split].
      * split; [|reflexivity]. intros _. split; [discriminate|].
        now apply check_fields_ok.
      * discriminate.
      * intros p [= <-]. unfold Personalization.json_dict.
        cbn [Personalization.requiredPersonalizationFields
               Personalization.description Personalization.termsAndConditions].
        destruct description, terms; reflexivity.
    + split; [|split].
      * split; [discriminate|]. intros [_ H].
        apply check_fields_ok in H. congruence.
      * intros e' [= <-]. clear -E. induction all as [|f l IH];
          [discriminate|].
        cbn [Personalization.check_fields] in E.
        destruct (negb _); [injection E as <-; eauto|auto].
      * discriminate.
Qed.

Module SemanticTagsFacts.
Import SemanticTags.





End SemanticTagsFacts.


(** ** Regular expressions *)

Module StringFacts.

Lemma append_assoc (a b c : string) : (a ++ b) ++ c = a ++ b ++ c.
Proof. induction a as [|x a IH]; [reflexivity|]. cbn. now rewrite IH. Qed.

Lemma append_nil_r (a : string) : a ++ "" = a.
Proof. induction a as [|x a IH]; [reflexivity|]. cbn. now rewrite IH. Qed.

Lemma length_append (a b : string) :
  String.length (a ++ b) = (String.length a + String.length b)%nat.
Proof. induction a as [|x a IH]; [reflexivity|]. cbn. now rewrite IH. Qed.

End StringFacts.

Module RegexFacts.
Import Regex StringFacts.

Lemma matches_empty s : matches Empty s = false.
Proof. induction s; [reflexivity|exact IHs]. Qed.

Lemma matches_alt s : forall r1 r2,
  matches (Alt r1 r2) s = matches r1 s || matches r2 s.
Proof. induction s as [|c s IH]; intros r1 r2; [reflexivity|apply IH]. Qed.

Lemma matches_eps s :
  matches Eps s = match s with EmptyString => true | String _ _ => false end.
Proof. destruct s; [reflexivity|apply matches_empty]. Qed.

Lemma matches_seq_empty r s : matches (Seq Empty r) s = false.
Proof. induction s as [|c s IH]; [reflexivity|exact IH]. Qed.

(** A text matches [Seq r1 r2] exactly when it splits into a text that
    matches [r1] and one that matches [r2]. *)
Lemma matches_seq_app s1 : forall r1 r2 s2,
  matches r1 s1 = true -> matches r2 s2 = true ->
  matches (Seq r1 r2) (s1 ++ s2) = true.
Proof.
  induction s1 as [|c s1 IH]; intros r1 r2 s2 H1 H2.
  - cbn [append matches] in *. destruct s2 as [|c s2].
    + cbn in *. now rewrite H1, H2.
    + cbn [matches deriv]. rewrite H1, matches_alt.
      cbn [matches] in H2. rewrite H2. apply orb_true_r.
  - cbn [append matches deriv]. cbn [matches] in H1.
    destruct (nullable r1); [rewrite matches_alt|]; now rewrite IH.
Qed.

Lemma matches_seq_split s : forall r1 r2,
  matches (Seq r1 r2) s = true ->
  exists s1 s2, s = s1 ++ s2 /\ matches r1 s1 = true /\ matches r2 s2 = true.
Proof.
  induction s as [|c s IH]; intros r1 r2 H.
  - cbn in H. apply andb_true_iff in H. destruct H.
    exists "", "". repeat split; assumption.
  - cbn [matches deriv] in H. destruct (nullable r1) eqn:N.
    + rewrite matches_alt in H. apply orb_true_iff in H.
      destruct H as [H|H].
      * destruct (IH _ _ H) as (s1 & s2 & -> & H1 & H2).
        exists (String c s1), s2. repeat split; assumption.
      * exists "", (String c s). repeat split; assumption.
    + destruct (IH _ _ H) as (s1 & s2 & -> & H1 & H2).
      exists (String c s1), s2. repeat split; assumption.
Qed.

Lemma matches_class p s :
  matches (Class p) s
  = match s with
    | String c EmptyString => p c
    | _ => false
    end.
Proof.
  destruct s as [|c s]; [reflexivity|]. cbn [matches deriv].
  destruct (p c); [rewrite matches_eps|rewrite matches_empty]; now destruct s.
Qed.

(** What is left to match after the first character of [Seq (Class p) r]. *)
Lemma matches_class_seq p r s :
  matches (Seq (Class p) r) s
  = match s with
    | EmptyString => false
    | String c s' => p c && matches r s'
    end.
Proof.
  destruct s as [|c s]; [reflexivity|]. cbn [matches deriv nullable].
  destruct (p c); cbn [andb]; [|apply matches_seq_empty].
  destruct s as [|c' s]; [reflexivity|].
  cbn [matches deriv nullable]. now rewrite matches_alt, matches_seq_empty.
Qed.

Lemma matches_eps_seq r s : matches (Seq Eps r) s = matches r s.
Proof.
  destruct s as [|c s]; [reflexivity|].
  cbn [matches deriv nullable]. now rewrite matches_alt, matches_seq_empty.
Qed.

Lemma bool_eq_iff (a b : bool) : (a = true <-> b = true) -> a = b.
Proof.
  destruct a, b; intros [H1 H2]; try reflexivity;
    [symmetry; now apply H1|now apply H2].
Qed.

Lemma matches_seq_assoc r1 r2 r3 s :
  matches (Seq (Seq r1 r2) r3) s = matches (Seq r1 (Seq r2 r3)) s.
Proof.
  apply bool_eq_iff. split; intros H.
  - apply matches_seq_split in H. destruct H as (s12 & s3 & -> & H12 & H3).
    apply matches_seq_split in H12. destruct H12 as (s1 & s2 & -> & H1 & H2).
    rewrite append_assoc.
    apply matches_seq_app; [exact H1|]. now apply matches_seq_app.
  - apply matches_seq_split in H. destruct H as (s1 & s23 & -> & H1 & H23).
    apply matches_seq_split in H23. destruct H23 as (s2 & s3 & -> & H2 & H3).
    rewrite <- append_assoc.
    apply matches_seq_app; [|exact H3]. now apply matches_seq_app.
Qed.

Lemma matches_seq_eps r s : matches (Seq r Eps) s = matches r s.
Proof.
  apply bool_eq_iff. split; intros H.
  - apply matches_seq_split in H. destruct H as (s1 & s2 & -> & H1 & H2).
    rewrite matches_eps in H2. destruct s2; [|discriminate].
    now rewrite append_nil_r.
  - rewrite <- (append_nil_r s). now apply matches_seq_app.
Qed.

Lemma matches_star_app r s1 s2 :
  matches r s1 = true -> matches (Star r) s2 = true ->
  matches (Star r) (s1 ++ s2) = true.
Proof.
  destruct s1 as [|c s1]; intros H1 H2; [exact H2|].
  cbn [append matches deriv]. now apply matches_seq_app.
Qed.

End RegexFacts.

Import StringFacts RegexFacts.

Module DigitFacts.
Import Regex.

Lemma digit_char c :
  digit c = true ->
  int_space c = false
  /\ (forall s, strip_sign (String c s) = (false, String c s))
  /\ Ascii.eqb c underscore = false
  /\ digit_value c = Some (digit_number c)
  /\ (0 <= digit_number c <= 9)%Z
  /\ space c = false.
Proof.
  destruct c as [[] [] [] [] [] [] [] []]; intros H;
    try (vm_compute in H; discriminate H);
    repeat split; try reflexivity; vm_compute; congruence.
Qed.

Lemma scan_dec s : forall acc seen,
  all_digits s = true ->
  scan_digits 10 false seen acc s
  = Some (dec_number acc s,
          match s with EmptyString => seen | String _ _ => true end,
          EmptyString).
Proof.
  induction s as [|c s IH]; intros acc seen H; [reflexivity|].
  cbn [all_digits] in H. apply andb_true_iff in H. destruct H as [Hc Hs].
  destruct (digit_char c Hc) as (_ & _ & Hu & Hd & Hr & _).
  cbn [scan_digits dec_number]. rewrite Hu, Hd.
  destruct (Z.ltb_spec (digit_number c) 10) as [_|]; [|lia].
  rewrite (IH _ true Hs). now destruct s.
Qed.

(** [int(s)] on a text of decimal digits. *)
Lemma int_base10_digits c s :
  all_digits (String c s) = true ->
  int_base10 (String c s) = Some (dec_number 0 (String c s)).
Proof.
  intros H. pose proof H as H'. cbn [all_digits] in H'.
  apply andb_true_iff in H'. destruct H' as [Hc Hs].
  destruct (digit_char c Hc) as (Hsp & Hsg & Hu & _).
  unfold int_base10. cbn [skip_spaces]. rewrite Hsp, Hsg, Hu.
  rewrite (scan_dec _ 0%Z false H). reflexivity.
Qed.

Lemma forall_range (P : Z -> bool) (lo hi : Z) :
  forallb P (map (fun k => lo + Z.of_nat k)%Z (seq 0 (Z.to_nat (hi - lo))))
  = true ->
  forall z, (lo <= z < hi)%Z -> P z = true.
Proof.
  intros H z Hz. rewrite forallb_forall in H. apply H.
  replace z with (lo + Z.of_nat (Z.to_nat (z - lo)))%Z by lia.
  apply (in_map (fun k => lo + Z.of_nat k)%Z), in_seq. lia.
Qed.


Lemma pad2_text z :
  (0 <= z <= 99)%Z -> two_digits (pad2 z) = true.
Proof.
  intros Hz.
  apply (forall_range (fun z => two_digits (pad2 z)) 0 100);
    [vm_compute; reflexivity|lia].
Qed.

Lemma year_text z :
  (1000 <= z <= 9999)%Z -> four_digits (str_of_int z) = true.
Proof.
  intros Hz.
  apply (forall_range (fun z => four_digits (str_of_int z)) 1000 10000);
    [vm_compute; reflexivity|lia].
Qed.

Lemma matches_times_digits s : forall n,
  all_digits s = true -> String.length s = n ->
  matches (times n (Class digit)) s = true.
Proof.
  induction s as [|c s IH]; intros n Ha <-; [reflexivity|].
  cbn [String.length times all_digits] in *.
  apply andb_true_iff in Ha. destruct Ha as [Hc Hs].
  rewrite matches_class_seq, Hc. now apply IH.
Qed.

End DigitFacts.

(** ** utils.py and validators.py: dates, currencies and colours *)

Import DigitFacts.
Import Regex Validators.

Lemma int_base10_two c1 c2 :
  digit c1 = true -> digit c2 = true ->
  int_base10 (String c1 (String c2 ""))
  = Some (10 * digit_number c1 + digit_number c2)%Z.
Proof.
  intros H1 H2. rewrite int_base10_digits
    by (cbn [all_digits]; now rewrite H1, H2).
  cbn [dec_number]. f_equal. lia.
Qed.

(** X23: on a text made of one character, two digits, a colon and two
    digits, [_is_valid_timezone_offset] holds exactly when the character
    is [+] or [-], the hours are at most 14, the minutes at most 59, and
    the minutes are 0 when the hours are 14. *)
Theorem timezone_offset_of_digits :
  forall sign h1 h2 m1 m2,
    digit h1 = true -> digit h2 = true ->
    digit m1 = true -> digit m2 = true ->
    let hours := (10 * digit_number h1 + digit_number h2)%Z in
    let minutes := (10 * digit_number m1 + digit_number m2)%Z in
    _is_valid_timezone_offset (offset_text sign h1 h2 m1 m2)
    = (Ascii.eqb sign "+" || Ascii.eqb sign "-")
      && (hours <=? 14)%Z && (minutes <=? 59)%Z
      && negb ((hours =? 14)%Z && negb (minutes =? 0)%Z).
Proof.
  intros sign h1 h2 m1 m2 Hh1 Hh2 Hm1 Hm2 hours minutes.
  unfold _is_valid_timezone_offset, offset_text, char_at, slice, str_in.
  cbn [String.length Nat.eqb negb Nat.add Nat.sub substring existsb
         String.eqb].
  rewrite (int_base10_two _ _ Hh1 Hh2), (int_base10_two _ _ Hm1 Hm2).
  fold hours minutes. change ((":" =? ":")%char) with true.
  destruct (digit_char _ Hh1) as (_ & _ & _ & _ & ? & _).
  destruct (digit_char _ Hh2) as (_ & _ & _ & _ & ? & _).
  destruct (digit_char _ Hm1) as (_ & _ & _ & _ & ? & _).
  destruct (digit_char _ Hm2) as (_ & _ & _ & _ & ? & _).
  assert (E : forall a b : bool,
             (if negb ((if a then true else false)
                       || ((if b then true else false) || false))
              then false
              else if negb true then false
                   else
                     if negb ((0 <=? hours)%Z && (hours <=? 14)%Z) then false
                     else if negb ((0 <=? minutes)%Z && (minutes <=? 59)%Z)
                          then false
                          else if (hours =? 14)%Z && negb (minutes =? 0)%Z
                               then false else true)
             = (a || b) && (hours <=? 14)%Z && (minutes <=? 59)%Z
               && negb ((hours =? 14)%Z && negb (minutes =? 0)%Z)).
  { intros a b. destruct (Z.leb_spec 0 hours); [|lia].
    destruct (Z.leb_spec 0 minutes); [|lia].
    destruct a, b, (hours <=? 14)%Z, (minutes <=? 59)%Z,
      ((hours =? 14)%Z && negb (minutes =? 0)%Z); reflexivity. }
  apply E.
Qed.

Lemma valid_offset_sign sign h1 h2 m1 m2 :
  _is_valid_timezone_offset (offset_text sign h1 h2 m1 m2) = true ->
  Ascii.eqb sign "+" || Ascii.eqb sign "-" = true.
Proof.
  unfold _is_valid_timezone_offset, offset_text, char_at, slice, str_in.
  cbn [String.length Nat.eqb negb Nat.add Nat.sub substring existsb
         String.eqb].
  destruct (Ascii.eqb sign "+"), (Ascii.eqb sign "-"); cbn [orb negb];
    try reflexivity; intros H; discriminate H.
Qed.

Lemma strftime_then_offset dt tz :
  strftime_iso dt ++ tz
  = str_of_int (DateTime.year dt)
    ++ "-" ++ pad2 (DateTime.month dt)
    ++ "-" ++ pad2 (DateTime.day dt)
    ++ "T" ++ pad2 (DateTime.hour dt)
    ++ ":" ++ pad2 (DateTime.minute dt)
    ++ ":" ++ pad2 (DateTime.second dt) ++ tz.
Proof.
  unfold strftime_iso. now rewrite !append_assoc.
Qed.

Lemma matches_two_digits s :
  two_digits s = true -> matches (times 2 (Class digit)) s = true.
Proof.
  unfold two_digits. rewrite andb_true_iff, Nat.eqb_eq. intros [Ha Hl].
  now apply matches_times_digits.
Qed.

Lemma in_range_fields dt :
  DateTime.in_range dt = true ->
  (1 <= DateTime.year dt <= 9999)%Z
  /\ (0 <= DateTime.month dt <= 99)%Z /\ (0 <= DateTime.day dt <= 99)%Z
  /\ (0 <= DateTime.hour dt <= 99)%Z /\ (0 <= DateTime.minute dt <= 99)%Z
  /\ (0 <= DateTime.second dt <= 99)%Z.
Proof.
  unfold DateTime.in_range. rewrite !andb_true_iff, !Z.leb_le. lia.
Qed.

(** X24: for a [datetime] from the year 1000 on and an offset of a sign,
    two digits, a colon and two digits that [_is_valid_timezone_offset]
    accepts, [format_iso8601] returns the date followed by the offset, and
    [validate_iso8601_date] accepts what it returns. *)
Theorem format_iso8601_validates :
  forall dt sign h1 h2 m1 m2,
    DateTime.in_range dt = true ->
    (1000 <= DateTime.year dt)%Z ->
    digit h1 = true -> digit h2 = true ->
    digit m1 = true -> digit m2 = true ->
    _is_valid_timezone_offset (offset_text sign h1 h2 m1 m2) = true ->
    format_iso8601 dt (offset_text sign h1 h2 m1 m2)
    = Ok (strftime_iso dt ++ offset_text sign h1 h2 m1 m2)
    /\ validate_iso8601_date
         (PStr (strftime_iso dt ++ offset_text sign h1 h2 m1 m2))
       = Ok true.
Proof.
  intros dt sign h1 h2 m1 m2 Hdt Hy Hh1 Hh2 Hm1 Hm2 Hv.
  unfold format_iso8601. rewrite Hv. cbn [negb]. split; [reflexivity|].
  pose proof (valid_offset_sign _ _ _ _ _ Hv) as Hs.
  destruct (in_range_fields dt Hdt) as (Hyr & Hmo & Hda & Hho & Hmi & Hse).
  unfold validate_iso8601_date.
  assert (M : match_anchored iso8601_pattern
                (strftime_iso dt ++ offset_text sign h1 h2 m1 m2) = true).
  { rewrite strftime_then_offset. unfold match_anchored.
    match goal with
    | |- matches _ ?s = true => rewrite <- (append_nil_r s)
    end.
    apply matches_seq_app; [|reflexivity].
    unfold iso8601_pattern. cbn [concat fold_right].
    change (offset_text sign h1 h2 m1 m2)
      with (String sign "" ++ String h1 (String h2 "") ++ ":"
            ++ String m1 (String m2 "") ++ "").
    repeat (apply matches_seq_app;
            [first [ reflexivity
                   | apply matches_two_digits, pad2_text; lia
                   | idtac ]|]).
    - pose proof (year_text (DateTime.year dt) ltac:(lia)) as H4.
      unfold four_digits in H4. rewrite andb_true_iff, Nat.eqb_eq in H4.
      now apply matches_times_digits.
    - rewrite matches_class. exact Hs.
    - apply matches_times_digits; [|reflexivity].
      cbn [all_digits]. now rewrite Hh1, Hh2.
    - apply matches_times_digits; [|reflexivity].
      cbn [all_digits]. now rewrite Hm1, Hm2.
    - reflexivity. }
  now rewrite M.
Qed.

Ltac regex_norm :=
  repeat first [rewrite matches_seq_assoc | rewrite matches_eps_seq].

(** X25: [validate_currency_code] accepts exactly the texts of three
    capital letters of ASCII and those followed by one newline, which the
    [$] of the pattern lets through. *)
Theorem validate_currency_code_accepts :
  forall code,
    validate_currency_code code = Ok true
    <-> exists a b c,
          upper a = true /\ upper b = true /\ upper c = true
          /\ (code = PStr (String a (String b (String c "")))
              \/ code = PStr (String a (String b (String c
                                 (String newline ""))))).
Proof.
  intros code.
  assert (E : forall s,
             match_anchored currency_pattern s
             = match s with
               | String a (String b (String c rest)) =>
                   upper a && (upper b && (upper c
                     && (match rest with
                         | EmptyString => true
                         | String _ _ => false
                         end
                         || match rest with
                            | String n EmptyString => Ascii.eqb newline n
                            | _ => false
                            end)))
               | _ => false
               end).
  { intros s. unfold match_anchored, currency_pattern, Opt, Lit.
    cbn [times]. regex_norm. rewrite matches_class_seq.
    destruct s as [|a s]; [reflexivity|].
    regex_norm. rewrite matches_class_seq.
    destruct s as [|b s]; [now rewrite andb_false_r|].
    regex_norm. rewrite matches_class_seq.
    destruct s as [|c s]; [now rewrite !andb_false_r|].
    regex_norm. now rewrite matches_alt, matches_eps, matches_class. }
  split.
  - destruct code; try discriminate. cbn [validate_currency_code].
    rewrite E. destruct s as [|a [|b [|c rest]]]; try discriminate.
    destruct (upper a) eqn:Ha, (upper b) eqn:Hb, (upper c) eqn:Hc;
      try discriminate.
    cbn [andb]. intros H. exists a, b, c. repeat (split; [assumption|]).
    destruct rest as [|n [|? ?]]; try discriminate H; [now left|].
    cbn [orb] in H.
    destruct (Ascii.eqb_spec newline n) as [<-|]; [|discriminate H].
    now right.
  - intros (a & b & c & Ha & Hb & Hc & [-> | ->]);
      cbn [validate_currency_code]; rewrite E, Ha, Hb, Hc; reflexivity.
Qed.

Lemma fits_snoc shape p : forall s,
  fits (shape ++ [p]) s = true
  <-> exists s' c, s = s' ++ String c "" /\ fits shape s' = true
                   /\ p c = true.
Proof.
  induction shape as [|q shape IH]; intros s.
  - cbn [app]. split.
    + destruct s as [|c [|x s]]; cbn [fits].
      * discriminate.
      * rewrite andb_true_r. intros H. now exists "", c.
      * rewrite andb_false_r. discriminate.
    + intros (s' & c & -> & H & Hp). destruct s'; [|discriminate H].
      cbn. now rewrite Hp.
  - cbn [app]. destruct s as [|c s]; cbn [fits].
    + split; [discriminate|]. intros (s' & c & E & _).
      destruct s'; discriminate E.
    + rewrite andb_true_iff, IH. split.
      * intros (Hq & s' & c' & -> & H & Hp).
        exists (String c s'), c'. cbn [append fits]. now rewrite Hq, H.
      * intros (s' & c' & E & H & Hp). destruct s' as [|x s'];
          [discriminate H|].
        cbn [append fits] in *. injection E as <- ->.
        apply andb_true_iff in H. destruct H as [Hq H].
        split; [exact Hq|]. exists s', c'. auto.
Qed.

Lemma iso8601_pattern_fits s :
  match_anchored iso8601_pattern s
  = fits iso8601_shape s || fits (iso8601_shape ++ [Ascii.eqb newline]) s.
Proof.
  unfold match_anchored, iso8601_pattern, iso8601_shape, Opt, Lit.
  cbn [concat fold_right times app].
  do 25 (regex_norm; rewrite matches_class_seq;
         destruct s as [|? s]; [reflexivity|];
         cbn [fits];
         match goal with
         | |- ?p ?c && _ = _ => destruct (p c); cbn [andb orb];
                                 [|reflexivity]
         end).
  regex_norm. rewrite matches_alt, matches_eps, matches_class.
  destruct s as [|n [|? ?]]; cbn [fits orb]; try reflexivity.
  - now rewrite andb_true_r.
  - now rewrite andb_false_r.
Qed.

(** X26: [validate_iso8601_date] accepts exactly the texts of the 25
    characters of the pattern and those followed by one newline. *)
Theorem validate_iso8601_date_accepts :
  forall date_string,
    validate_iso8601_date date_string = Ok true
    <-> exists s,
          fits iso8601_shape s = true
          /\ (date_string = PStr s
              \/ date_string = PStr (s ++ String newline "")).
Proof.
  intros v. split.
  - destruct v; try discriminate. cbn [validate_iso8601_date].
    rewrite iso8601_pattern_fits.
    destruct (fits iso8601_shape s) eqn:H1; cbn [orb negb].
    + intros _. exists s. auto.
    + destruct (fits (iso8601_shape ++ [Ascii.eqb newline]) s) eqn:H2;
        [|discriminate].
      intros _. apply fits_snoc in H2.
      destruct H2 as (s' & c & -> & H & Hc).
      apply Ascii.eqb_eq in Hc. subst c. exists s'. auto.
  - intros (s & H & [-> | ->]); cbn [validate_iso8601_date];
      rewrite iso8601_pattern_fits.
    + now rewrite H.
    + assert (fits (iso8601_shape ++ [Ascii.eqb newline])
                (s ++ String newline "") = true) as ->.
      { apply fits_snoc. exists s, newline. now rewrite Ascii.eqb_refl. }
      now rewrite orb_true_r.
Qed.







Lemma fits_length shape : forall s,
  fits shape s = true -> String.length s = List.length shape.
Proof.
  induction shape as [|p shape IH]; intros [|c s]; cbn; try discriminate;
    [reflexivity|].
  rewrite andb_true_iff. intros [_ H]. f_equal. now apply IH.
Qed.

Lemma fits_suffix shape : forall s1 s2,
  fits shape (s1 ++ s2) = true ->
  fits (skipn (String.length s1) shape) s2 = true.
Proof.
  induction shape as [|p shape IH]; intros [|c s1] s2; cbn [append fits
    String.length skipn]; try discriminate; try (intros H; exact H).
  rewrite andb_true_iff. intros [_ H]. now apply IH.
Qed.

Lemma int_base10_space_digit d :
  digit d = true ->
  int_base10 (String " " (String d "")) = Some (digit_number d).
Proof.
  intros H. unfold int_base10.
  change (skip_spaces (String " " (String d "")))
    with (skip_spaces (String d "")).
  change (int_base10 (String d "") = Some (digit_number d)).
  rewrite int_base10_digits by (cbn [all_digits]; now rewrite H).
  reflexivity.
Qed.

(** X28: the formatter and the validator disagree on the offsets:
    [format_iso8601] accepts an offset whose hours are a space and a
    digit, which [int()] reads, and [validate_iso8601_date] refuses the
    date it then returns. *)
Theorem format_iso8601_offset_with_space :
  forall dt sign d m1 m2,
    Ascii.eqb sign "+" || Ascii.eqb sign "-" = true ->
    digit d = true -> digit m1 = true -> digit m2 = true ->
    (10 * digit_number m1 + digit_number m2 <= 59)%Z ->
    let offset :=
      String sign (String " " (String d (String ":" (String m1
                     (String m2 ""))))) in
    format_iso8601 dt offset = Ok (strftime_iso dt ++ offset)
    /\ validate_iso8601_date (PStr (strftime_iso dt ++ offset))
       = Raise (ValueError ("Invalid ISO 8601 date format: "
                              ++ strftime_iso dt ++ offset)).
Proof.
  intros dt sign d m1 m2 Hs Hd Hm1 Hm2 Hmin offset.
  assert (V : _is_valid_timezone_offset offset = true).
  { unfold _is_valid_timezone_offset, offset, char_at, slice, str_in.
    cbn [String.length Nat.eqb negb Nat.add Nat.sub substring existsb
           String.eqb].
    rewrite (int_base10_space_digit _ Hd), (int_base10_two _ _ Hm1 Hm2).
    change ((":" =? ":")%char) with true.
    destruct (digit_char _ Hd) as (_ & _ & _ & _ & ? & _).
    destruct (digit_char _ Hm1) as (_ & _ & _ & _ & ? & _).
    destruct (digit_char _ Hm2) as (_ & _ & _ & _ & ? & _).
    apply orb_true_iff in Hs.
    assert ((if (sign =? "+")%char then true else false)
            || ((if (sign =? "-")%char then true else false) || false)
            = true) as ->.
    { destruct Hs as [-> | ->]; [reflexivity|]. now rewrite !orb_true_r. }
    cbn [negb].
    repeat match goal with
           | |- context [(?a <=? ?b)%Z] =>
               destruct (Z.leb_spec a b); [|lia]
           end.
    cbn [andb negb].
    destruct (Z.eqb_spec (digit_number d) 14); [lia|]. reflexivity. }
  split.
  - unfold format_iso8601. now rewrite V.
  - unfold validate_iso8601_date. rewrite iso8601_pattern_fits.
    assert (F1 : fits iso8601_shape (strftime_iso dt ++ offset) = false).
    { destruct (fits iso8601_shape (strftime_iso dt ++ offset)) eqn:F;
        [|reflexivity].
      pose proof (fits_length _ _ F) as L. rewrite length_append in L.
      cbn [String.length List.length iso8601_shape offset] in L.
      apply fits_suffix in F.
      replace (String.length (strftime_iso dt)) with 19%nat in F by lia.
      cbn [skipn iso8601_shape fits offset] in F.
      rewrite !andb_true_iff in F. destruct F as (_ & F & _).
      discriminate F. }
    assert (F2 : fits (iso8601_shape ++ [Ascii.eqb newline])
                   (strftime_iso dt ++ offset) = false).
    { destruct (fits (iso8601_shape ++ [Ascii.eqb newline])
                  (strftime_iso dt ++ offset)) eqn:F; [|reflexivity].
      pose proof (fits_length _ _ F) as L. rewrite length_append in L.
      cbn [String.length List.length iso8601_shape offset app] in L.
      apply fits_suffix in F.
      replace (String.length (strftime_iso dt)) with 20%nat in F by lia.
      cbn [skipn iso8601_shape fits offset app] in F.
      rewrite !andb_true_iff in F. destruct F as (_ & _ & _ & F & _).
      destruct (digit_char _ Hd) as (_ & _ & _ & _ & _ & Hsp).
      clear -F Hd. destruct d as [[] [] [] [] [] [] [] []];
        vm_compute in Hd; try discriminate Hd; vm_compute in F;
        discriminate F. }
    rewrite F1, F2. reflexivity.
Qed.

(** X29: the locations and the beacons of a pass built through the public
    interface pass [validate_location_limits] and
    [validate_beacon_limits]. *)
Theorem reachable_pass_within_limits :
  forall p,
    reachable p ->
    exists locations beacons,
      Dict.get "_locations" p = Some locations
      /\ Dict.get "_beacons" p = Some beacons
      /\ validate_location_limits locations = Ok true
      /\ validate_beacon_limits beacons = Ok true.
Proof.
  intros p R. pose proof (PassFacts.reachable_well_formed _ R) as W.
  destruct (wf_locations _ W) as (ls & Hl & Hlen).
  destruct (wf_beacons _ W) as (bs & Hb & Hblen).
  exists (PList (map PLocation ls)), (PList (map PIBeacon bs)).
  split; [exact Hl|]. split; [exact Hb|].
  cbn [validate_location_limits validate_beacon_limits].
  rewrite !length_map.
  destruct (Nat.ltb_spec 10 (List.length ls)); [lia|].
  destruct (Nat.ltb_spec 10 (List.length bs)); [lia|]. auto.
Qed.

(** ** The properties above at sample values *)

Lemma create_touches_hashes_only_witness :
  "serial_number" <> "_hashes"
  /\ Dict.get "serial_number"
       (post (create sample_float_repr unit unit stub_read_file
                stub_load_certificate stub_load_key stub_sign
                "cert.pem" "key.pem" "wwdr.pem" "secret" asset_pass))
     = Dict.get "serial_number" asset_pass.
Proof.
  split; [discriminate|].
  apply (create_touches_hashes_only sample_float_repr unit unit stub_read_file
           stub_load_certificate stub_load_key stub_sign).
  discriminate.
Defined.

Lemma create_archive_contents_witness :
  res (create sample_float_repr unit unit stub_read_file
         stub_load_certificate stub_load_key stub_sign
         "cert.pem" "key.pem" "wwdr.pem" "secret" asset_pass)
  = Ok asset_archive
  /\ exists pass_json manifest signature assets,
       _create_pass_json sample_float_repr asset_pass = Ok pass_json
       /\ res (_create_manifest sample_float_repr pass_json asset_pass)
          = Ok manifest
       /\ res (_create_signature_crypto unit unit stub_read_file
                 stub_load_certificate stub_load_key stub_sign
                 manifest "cert.pem" "key.pem" "wwdr.pem" "secret"
                 (post (_create_manifest sample_float_repr pass_json
                          asset_pass)))
          = Ok signature
       /\ Dict.get "_files" asset_pass
          = Some (PDict (map (fun e => (fst e, PBytes (snd e))) assets))
       /\ Forall (fun e => zip_filename (fst e) <> "") assets
       /\ asset_archive
          = ([("signature", signature);
              ("manifest.json", encode_utf8 manifest);
              ("pass.json", encode_utf8 pass_json)]
               ++ map (fun e => (zip_filename (fst e), snd e)) assets)%list
       /\ trace (create sample_float_repr unit unit stub_read_file
                   stub_load_certificate stub_load_key stub_sign
                   "cert.pem" "key.pem" "wwdr.pem" "secret" asset_pass)
          = ([ReadFile "cert.pem"; ReadFile "key.pem"; ReadFile "wwdr.pem";
              SignManifest manifest]
               ++ duplicate_names ["signature"; "manifest.json"; "pass.json"]
                    (map (fun e => zip_filename (fst e)) assets))%list.
Proof.
  assert (H : res (create sample_float_repr unit unit stub_read_file
                     stub_load_certificate stub_load_key stub_sign
                     "cert.pem" "key.pem" "wwdr.pem" "secret" asset_pass)
              = Ok asset_archive) by (vm_compute; reflexivity).
  split; [exact H|].
  exact (create_archive_contents sample_float_repr unit unit stub_read_file
           stub_load_certificate stub_load_key stub_sign
           "cert.pem" "key.pem" "wwdr.pem" "secret" asset_pass asset_archive
           H).
Defined.

Lemma add_file_replaces_witness :
  reachable asset_pass
  /\ post (add_file "icon.png" (PBytes (ascii_bytes "new"))
             (post (add_file "icon.png" (PBytes (ascii_bytes "old"))
                      asset_pass)))
     = post (add_file "icon.png" (PBytes (ascii_bytes "new")) asset_pass).
Proof.
  split; [exact asset_pass_reachable|].
  destruct (add_file_replaces asset_pass "icon.png"
              (PBytes (ascii_bytes "old")) asset_pass_reachable)
    as (files & _ & _ & _ & _ & _ & H).
  exact (H (PBytes (ascii_bytes "new"))).
Defined.

Lemma service_pass_reachable : reachable service_pass.
Proof.
  unfold service_pass. do 4 (apply reach_setattr; [|reflexivity]).
  apply reach_new.
Qed.

Lemma service_pass_json_dict : json_dict service_pass = Ok service_dict.
Proof. vm_compute. reflexivity. Qed.

Lemma full_pass_json_dict : json_dict full_pass = Ok full_dict.
Proof. vm_compute. reflexivity. Qed.

Lemma json_dict_web_service_witness :
  json_dict service_pass = Ok service_dict
  /\ exists url,
       Dict.get "web_service_url" service_pass = Some url
       /\ Dict.get "webServiceURL" service_dict
          = (if truthy url then Some url else None)
       /\ Dict.get "authenticationToken" service_dict
          = (if truthy url
             then Dict.get "authentication_token" service_pass else None).
Proof.
  split; [exact service_pass_json_dict|].
  exact (json_dict_web_service service_pass service_dict
           service_pass_json_dict).
Defined.

Lemma json_dict_voided_and_sharing_witness :
  json_dict service_pass = Ok service_dict
  /\ exists voided sharing,
       Dict.get "voided" service_pass = Some voided
       /\ Dict.get "sharing_prohibited" service_pass = Some sharing
       /\ Dict.get "voided" service_dict
          = (if truthy voided then Some (PBool true) else None)
       /\ Dict.get "sharingProhibited" service_dict
          = (if is_none sharing then None else Some sharing).
Proof.
  split; [exact service_pass_json_dict|].
  exact (json_dict_voided_and_sharing service_pass service_dict
           service_pass_json_dict).
Defined.

Lemma json_dict_copied_attributes_witness :
  json_dict service_pass = Ok service_dict
  /\ In ("logo_text", "logoText") copied_attributes
  /\ exists v,
       Dict.get "logo_text" service_pass = Some v
       /\ Dict.get "logoText" service_dict
          = (if truthy v then Some v else None).
Proof.
  assert (Hin : In ("logo_text", "logoText") copied_attributes)
    by (simpl; tauto).
  split; [exact service_pass_json_dict|]. split; [exact Hin|].
  exact (json_dict_copied_attributes service_pass service_dict _ _
           service_pass_json_dict Hin).
Defined.

Lemma json_dict_locations_and_beacons_witness :
  reachable full_pass
  /\ json_dict full_pass = Ok full_dict
  /\ exists ls bs,
       Dict.get "_locations" full_pass = Some (PList (map PLocation ls))
       /\ Dict.get "_beacons" full_pass = Some (PList (map PIBeacon bs))
       /\ Dict.get "locations" full_dict
          = match ls with
            | [] => None
            | _ :: _ =>
                Some (PList (map (fun l => PDict (LocationOps.json_dict l)) ls))
            end
       /\ Dict.get "beacons" full_dict
          = match bs with
            | [] => None
            | _ :: _ =>
                Some (PList (map (fun b => PDict (IBeaconOps.json_dict b)) bs))
            end.
Proof.
  split; [exact full_pass_reachable|].
  split; [exact full_pass_json_dict|].
  exact (json_dict_locations_and_beacons full_pass full_dict
           full_pass_reachable full_pass_json_dict).
Defined.

Lemma json_dict_required_fields_witness :
  json_dict service_pass = Ok service_dict
  /\ (forall attr key,
         In (attr, key) required_attributes ->
         exists v, Dict.get attr service_pass = Some v
                   /\ Dict.get key service_dict = Some v)
  /\ exists kind proj,
       Dict.get "pass_information" service_pass
       = Some (PPassInformation kind proj)
       /\ Dict.get (jsonname kind) service_dict = Some (PDict proj).
Proof.
  split; [exact service_pass_json_dict|].
  exact (json_dict_required_fields service_pass service_dict
           service_pass_json_dict).
Defined.

Lemma json_dict_projected_attributes_witness :
  json_dict service_pass = Ok service_dict
  /\ In "personalization" ["nfc"; "semantics"; "personalization"]
  /\ exists v,
       Dict.get "personalization" service_pass = Some v
       /\ if truthy v
          then exists j, call_json_dict v = Ok j
                         /\ Dict.get "personalization" service_dict = Some j
          else Dict.get "personalization" service_dict = None.
Proof.
  assert (Hin : In "personalization" ["nfc"; "semantics"; "personalization"])
    by (simpl; tauto).
  split; [exact service_pass_json_dict|]. split; [exact Hin|].
  exact (json_dict_projected_attributes service_pass service_dict _
           service_pass_json_dict Hin).
Defined.

Lemma relevant_date_json_dict_shapes_witness :
  RelevantDateOps.init None (Some "2026-03-15T18:00:00-08:00")
    (Some "2026-03-15T22:00:00-08:00") = Ok demo_date
  /\ ((exists d, None = Some d /\ d <> ""
                 /\ RelevantDateOps.json_dict demo_date = [("date", PStr d)])
      \/ (exists s e,
             Some "2026-03-15T18:00:00-08:00" = Some s
             /\ Some "2026-03-15T22:00:00-08:00" = Some e
             /\ s <> "" /\ e <> ""
             /\ RelevantDateOps.json_dict demo_date
                = [("startDate", PStr s); ("endDate", PStr e)])).
Proof.
  split; [reflexivity|].
  exact (relevant_date_json_dict_shapes None
           (Some "2026-03-15T18:00:00-08:00")
           (Some "2026-03-15T22:00:00-08:00") demo_date eq_refl).
Defined.

Lemma location_init_then_json_dict_witness :
  LocationOps.init stub_float_of_str (PInt 37) (PStr "west") PNone
    (Some "Store nearby") (PInt 100)
  = Ok (Location.mk (float_of_Z 37) float_zero None (Some (float_of_Z 100))
          (Some "Store nearby"))
  /\ LocationOps.json_dict
       (Location.mk (float_of_Z 37) float_zero None (Some (float_of_Z 100))
          (Some "Store nearby"))
     = [("latitude", PFloat (float_of_Z 37));
        ("longitude", PFloat float_zero);
        ("maxDistance", PFloat (float_of_Z 100));
        ("relevantText", PStr "Store nearby")].
Proof.
  assert (H : LocationOps.init stub_float_of_str (PInt 37) (PStr "west") PNone
                (Some "Store nearby") (PInt 100)
              = Ok (Location.mk (float_of_Z 37) float_zero None
                      (Some (float_of_Z 100)) (Some "Store nearby")))
    by (vm_compute; reflexivity).
  split; [exact H|].
  rewrite (location_init_then_json_dict stub_float_of_str _ _ _ _ _ _ H).
  vm_compute. reflexivity.
Defined.

Lemma hex_to_rgb_six_digits_witness :
  all_hex "FF6E00" = true
  /\ hex_to_rgb "#FF6E00" = Ok (rgb_text 255 110 0).
Proof.
  split; [reflexivity|].
  exact (hex_to_rgb_six_digits 1 "F" "F" "6" "E" "0" "0" eq_refl).
Defined.

Lemma hex_to_rgb_three_digits_witness :
  all_hex "F60" = true
  /\ hex_to_rgb "#F60" = Ok (rgb_text 255 102 0).
Proof.
  split; [reflexivity|].
  exact (hex_to_rgb_three_digits 1 "F" "6" "0" eq_refl).
Defined.

Lemma hex_to_rgb_accepts_plus_sign_witness :
  all_hex "F6E00" = true
  /\ hex_to_rgb "+F6E00" = Ok (rgb_text 15 110 0).
Proof.
  split; [reflexivity|].
  exact (hex_to_rgb_accepts_plus_sign "F" "6" "E" "0" "0" eq_refl).
Defined.

Lemma field_constructors_json_dict_witness :
  "when" <> ""
  /\ is_none (PStr "2026-03-15T19:00:00-08:00") = false
  /\ Field.is_empty_str (PStr "2026-03-15T19:00:00-08:00") = false
  /\ Field.json_dict
       (Field.__init__ (PStr "when") (PStr "2026-03-15T19:00:00-08:00")
          (PStr ""))
     = Ok [("key", PStr "when");
           ("value", PStr "2026-03-15T19:00:00-08:00")]
  /\ Field.json_dict
       (Field.DateField (PStr "when") (PStr "2026-03-15T19:00:00-08:00")
          (PStr "") (PStr "PKDateStyleShort") (PStr "")
          (PBool false) (PBool false))
     = Ok [("key", PStr "when");
           ("value", PStr "2026-03-15T19:00:00-08:00");
           ("dateStyle", PStr "PKDateStyleShort");
           ("isRelative", PBool false)].
Proof.
  assert (Hk : "when" <> "") by discriminate.
  split; [exact Hk|]. split; [reflexivity|]. split; [reflexivity|].
  exact (field_constructors_json_dict "when"
           (PStr "2026-03-15T19:00:00-08:00") "" "PKDateStyleShort" ""
           false false Hk eq_refl eq_refl).
Defined.

Lemma timezone_offset_of_digits_witness :
  Regex.digit "1" = true /\ Regex.digit "4" = true
  /\ Regex.digit "3" = true /\ Regex.digit "0" = true
  /\ _is_valid_timezone_offset "+14:30" = false.
Proof.
  repeat (split; [reflexivity|]).
  exact (timezone_offset_of_digits "+" "1" "4" "3" "0"
           eq_refl eq_refl eq_refl eq_refl).
Defined.

Lemma format_iso8601_validates_witness :
  DateTime.in_range demo_datetime = true
  /\ (1000 <= DateTime.year demo_datetime)%Z
  /\ Regex.digit "0" = true /\ Regex.digit "8" = true
  /\ _is_valid_timezone_offset "-08:00" = true
  /\ format_iso8601 demo_datetime "-08:00" = Ok "2026-03-15T19:00:00-08:00"
  /\ Validators.validate_iso8601_date (PStr "2026-03-15T19:00:00-08:00")
     = Ok true.
Proof.
  assert (Hy : (1000 <= DateTime.year demo_datetime)%Z) by (simpl; lia).
  split; [reflexivity|]. split; [exact Hy|].
  split; [reflexivity|]. split; [reflexivity|]. split; [reflexivity|].
  exact (format_iso8601_validates demo_datetime "-" "0" "8" "0" "0"
           eq_refl Hy eq_refl eq_refl eq_refl eq_refl eq_refl).
Defined.

Lemma format_iso8601_offset_with_space_witness :
  Ascii.eqb "+" "+" || Ascii.eqb "+" "-" = true
  /\ Regex.digit "5" = true /\ Regex.digit "3" = true
  /\ Regex.digit "0" = true
  /\ (10 * digit_number "3" + digit_number "0" <= 59)%Z
  /\ format_iso8601 demo_datetime "+ 5:30" = Ok "2026-03-15T19:00:00+ 5:30"
  /\ Validators.validate_iso8601_date (PStr "2026-03-15T19:00:00+ 5:30")
     = Raise (ValueError
                "Invalid ISO 8601 date format: 2026-03-15T19:00:00+ 5:30").
Proof.
  assert (Hm : (10 * digit_number "3" + digit_number "0" <= 59)%Z)
    by (vm_compute; discriminate).
  repeat (split; [reflexivity|]). split; [exact Hm|].
  exact (format_iso8601_offset_with_space demo_datetime "+" "5" "3" "0"
           eq_refl eq_refl eq_refl eq_refl Hm).
Defined.

Lemma reachable_pass_within_limits_witness :
  reachable full_pass
  /\ exists locations beacons,
       Dict.get "_locations" full_pass = Some locations
       /\ Dict.get "_beacons" full_pass = Some beacons
       /\ Validators.validate_location_limits locations = Ok true
       /\ Validators.validate_beacon_limits beacons = Ok true.
Proof.
  split; [exact full_pass_reachable|].
  exact (reachable_pass_within_limits full_pass full_pass_reachable).
Defined.
